(** * The Open Food Facts client: validation, sanitization and request layer

    A shallow embedding of the class [OpenFoodFactsAPI] (the API client of
    node-red-contrib-open-food-facts) and the properties its specification
    states about it.

    Conventions of the embedding.
    - A JavaScript string is the list of its UTF-16 code units ([jsstring]);
      [js "..."] turns an ASCII literal into one.
    - A JavaScript value is a [JsVal].  Numbers are the integer-valued ones
      (a [Z], printed in decimal as JavaScript prints integers below
      10^21); objects are finite maps from property names to values, that
      is, plain data objects as [JSON.parse] builds them: own properties
      only, no prototype chain, no property order.
    - The wording of a [TypeError] the engine raises is that of Node.js;
      no property below depends on it.
    - A call either returns or throws ([Completion]); an [async] method is
      its body, a rejected promise being a [Throw].
    - What a method does to the outside (reads of an uploaded file, calls of
      [fetch]) is logged as a list of [Event]s next to its completion. *)

From Stdlib Require Import ZArith NArith List Ascii String Lia.
From Stdlib Require Import DecimalString.
From Stdlib Require DecimalZ DecimalFacts.
From stdpp Require Import base list gmap strings.

Set Warnings "-register-all".
Local Open Scope Z_scope.

(* ===================================================================== *)
(** ** JavaScript strings *)
(* ===================================================================== *)

Module JS.

(** A string is a sequence of 16-bit code units. *)
Abbreviation jsstring := (list N).

(** An ASCII literal as a JavaScript string. *)
Definition js (s : string) : jsstring :=
  map N_of_ascii (list_ascii_of_string s).

(** [a === b] on two strings. *)
Definition str_eqb (a b : jsstring) : bool := bool_decide (a = b).

(** [s.startsWith(p)] *)
Fixpoint startsWith (s p : jsstring) : bool :=
  match p, s with
  | [], _ => true
  | _ :: _, [] => false
  | b :: p', a :: s' => (a =? b)%N && startsWith s' p'
  end.

(** White space and line terminators, the code units [trim] strips. *)
Definition is_white_space (c : N) : bool :=
  ((0x09 <=? c) && (c <=? 0x0D) || (c =? 0x20) || (c =? 0xA0)
   || (c =? 0x1680) || (0x2000 <=? c) && (c <=? 0x200A)
   || (c =? 0x2028) || (c =? 0x2029) || (c =? 0x202F) || (c =? 0x205F)
   || (c =? 0x3000) || (c =? 0xFEFF))%N.

Fixpoint trimStart (s : jsstring) : jsstring :=
  match s with
  | [] => []
  | c :: s' => if is_white_space c then trimStart s' else s
  end.

Definition trimEnd (s : jsstring) : jsstring := rev (trimStart (rev s)).

(** [s.trim()] *)
Definition trim (s : jsstring) : jsstring := trimEnd (trimStart s).

(** [s.substring(0, n)] *)
Definition substring0 (n : nat) (s : jsstring) : jsstring := take n s.

(** [s.repeat(n)] *)
Fixpoint str_repeat (s : jsstring) (n : nat) : jsstring :=
  match n with
  | O => []
  | S n' => s ++ str_repeat s n'
  end.

(** The decimal numeral of an integer. *)
Definition decimal (z : Z) : jsstring :=
  js (DecimalString.NilZero.string_of_int (Z.to_int z)).

(** A Number holds 53 significant bits.  Every integer up to [2 ^ 53] in
    magnitude is a Number; a larger integer [m] stands for the Number
    nearest to it, ties going to the even significand. *)
Definition round_to_double (m : Z) : Z :=
  let bits := Z.log2 m + 1 in
  if bits <=? 53 then m
  else
    let shift := bits - 53 in
    let q := Z.shiftr m shift in
    let r := Z.land m (Z.ones shift) in
    let half := Z.shiftl 1 (shift - 1) in
    let q' := if (half <? r) || ((r =? half) && Z.odd q) then q + 1 else q in
    Z.shiftl q' shift.

(** The numeral [s] of [k] digits, and the exponent [n], with
    [s * 10 ^ (n - k)] a decimal that denotes the Number [x] of [d]
    digits, where there is one with [k] digits: the nearer of the two
    neighbours of [x] at that precision, the even one on a tie. *)
Definition candidate (x d k : Z) : option (Z * Z) :=
  let scale := 10 ^ (d - k) in
  let lo := x / scale in
  let hi := lo + 1 in
  let fits s := round_to_double (s * scale) =? x in
  let below := x - lo * scale in
  let above := hi * scale - x in
  let upper := if hi =? 10 ^ k then (10 ^ (k - 1), d + 1) else (hi, d) in
  match fits lo, fits hi with
  | true, true =>
      if (below <? above) || ((below =? above) && Z.even lo)
      then Some (lo, d) else Some upper
  | true, false => Some (lo, d)
  | false, true => Some upper
  | false, false => None
  end.

(** The shortest numeral that denotes [x]; 17 digits always do. *)
Definition shortest (x : Z) : Z * Z :=
  let d := Z.of_nat (length (decimal x)) in
  default (x, d)
    (list_find (fun c : option (Z * Z) => is_Some c)
       ((fun k => candidate x d (Z.of_nat k)) <$> seq 1 17) ≫= fun found => found.2).

(** The digits of [s] padded with zeros up to 21 digits, and in exponent
    notation from there on. *)
Definition scientific (s n : Z) : jsstring :=
  let digits := decimal s in
  let k := Z.of_nat (length digits) in
  if n <=? 21 then digits ++ str_repeat (js "0") (Z.to_nat (n - k))
  else
    match digits with
    | [] => []
    | first :: [] => first :: js "e+" ++ decimal (n - 1)
    | first :: rest => first :: js "." ++ rest ++ js "e+" ++ decimal (n - 1)
    end.

(** [n.toString()] and [`${n}`] for an integer-valued number: the decimal
    numeral up to [2 ^ 53], beyond it the shortest numeral that reads back
    as the same Number. *)
Definition Number_toString (z : Z) : jsstring :=
  if Z.abs z <=? 2 ^ 53 then decimal z
  else
    let x := round_to_double (Z.abs z) in
    (if z <? 0 then js "-" else [])
    ++ (if 2 ^ 1024 <=? x then js "Infinity"
        else let '(s, n) := shortest x in scientific s n).

End JS.
Export JS.

(* ===================================================================== *)
(** ** JavaScript values, exceptions and completions *)
(* ===================================================================== *)

(** Data as a payload or a decoded body holds it: the primitives, arrays
    and plain objects, which are given by their own properties and inherit
    the rest from [Array.prototype] and [Object.prototype].  A number is
    integer-valued; beyond [2 ^ 53], where not every integer is a Number,
    [JNum z] is the Number nearest to [z]. *)
Inductive JsVal :=
| JUndefined
| JNull
| JBool (b : bool)
| JNum (z : Z)
| JStr (s : jsstring)
| JArr (xs : list JsVal)
| JObj (props : gmap jsstring JsVal).

(** [typeof v] *)
Definition typeof (v : JsVal) : jsstring :=
  match v with
  | JUndefined => js "undefined"
  | JNull => js "object"
  | JBool _ => js "boolean"
  | JNum _ => js "number"
  | JStr _ => js "string"
  | JArr _ => js "object"
  | JObj _ => js "object"
  end.

(** Truthiness: what [if (v)], [!v], [v && ...] and [v || ...] test. *)
Definition truthy (v : JsVal) : bool :=
  match v with
  | JUndefined | JNull => false
  | JBool b => b
  | JNum z => negb (z =? 0)
  | JStr s => negb (str_eqb s [])
  | JArr _ | JObj _ => true
  end.

Fixpoint join (sep : jsstring) (parts : list jsstring) : jsstring :=
  match parts with
  | [] => []
  | [p] => p
  | p :: rest => p ++ sep ++ join sep rest
  end.

(** The exceptions the client deals with: a plain [Error], the client's own
    [OpenFoodFactsError] subclass, and the engine's [TypeError]. *)
Inductive Exn :=
| Error (message : jsstring)
| OpenFoodFactsError (message details : jsstring) (status : Z)
| TypeError (message : jsstring).

(** [error.message] *)
Definition message (e : Exn) : jsstring :=
  match e with
  | Error m => m
  | OpenFoodFactsError m _ _ => m
  | TypeError m => m
  end.

(** [error instanceof OpenFoodFactsError] *)
Definition instanceof_OpenFoodFactsError (e : Exn) : bool :=
  match e with
  | OpenFoodFactsError _ _ _ => true
  | _ => false
  end.

Inductive Completion (A : Type) :=
| Return (a : A)
| Throw (e : Exn).
Arguments Return {A} a.
Arguments Throw {A} e.

(** One statement after another: the first [Throw] ends the evaluation. *)
Definition and_then {A B : Type} (c : Completion A) (k : A -> Completion B)
  : Completion B :=
  match c with
  | Return a => k a
  | Throw e => Throw e
  end.

Notation "'let?' x := c 'in' k" := (and_then c (fun x => k))
  (at level 10, x name, c at level 100, k at level 200, only parsing).

(** What the engine throws when neither [toString] nor [valueOf] of an
    object gives a primitive. *)
Definition not_primitive : Exn :=
  TypeError (js "Cannot convert object to primitive value").

(** Whether the decoded object has a property [toString] of its own.  Such
    a property is data, so it cannot be called, and it hides the method
    that every object inherits. *)
Definition hides_toString (props : gmap jsstring JsVal) : bool :=
  bool_decide (is_Some (props !! js "toString")).

(** String conversion, as template literals, [URLSearchParams], [FormData]
    and property keys apply it.  An array is converted by
    [Array.prototype.toString], which joins the conversions of its
    elements; an object by the [toString] it has or inherits, and the
    conversion throws where that is not a function. *)
Fixpoint ToString (v : JsVal) : Completion jsstring :=
  match v with
  | JUndefined => Return (js "undefined")
  | JNull => Return (js "null")
  | JBool true => Return (js "true")
  | JBool false => Return (js "false")
  | JNum z => Return (Number_toString z)
  | JStr s => Return s
  | JArr xs =>
      match
        (fix elements (xs : list JsVal) : Completion (list jsstring) :=
           match xs with
           | [] => Return []
           | x :: rest =>
               match
                 match x with
                 | JUndefined | JNull => Return []
                 | _ => ToString x
                 end
               with
               | Throw e => Throw e
               | Return part =>
                   match elements rest with
                   | Throw e => Throw e
                   | Return parts => Return (part :: parts)
                   end
               end
           end) xs
      with
      | Throw e => Throw e
      | Return parts => Return (join (js ",") parts)
      end
  | JObj props =>
      if hides_toString props then Throw not_primitive
      else Return (js "[object Object]")
  end.

(** [v.toString()], the method call, for the receiver written [what]. *)
Definition toString_method (what : jsstring) (v : JsVal) : Completion jsstring :=
  match v with
  | JUndefined =>
      Throw (TypeError (js "Cannot read properties of undefined (reading 'toString')"))
  | JNull =>
      Throw (TypeError (js "Cannot read properties of null (reading 'toString')"))
  | JObj props =>
      if hides_toString props
      then Throw (TypeError (what ++ js ".toString is not a function"))
      else Return (js "[object Object]")
  | _ => ToString v
  end.

(** How the engine writes a value into the message of one of its own
    errors, which runs no code of the value: an object whose [toString]
    and [constructor] are the inherited ones is written with the name of
    its constructor, any other by its class. *)
Definition engine_text (v : JsVal) : jsstring :=
  match v with
  | JUndefined => js "undefined"
  | JNull => js "null"
  | JBool true => js "true"
  | JBool false => js "false"
  | JNum z => Number_toString z
  | JStr s => s
  | JArr _ => js "[object Array]"
  | JObj props =>
      if hides_toString props || bool_decide (is_Some (props !! js "constructor"))
      then js "[object Object]" else js "#<Object>"
  end.

(* ===================================================================== *)
(** ** Regular expressions *)
(* ===================================================================== *)

Module Regex.

Inductive regex :=
| Void
| Eps
| Class (p : N -> bool)
| Seq (r1 r2 : regex)
| Alt (r1 r2 : regex)
| Star (r : regex).

Fixpoint nullable (r : regex) : bool :=
  match r with
  | Void => false
  | Eps => true
  | Class _ => false
  | Seq r1 r2 => nullable r1 && nullable r2
  | Alt r1 r2 => nullable r1 || nullable r2
  | Star _ => true
  end.

(** The residual of [r] after reading the code unit [c]. *)
Fixpoint deriv (c : N) (r : regex) : regex :=
  match r with
  | Void => Void
  | Eps => Void
  | Class p => if p c then Eps else Void
  | Seq r1 r2 =>
      if nullable r1
      then Alt (Seq (deriv c r1) r2) (deriv c r2)
      else Seq (deriv c r1) r2
  | Alt r1 r2 => Alt (deriv c r1) (deriv c r2)
  | Star r1 => Seq (deriv c r1) (Star r1)
  end.

(** [/^r$/.test(s)]: without the [m] flag the anchors are the two ends of
    the input, so the whole of [s] has to match [r]. *)
Fixpoint test (r : regex) (s : jsstring) : bool :=
  match s with
  | [] => nullable r
  | c :: s' => test (deriv c r) s'
  end.

(** [r{n}] *)
Fixpoint power (r : regex) (n : nat) : regex :=
  match n with
  | O => Eps
  | S n' => Seq r (power r n')
  end.

(** [r{0,n}] *)
Fixpoint upto (r : regex) (n : nat) : regex :=
  match n with
  | O => Eps
  | S n' => Alt Eps (Seq r (upto r n'))
  end.

(** [r{lo,hi}] *)
Definition between (r : regex) (lo hi : nat) : regex :=
  Seq (power r lo) (upto r (hi - lo)).

(** [r+] *)
Definition plus (r : regex) : regex := Seq r (Star r).

(** [\d]: the ten ASCII digits. *)
Definition is_digit (c : N) : bool := ((0x30 <=? c) && (c <=? 0x39))%N.
Definition digit : regex := Class is_digit.

(** What a regular expression denotes. *)
Inductive lang : regex -> jsstring -> Prop :=
| lang_eps : lang Eps []
| lang_class p c : p c = true -> lang (Class p) [c]
| lang_seq r1 r2 s1 s2 : lang r1 s1 -> lang r2 s2 -> lang (Seq r1 r2) (s1 ++ s2)
| lang_alt_l r1 r2 s : lang r1 s -> lang (Alt r1 r2) s
| lang_alt_r r1 r2 s : lang r2 s -> lang (Alt r1 r2) s
| lang_star_nil r : lang (Star r) []
| lang_star_cons r s1 s2 :
    lang r s1 -> lang (Star r) s2 -> lang (Star r) (s1 ++ s2).

End Regex.

(* ===================================================================== *)
(** ** The client: barcode validation *)
(* ===================================================================== *)

(** [/^\d+$/] and [/^\d{8,13}$/] *)
Definition re_digits : Regex.regex := Regex.plus Regex.digit.
Definition re_barcode : Regex.regex := Regex.between Regex.digit 8 13.

(** [_validateBarcode(barcode, allowPartial = false)] *)
Definition _validateBarcode (barcode : JsVal) (allowPartial : bool)
  : Completion unit :=
  match barcode with
  | JStr s =>
      if allowPartial then
        if negb (Regex.test re_digits s) || (length s =? 0)%nat
        then Throw (Error (js "Invalid barcode format. Must contain only digits."))
        else Return tt
      else
        if negb (Regex.test re_barcode s)
        then Throw (Error (js "Invalid barcode format. Must be 8-13 digits."))
        else Return tt
  | _ => (* typeof barcode !== 'string' *)
      Throw (Error (js "Barcode must be a string"))
  end.

(* ===================================================================== *)
(** ** The [he] package: [he.encode] *)
(* ===================================================================== *)

Module He.

(** One upper-case hexadecimal digit per digit of the numeral. *)
Fixpoint hex_upper (u : Hexadecimal.uint) : jsstring :=
  match u with
  | Hexadecimal.Nil => []
  | Hexadecimal.D0 u' => 0x30%N :: hex_upper u'
  | Hexadecimal.D1 u' => 0x31%N :: hex_upper u'
  | Hexadecimal.D2 u' => 0x32%N :: hex_upper u'
  | Hexadecimal.D3 u' => 0x33%N :: hex_upper u'
  | Hexadecimal.D4 u' => 0x34%N :: hex_upper u'
  | Hexadecimal.D5 u' => 0x35%N :: hex_upper u'
  | Hexadecimal.D6 u' => 0x36%N :: hex_upper u'
  | Hexadecimal.D7 u' => 0x37%N :: hex_upper u'
  | Hexadecimal.D8 u' => 0x38%N :: hex_upper u'
  | Hexadecimal.D9 u' => 0x39%N :: hex_upper u'
  | Hexadecimal.Da u' => 0x41%N :: hex_upper u'
  | Hexadecimal.Db u' => 0x42%N :: hex_upper u'
  | Hexadecimal.Dc u' => 0x43%N :: hex_upper u'
  | Hexadecimal.Dd u' => 0x44%N :: hex_upper u'
  | Hexadecimal.De u' => 0x45%N :: hex_upper u'
  | Hexadecimal.Df u' => 0x46%N :: hex_upper u'
  end.

(** ['&#x' + codePoint.toString(16).toUpperCase() + ';'] *)
Definition hexEscape (codePoint : N) : jsstring :=
  js "&#x" ++ hex_upper (N.to_hex_uint codePoint) ++ js ";".

(** The symbols that are unsafe in markup: the double quote, the
    ampersand, the apostrophe, the two angle brackets and the backtick. *)
Definition regexEscape (c : N) : bool :=
  ((c =? 0x22) || (c =? 0x26) || (c =? 0x27) || (c =? 0x3C) || (c =? 0x3E)
   || (c =? 0x60))%N.

(** The code units of the Basic Multilingual Plane that are neither
    printable ASCII nor one of the plain white-space controls. *)
Definition regexBmpWhitelist (c : N) : bool :=
  ((0x01 <=? c) && (c <=? 0x09) || (c =? 0x0B) || (c =? 0x0C)
   || (0x0E <=? c) && (c <=? 0x1F) || (c =? 0x7F) || (c =? 0x81)
   || (c =? 0x8D) || (c =? 0x8F) || (c =? 0x90) || (c =? 0x9D)
   || (0xA0 <=? c) && (c <=? 0xFFFF))%N.

Definition is_high_surrogate (c : N) : bool := ((0xD800 <=? c) && (c <=? 0xDBFF))%N.
Definition is_low_surrogate (c : N) : bool := ((0xDC00 <=? c) && (c <=? 0xDFFF))%N.

(** [string.replace(/[class]/g, escapeBmpSymbol)] *)
Definition escape_class (class : N -> bool) (s : jsstring) : jsstring :=
  flat_map (fun c => if class c then hexEscape c else [c]) s.

(** [string.replace(/[\uD800-\uDBFF][\uDC00-\uDFFF]/g, ...)]: a surrogate
    pair becomes the reference of the code point it encodes. *)
Fixpoint escape_astral (s : jsstring) : jsstring :=
  match s with
  | [] => []
  | high :: tl =>
      match tl with
      | low :: rest =>
          if is_high_surrogate high && is_low_surrogate low
          then hexEscape ((high - 0xD800) * 0x400 + low - 0xDC00 + 0x10000)%N
                 ++ escape_astral rest
          else high :: escape_astral tl
      | [] => [high]
      end
  end.

(** Modelled from the spec: [he.encode] is the entry point of the
    third-party package [he], which the client requires and which is not
    part of the repository's sources.  The spec asks for an HTML-entity
    encoding of at least the angle brackets, the ampersand and the two
    quotes, and of any other character that needs escaping; the outputs
    it lists, and the ones the repository's tests expect, are upper-case
    hexadecimal character references ([&#x3C;]).  The definition is the
    package's encoding under its default options: the unsafe symbols, then
    the astral symbols, then the remaining non-printable or non-ASCII code
    units, each replaced by its reference. *)
Definition encode (s : jsstring) : jsstring :=
  escape_class regexBmpWhitelist (escape_astral (escape_class regexEscape s)).

End He.

(* ===================================================================== *)
(** ** The client: search-input sanitization *)
(* ===================================================================== *)

(** [_sanitizeSearchInput(input)] *)
Definition _sanitizeSearchInput (input : JsVal) : Completion jsstring :=
  match input with
  | JStr s => Return (substring0 100 (trim (He.encode s)))
  | _ => (* typeof input !== 'string' *)
      Throw (Error (js "Search input must be a string"))
  end.

(* ===================================================================== *)
(** ** Uploaded files, requests and the event log *)
(* ===================================================================== *)

(** What [file.slice(start, end)] hands back: an object whose
    [arrayBuffer()] resolves to bytes or rejects. *)
Module Blob.
Record t := { arrayBuffer : Completion (list Z) }.
End Blob.

(** An uploaded file as the validator probes it: [type] is [JUndefined] and
    [size] is [None] when the property is missing; [slice] and
    [arrayBuffer] are there when the property is a function. *)
Module File.
Record t := {
  type : JsVal;
  size : option Z;
  slice : option (Z -> Z -> Completion Blob.t);
  arrayBuffer : option (Completion (list Z));
}.
End File.

Inductive FormValue :=
| FormString (s : jsstring)
| FormFile (f : File.t).

(** The arguments of one [fetch] call.  [url] is the literal part of the
    address; [query] is the [URLSearchParams] serialized after it. *)
Record Request := {
  url : jsstring;
  query : option (list (jsstring * jsstring));
  method : option jsstring;
  headers : option (gmap jsstring jsstring);
  body : option (list (jsstring * FormValue));
}.

(** What [fetch] resolves to; [json] is the outcome of [response.json()]. *)
Record Response := {
  ok : bool;
  status : Z;
  json : Completion JsVal;
}.

(** The transport: every call of [fetch] resolves or rejects. *)
Abbreviation Transport := (Request -> Completion Response).

Inductive Event :=
| EvSlice (start stop : Z)   (* file.slice(start, stop) was called *)
| EvSliceRead                (* slicedFile.arrayBuffer() was called *)
| EvFullRead                 (* file.arrayBuffer() was called *)
| EvFetch (req : Request).   (* fetch(...) was called *)

(** A computation: the events it caused, in order, and how it completed. *)
Definition M (A : Type) : Type := list Event * Completion A.

Definition ret {A} (a : A) : M A := ([], Return a).
Definition throw {A} (e : Exn) : M A := ([], Throw e).
Definition lift {A} (c : Completion A) : M A := ([], c).
Definition emit (ev : Event) : M unit := ([ev], Return tt).

Definition bind {A B} (m : M A) (k : A -> M B) : M B :=
  match m with
  | (t, Return a) => let '(t', r) := k a in (t ++ t', r)
  | (t, Throw e) => (t, Throw e)
  end.

(** [try { m } catch (error) { h error }] *)
Definition try_catch {A} (m : M A) (h : Exn -> M A) : M A :=
  match m with
  | (t, Throw e) => let '(t', r) := h e in (t ++ t', r)
  | (t, Return a) => (t, Return a)
  end.

Declare Scope js_scope.
Delimit Scope js_scope with js.
Notation "'let!' x ':=' m 'in' k" := (bind m (fun x => k))
  (at level 10, x name, m at level 100, k at level 200) : js_scope.
Notation "m ';;' k" := (bind m (fun _ => k))
  (at level 100, k at level 200, right associativity) : js_scope.
Local Open Scope js_scope.

Definition trace {A} (m : M A) : list Event := fst m.
Definition outcome {A} (m : M A) : Completion A := snd m.

(* ===================================================================== *)
(** ** The client: image validation *)
(* ===================================================================== *)

Definition allowedTypes : list jsstring :=
  [js "image/jpeg"; js "image/jpg"; js "image/png"; js "image/webp"].

(** [allowedTypes.includes(v)] *)
Definition includes (l : list jsstring) (v : JsVal) : bool :=
  match v with
  | JStr s => existsb (str_eqb s) l
  | _ => false
  end.

Definition maxSize : Z := 10 * 1024 * 1024.
Definition BYTES_TO_READ : Z := 16.

Definition signatures : list (jsstring * list Z) :=
  [ (js "jpeg", [0xFF; 0xD8; 0xFF]);
    (js "png", [0x89; 0x50; 0x4E; 0x47]);
    (js "webp", [0x52; 0x49; 0x46; 0x46]) ].

Definition webpIdentifier : list Z := [0x57; 0x45; 0x42; 0x50].

(** [signature.every((byte, index) => bytes[offset + index] === byte)];
    an index past the end of [bytes] reads [undefined]. *)
Definition every_at (offset : nat) (signature bytes : list Z) : bool :=
  forallb (fun '(index, byte) =>
             match bytes !! (offset + index)%nat with
             | Some b => b =? byte
             | None => false
             end)
          (imap (fun index byte => (index, byte)) signature).

(** The loop over [Object.entries(signatures)], with its [continue] and
    [break]; the result is the final [validSignature]. *)
Fixpoint scan_signatures (entries : list (jsstring * list Z)) (bytes : list Z)
  : bool :=
  match entries with
  | [] => false
  | (format, signature) :: rest =>
      if every_at 0 signature bytes then
        if str_eqb format (js "webp") && (12 <=? length bytes)%nat then
          if negb (every_at 8 webpIdentifier bytes)
          then scan_signatures rest bytes
          else true
        else true
      else scan_signatures rest bytes
  end.

Definition validSignature (bytes : list Z) : bool :=
  scan_signatures signatures bytes.

Definition content_mismatch : jsstring :=
  js "File content does not match allowed image formats".

(** [if (file.type !== undefined) { ... }] *)
Definition check_declared_type (f : File.t) : M unit :=
  match File.type f with
  | JUndefined => ret tt
  | ty =>
      if negb (includes allowedTypes ty)
      then throw (Error (js "Invalid file type. Only JPEG, PNG, and WebP images are allowed."))
      else ret tt
  end.

(** [if (file.size !== undefined) { ... }] *)
Definition check_declared_size (f : File.t) : M unit :=
  match File.size f with
  | None => ret tt
  | Some sz =>
      if sz >? maxSize
      then throw (Error (js "File size too large. Maximum size is 10MB."))
      else ret tt
  end.

(** The read of the leading bytes: through [slice] where the file has it,
    in full otherwise. *)
Definition read_leading_bytes (f : File.t) (full_read : Completion (list Z))
  : M (list Z) :=
  match File.slice f with
  | Some slice =>
      emit (EvSlice 0 BYTES_TO_READ) ;;
      let! slicedFile := lift (slice 0 BYTES_TO_READ) in
      emit EvSliceRead ;;
      lift (Blob.arrayBuffer slicedFile)
  | None =>
      emit EvFullRead ;;
      let! buffer := lift full_read in
      ret (take (Z.to_nat BYTES_TO_READ) buffer)
  end.

(** [_validateImageFile(file)]; [None] is a missing (falsy) file. *)
Definition _validateImageFile (file : option File.t) : M unit :=
  match file with
  | None => throw (Error (js "Image file is required"))
  | Some f =>
      check_declared_type f ;;
      check_declared_size f ;;
      match File.arrayBuffer f with
      | None => ret tt
      | Some full_read =>
          try_catch
            (let! bytes := read_leading_bytes f full_read in
             if negb (validSignature bytes)
             then throw (Error content_mismatch)
             else ret tt)
            (fun error =>
               if str_eqb (message error) content_mismatch
               then throw error
               else ret tt)
      end
  end.

(* ===================================================================== *)
(** ** Property access on decoded data *)
(* ===================================================================== *)

(** The array index, below [n], that the property name [k] spells. *)
Definition index_of_key (k : jsstring) (n : nat) : option nat :=
  find (fun i => str_eqb (Number_toString (Z.of_nat i)) k) (seq 0 n).

(** The members of [Object.prototype], which every object inherits. *)
Definition object_prototype_names : list jsstring :=
  [ js "constructor"; js "__defineGetter__"; js "__defineSetter__";
    js "hasOwnProperty"; js "__lookupGetter__"; js "__lookupSetter__";
    js "isPrototypeOf"; js "propertyIsEnumerable"; js "toString";
    js "valueOf"; js "__proto__"; js "toLocaleString" ].

(** [v[k]] for a value [v] that is neither [null] nor [undefined], and a
    name [k] that is found among the properties of [v] itself or nowhere:
    an index, or a name that no prototype defines. *)
Definition Get (v : JsVal) (k : jsstring) : JsVal :=
  match v with
  | JObj props => default JUndefined (props !! k)
  | JArr xs =>
      if str_eqb k (js "length") then JNum (Z.of_nat (length xs))
      else match index_of_key k (length xs) with
           | Some i => default JUndefined (xs !! i)
           | None => JUndefined
           end
  | JStr s =>
      if str_eqb k (js "length") then JNum (Z.of_nat (length s))
      else match index_of_key k (length s) with
           | Some i => from_option (fun c => JStr [c]) JUndefined (s !! i)
           | None => JUndefined
           end
  | _ => JUndefined
  end.

(** [field in v]: a [TypeError] when [v] is not an object; otherwise the
    field is turned into a property name, which is looked up among the
    properties of [v] itself, as [Get] does. *)
Definition HasProperty (field : JsVal) (v : JsVal) : Completion bool :=
  match v with
  | JObj props =>
      let? k := ToString field in
      Return (bool_decide (is_Some (props !! k)))
  | JArr xs =>
      let? k := ToString field in
      Return (str_eqb k (js "length")
              || bool_decide (is_Some (index_of_key k (length xs))))
  | _ =>
      Throw (TypeError (js "Cannot use 'in' operator to search for '"
                        ++ engine_text field ++ js "' in " ++ engine_text v))
  end.

(** The own properties [{...v}] copies. *)
Definition own_properties (v : JsVal) : gmap jsstring JsVal :=
  match v with
  | JObj props => props
  | JArr xs => list_to_map (imap (fun i x => (Number_toString (Z.of_nat i), x)) xs)
  | JStr s => list_to_map (imap (fun i c => (Number_toString (Z.of_nat i), JStr [c])) s)
  | _ => ∅
  end.

(** [const { k } = v]: a [TypeError] on [null] and [undefined]. *)
Definition destructure (v : JsVal) (k what : jsstring) : Completion JsVal :=
  match v with
  | JUndefined | JNull =>
      Throw (TypeError (js "Cannot destructure property '" ++ k ++ js "' of '"
                        ++ what ++ js "' as it is " ++ engine_text v ++ js "."))
  | _ => Return (Get v k)
  end.

(* ===================================================================== *)
(** ** The client: construction, credentials, transport guard *)
(* ===================================================================== *)

Record Credentials := {
  userId : jsstring;
  password : jsstring;
}.

(** The state of one client instance; [credentials] is [None] for [null]. *)
Record OpenFoodFactsAPI := {
  baseUrl : jsstring;
  credentials : option Credentials;
}.

(** [constructor(baseUrl = 'https://world.openfoodfacts.org')]; [None] is
    an omitted argument. *)
Definition constructor (arg : option jsstring) : Completion OpenFoodFactsAPI :=
  let baseUrl := default (js "https://world.openfoodfacts.org") arg in
  if negb (startsWith baseUrl (js "https://"))
  then Throw (Error (js "HTTPS is required for secure API access. Use https:// URLs only."))
  else Return {| baseUrl := baseUrl; credentials := None |}.

(** [setCredentials(userId, password)]: the state of [this] afterwards. *)
Definition setCredentials (this : OpenFoodFactsAPI) (userId password : JsVal)
  : Completion OpenFoodFactsAPI :=
  match userId, password with
  | JStr userId, JStr password =>
      if negb (truthy (JStr (trim userId))) || negb (truthy (JStr (trim password)))
      then Throw (Error (js "User ID and password cannot be empty"))
      else Return {| baseUrl := baseUrl this;
                     credentials := Some {| userId := userId; password := password |} |}
  | _, _ => (* typeof userId !== 'string' || typeof password !== 'string' *)
      Throw (Error (js "User ID and password must be strings"))
  end.

(** [_createRequestHeaders()] *)
Definition _createRequestHeaders : gmap jsstring jsstring :=
  {[ js "User-Agent" := js "node-red-contrib-open-food-facts/0.2.2" ]}.

(** [_validateSecureConnection()] *)
Definition _validateSecureConnection (this : OpenFoodFactsAPI) : Completion unit :=
  if negb (startsWith (baseUrl this) (js "https://"))
  then Throw (Error (js "Cannot send credentials over non-HTTPS connection. HTTPS is required for authenticated requests."))
  else Return tt.

(** [await fetch(...)]: the call is logged, then resolves or rejects. *)
Definition call_fetch (fetch : Transport) (req : Request) : M Response :=
  emit (EvFetch req) ;; lift (fetch req).

Definition http_error (response : Response) : jsstring :=
  js "HTTP error! status: " ++ Number_toString (status response).

(* ===================================================================== *)
(** ** The client: the operations *)
(* ===================================================================== *)

Definition product_fields : list jsstring :=
  [ js "code"; js "product_name"; js "brands"; js "quantity";
    js "serving_size"; js "packaging"; js "storage_conditions";
    js "conservation_conditions"; js "expiration_date_format";
    js "categories"; js "labels"; js "food_groups" ].

(** [getProduct(barcode)] *)
Definition getProduct (fetch : Transport) (this : OpenFoodFactsAPI)
    (barcode : JsVal) : M JsVal :=
  lift (_validateBarcode barcode false) ;;
  try_catch
    (let! code := lift (ToString barcode) in
     let! response :=
       call_fetch fetch
         {| url := baseUrl this ++ js "/api/v0/product/" ++ code;
            query := None; method := None; headers := None; body := None |} in
     if negb (ok response) then throw (Error (http_error response)) else
     let! decoded := lift (json response) in
     let! product := lift (destructure decoded (js "product") (js "(intermediate value)")) in
     match product with
     | JUndefined | JNull =>
         lift (destructure product (js "code") (js "product"))
     | _ =>
         ret (JObj (list_to_map (map (fun k => (k, Get product k)) product_fields)))
     end)
    (fun error => throw (Error (js "Failed to fetch product: " ++ message error))).

Module SearchParams.
(** The properties of [params] that [searchProducts] reads; a missing
    property is [JUndefined]. *)
Record t := {
  action : JsVal;
  search_terms : JsVal;
  code : JsVal;
  code_type : JsVal;
  tagType : JsVal;
  tag : JsVal;
  tagContains : JsVal;
  additives : JsVal;
  ingredientsFromPalmOil : JsVal;
  page : JsVal;
  pageSize : JsVal;
  fields : JsVal;
}.
End SearchParams.

(** [if (v) queryParams.append(name, v)] *)
Definition append_if_truthy (name : jsstring) (v : JsVal)
    (queryParams : list (jsstring * jsstring))
  : Completion (list (jsstring * jsstring)) :=
  if truthy v then
    let? text := ToString v in
    Return (queryParams ++ [(name, text)])
  else Return queryParams.

(** [if (v) queryParams.append(name, v.toString())] *)
Definition append_toString (name what : jsstring) (v : JsVal)
    (queryParams : list (jsstring * jsstring))
  : Completion (list (jsstring * jsstring)) :=
  if truthy v then
    let? text := toString_method what v in
    Return (queryParams ++ [(name, text)])
  else Return queryParams.

(** The [switch] on [params.code_type]. *)
Definition code_type_value (code_type : JsVal) : jsstring :=
  match code_type with
  | JStr s =>
      if str_eqb s (js "contains") then js "contains"
      else if str_eqb s (js "starts") then js "starts"
      else if str_eqb s (js "ends") then js "ends"
      else js "exact"
  | _ => js "exact"
  end.

(** The three parameters one element of [params.tagType] appends. *)
Definition tag_triple (params : SearchParams.t) (index : nat) (type : JsVal)
  : Completion (list (jsstring * jsstring)) :=
  let i := Number_toString (Z.of_nat index) in
  let? type := ToString type in
  let? contains := ToString (Get (SearchParams.tagContains params) i) in
  let? tag := ToString (Get (SearchParams.tag params) i) in
  Return [ (js "tagtype_" ++ i, type);
           (js "tag_contains_" ++ i, contains);
           (js "tag_" ++ i, tag) ].

(** [params.tagType.forEach((type, index) => { ... })] from [index] on. *)
Fixpoint forEach_tagType (params : SearchParams.t) (index : nat)
    (types : list JsVal) : Completion (list (jsstring * jsstring)) :=
  match types with
  | [] => Return []
  | type :: rest =>
      let? triple := tag_triple params index type in
      let? more := forEach_tagType params (S index) rest in
      Return (triple ++ more)
  end.

(** [new URLSearchParams({ json: 'true', action: params.action || 'process' })] *)
Definition new_queryParams (params : SearchParams.t)
  : Completion (list (jsstring * jsstring)) :=
  let? action :=
    if truthy (SearchParams.action params)
    then ToString (SearchParams.action params) else Return (js "process") in
  Return [ (js "json", js "true"); (js "action", action) ].

(** The text search, if provided. *)
Definition append_search_terms (params : SearchParams.t)
    (queryParams : list (jsstring * jsstring))
  : Completion (list (jsstring * jsstring)) :=
  if truthy (SearchParams.search_terms params) then
    let? terms := _sanitizeSearchInput (SearchParams.search_terms params) in
    Return (queryParams ++ [(js "search_terms", terms)])
  else Return queryParams.

(** The code search with its matching type. *)
Definition append_code (params : SearchParams.t)
    (queryParams : list (jsstring * jsstring))
  : Completion (list (jsstring * jsstring)) :=
  if truthy (SearchParams.code params) then
    let? _ := _validateBarcode (SearchParams.code params) true in
    let? code := ToString (SearchParams.code params) in
    let queryParams := queryParams ++ [(js "code", code)] in
    Return (if truthy (SearchParams.code_type params)
            then queryParams
                 ++ [(js "code_type", code_type_value (SearchParams.code_type params))]
            else queryParams)
  else Return queryParams.

(** The tag-based search parameters. *)
Definition append_tags (params : SearchParams.t)
    (queryParams : list (jsstring * jsstring))
  : Completion (list (jsstring * jsstring)) :=
  if truthy (SearchParams.tagType params) && truthy (SearchParams.tag params)
     && truthy (SearchParams.tagContains params)
  then match SearchParams.tagType params with
       | JArr types =>
           let? tags := forEach_tagType params 0 types in
           Return (queryParams ++ tags)
       | _ => Throw (TypeError (js "params.tagType.forEach is not a function"))
       end
  else Return queryParams.

(** The query parameters [searchProducts] assembles before it fetches. *)
Definition search_query (params : SearchParams.t)
  : Completion (list (jsstring * jsstring)) :=
  let? queryParams := new_queryParams params in
  let? queryParams := append_search_terms params queryParams in
  let? queryParams := append_code params queryParams in
  let? queryParams := append_tags params queryParams in
  let? queryParams :=
    append_if_truthy (js "additives") (SearchParams.additives params) queryParams in
  let? queryParams :=
    append_if_truthy (js "ingredients_from_palm_oil")
      (SearchParams.ingredientsFromPalmOil params) queryParams in
  let? queryParams :=
    append_toString (js "page") (js "params.page")
      (SearchParams.page params) queryParams in
  append_toString (js "page_size") (js "params.pageSize")
    (SearchParams.pageSize params) queryParams.

(** The body of [params.fields.forEach(...)] run over the whole list:
    [filtered] after every requested field was looked at. *)
Fixpoint copy_fields (fields : list JsVal) (product : JsVal)
    (filtered : gmap jsstring JsVal) : Completion (gmap jsstring JsVal) :=
  match fields with
  | [] => Return filtered
  | field :: rest =>
      let? present := HasProperty field product in
      if present then
        let? key := ToString field in
        copy_fields rest product (<[key := Get product key]> filtered)
      else copy_fields rest product filtered
  end.

(** [products.map((product) => { ... return filtered; })] *)
Fixpoint map_products (fields products : list JsVal) : Completion (list JsVal) :=
  match products with
  | [] => Return []
  | product :: rest =>
      match copy_fields fields product ∅ with
      | Throw e => Throw e
      | Return filtered =>
          match map_products fields rest with
          | Throw e => Throw e
          | Return rest' => Return (JObj filtered :: rest')
          end
      end
  end.

(** The client-side field filtering at the end of [searchProducts]. *)
Definition filter_fields (fields data : JsVal) : Completion JsVal :=
  match fields with
  | JArr (f :: fs) =>
      (* params.fields && Array.isArray(params.fields) && params.fields.length > 0 *)
      match Get data (js "products") with
      | JArr products =>
          match map_products (f :: fs) products with
          | Throw e => Throw e
          | Return products' =>
              Return (JObj (<[js "products" := JArr products']> (own_properties data)))
          end
      | JUndefined =>
          Throw (TypeError (js "Cannot read properties of undefined (reading 'map')"))
      | JNull =>
          Throw (TypeError (js "Cannot read properties of null (reading 'map')"))
      | _ => Throw (TypeError (js "data.products.map is not a function"))
      end
  | _ => Return data
  end.

Definition invalid_response : jsstring := js "Invalid response format".

(** The [catch] clause of [searchProducts]. *)
Definition search_catch (error : Exn) : M JsVal :=
  if instanceof_OpenFoodFactsError error then throw error
  else if str_eqb (message error) invalid_response
  then throw error (* passed through without wrapping *)
  else throw (Error (js "Failed to search products: " ++ message error)).

(** The request of [searchProducts]: a plain GET of the search endpoint
    with the assembled parameters. *)
Definition search_request (this : OpenFoodFactsAPI)
    (queryParams : list (jsstring * jsstring)) : Request :=
  {| url := baseUrl this ++ js "/cgi/search.pl?";
     query := Some queryParams;
     method := None; headers := None; body := None |}.

(** [searchProducts(params)] *)
Definition searchProducts (fetch : Transport) (this : OpenFoodFactsAPI)
    (params : SearchParams.t) : M JsVal :=
  try_catch
    (let! queryParams := lift (search_query params) in
     let! response := call_fetch fetch (search_request this queryParams) in
     if negb (ok response)
     then throw (OpenFoodFactsError (http_error response)
                   (js "API request failed") (status response))
     else
     let! data := lift (json response) in
     if negb (truthy data) || negb (str_eqb (typeof data) (js "object"))
     then throw (Error invalid_response)
     else lift (filter_fields (SearchParams.fields params) data))
    search_catch.

Module ProductData.
(** The properties of [data] that [addProduct] reads. *)
Record t := {
  code : JsVal;
  brands : JsVal;
  labels : JsVal;
}.
End ProductData.

(** [if (v) formData.append(name, this._sanitizeSearchInput(v))] *)
Definition append_sanitized (name : jsstring) (v : JsVal)
    (formData : list (jsstring * FormValue))
  : Completion (list (jsstring * FormValue)) :=
  if truthy v then
    match _sanitizeSearchInput v with
    | Throw e => Throw e
    | Return s => Return (formData ++ [(name, FormString s)])
    end
  else Return formData.

(** [addProduct(data)] *)
Definition addProduct (fetch : Transport) (this : OpenFoodFactsAPI)
    (data : ProductData.t) : M JsVal :=
  match credentials this with
  | None => throw (Error (js "Credentials required for adding products"))
  | Some creds =>
      lift (_validateSecureConnection this) ;;
      lift (_validateBarcode (ProductData.code data) false) ;;
      try_catch
        (let! code := lift (ToString (ProductData.code data)) in
         let formData :=
           [ (js "code", FormString code);
             (js "user_id", FormString (userId creds));
             (js "password", FormString (password creds)) ] in
         let! formData := lift (append_sanitized (js "brands") (ProductData.brands data) formData) in
         let! formData := lift (append_sanitized (js "labels") (ProductData.labels data) formData) in
         let! response :=
           call_fetch fetch
             {| url := baseUrl this ++ js "/cgi/product_jqm2.pl";
                query := None;
                method := Some (js "POST");
                headers := Some _createRequestHeaders;
                body := Some formData |} in
         if negb (ok response) then throw (Error (http_error response))
         else lift (json response))
        (fun error => throw (Error (js "Failed to add product: " ++ message error)))
  end.

Module PhotoType.
(** The properties of [type] that [uploadPhoto] reads. *)
Record t := {
  field : JsVal;
  languageCode : JsVal;
}.
End PhotoType.

Definition allowedFields : list jsstring :=
  [js "front"; js "ingredients"; js "nutrition"].

(** [uploadPhoto(barcode, image, type)]; [None] is a missing argument. *)
Definition uploadPhoto (fetch : Transport) (this : OpenFoodFactsAPI)
    (barcode : JsVal) (image : option File.t) (type : option PhotoType.t)
  : M JsVal :=
  match credentials this with
  | None => throw (Error (js "Credentials required for uploading photos"))
  | Some creds =>
      lift (_validateSecureConnection this) ;;
      lift (_validateBarcode barcode false) ;;
      _validateImageFile image ;;
      match type, image with
      | Some ty, Some file =>
          if negb (truthy (PhotoType.field ty))
             || negb (truthy (PhotoType.languageCode ty))
          then throw (Error (js "Type with field and languageCode is required"))
          else if negb (includes allowedFields (PhotoType.field ty))
          then throw (Error (js "Invalid field type. Must be front, ingredients, or nutrition."))
          else
            try_catch
              (let! code := lift (ToString barcode) in
               let! field := lift (ToString (PhotoType.field ty)) in
               let! languageCode := lift (ToString (PhotoType.languageCode ty)) in
               let imagefield := field ++ js "_" ++ languageCode in
               let formData :=
                 [ (js "code", FormString code);
                   (js "user_id", FormString (userId creds));
                   (js "password", FormString (password creds));
                   (js "imagefield", FormString imagefield);
                   (js "imgupload_" ++ imagefield, FormFile file) ] in
               let! response :=
                 call_fetch fetch
                   {| url := baseUrl this ++ js "/cgi/product_image_upload.pl";
                      query := None;
                      method := Some (js "POST");
                      headers := Some _createRequestHeaders;
                      body := Some formData |} in
               if negb (ok response) then throw (Error (http_error response))
               else lift (json response))
              (fun error =>
                 throw (Error (js "Failed to upload photo: " ++ message error)))
      | None, _ =>
          throw (Error (js "Type with field and languageCode is required"))
      | Some _, None =>
          (* unreachable: a missing image was rejected by the validation above *)
          throw (Error (js "Image file is required"))
      end
  end.

(** [getTaxonomy(type)] *)
Definition getTaxonomy (fetch : Transport) (this : OpenFoodFactsAPI)
    (type : JsVal) : M JsVal :=
  try_catch
    (let! name := lift (ToString type) in
     let! response :=
       call_fetch fetch
         {| url := baseUrl this ++ js "/data/taxonomies/" ++ name
                   ++ js ".json";
            query := None; method := None; headers := None; body := None |} in
     if negb (ok response) then throw (Error (http_error response))
     else lift (json response))
    (fun error => throw (Error (js "Failed to fetch taxonomy: " ++ message error))).

Definition getAdditives (fetch : Transport) (this : OpenFoodFactsAPI) : M JsVal :=
  getTaxonomy fetch this (JStr (js "additives")).

Definition getAllergens (fetch : Transport) (this : OpenFoodFactsAPI) : M JsVal :=
  getTaxonomy fetch this (JStr (js "allergens")).

Definition getBrands (fetch : Transport) (this : OpenFoodFactsAPI) : M JsVal :=
  getTaxonomy fetch this (JStr (js "brands")).

(** [getRandomInsight(count = 1, lang)] *)
Definition getRandomInsight (fetch : Transport) (this : OpenFoodFactsAPI)
    (count lang : JsVal) : M JsVal :=
  let count := match count with JUndefined => JNum 1 | _ => count end in
  try_catch
    (let! text := lift (toString_method (js "count") count) in
     let! queryParams :=
       lift (append_if_truthy (js "lang") lang [(js "count", text)]) in
     let! response :=
       call_fetch fetch
         {| url := js "https://robotoff.openfoodfacts.org/api/v1/questions/random?";
            query := Some queryParams;
            method := None; headers := None; body := None |} in
     if negb (ok response) then throw (Error (http_error response))
     else lift (json response))
    (fun error =>
       throw (Error (js "Failed to fetch random insight: " ++ message error))).

(* ===================================================================== *)
(** ** Client instances in the store *)
(* ===================================================================== *)

(** Every [new OpenFoodFactsAPI(...)] is an object of its own; a reference
    to it is its address in the store.  The class has no static member and
    the module keeps no mutable variable: all the state of a client is in
    the two fields of [this]. *)
Abbreviation Store := (gmap positive OpenFoodFactsAPI).

(** [new OpenFoodFactsAPI(baseUrl)]: the reference to the new instance and
    the store that holds it.  Nothing is stored when the constructor
    throws. *)
Definition new_OpenFoodFactsAPI (arg : option jsstring) (σ : Store)
  : Completion positive * Store :=
  match constructor arg with
  | Throw e => (Throw e, σ)
  | Return this => let l := fresh (dom σ) in (Return l, <[l := this]> σ)
  end.

(** What can be invoked on a reference: the methods of the class, and the
    assignment [api.baseUrl = value] that the class leaves open to its
    holders. *)
Inductive Call :=
| Call_setCredentials (userId password : JsVal)
| Call_assign_baseUrl (value : jsstring)
| Call_validateBarcode (barcode : JsVal) (allowPartial : bool)
| Call_validateImageFile (file : option File.t)
| Call_sanitizeSearchInput (input : JsVal)
| Call_createRequestHeaders
| Call_validateSecureConnection
| Call_getProduct (barcode : JsVal)
| Call_searchProducts (params : SearchParams.t)
| Call_addProduct (data : ProductData.t)
| Call_uploadPhoto (barcode : JsVal) (image : option File.t) (type : option PhotoType.t)
| Call_getTaxonomy (type : JsVal)
| Call_getAdditives
| Call_getAllergens
| Call_getBrands
| Call_getRandomInsight (count lang : JsVal).

Definition unit_result (m : M unit) : M JsVal := m ;; ret JUndefined.

(** A call on an instance that only reads [this]. *)
Definition read_only_call (fetch : Transport) (this : OpenFoodFactsAPI)
    (call : Call) : M JsVal :=
  match call with
  | Call_validateBarcode barcode allowPartial =>
      unit_result (lift (_validateBarcode barcode allowPartial))
  | Call_validateImageFile file => unit_result (_validateImageFile file)
  | Call_sanitizeSearchInput input =>
      let! s := lift (_sanitizeSearchInput input) in ret (JStr s)
  | Call_createRequestHeaders => ret (JObj (JStr <$> _createRequestHeaders))
  | Call_validateSecureConnection =>
      unit_result (lift (_validateSecureConnection this))
  | Call_getProduct barcode => getProduct fetch this barcode
  | Call_searchProducts params => searchProducts fetch this params
  | Call_addProduct data => addProduct fetch this data
  | Call_uploadPhoto barcode image type => uploadPhoto fetch this barcode image type
  | Call_getTaxonomy type => getTaxonomy fetch this type
  | Call_getAdditives => getAdditives fetch this
  | Call_getAllergens => getAllergens fetch this
  | Call_getBrands => getBrands fetch this
  | Call_getRandomInsight count lang => getRandomInsight fetch this count lang
  | Call_setCredentials _ _ | Call_assign_baseUrl _ => ret JUndefined
  end.

(** [api.method(...)] for the instance at [l]: the store afterwards and the
    computation's events and completion.  Only [setCredentials] and the
    assignment write to [this]. *)
Definition invoke (fetch : Transport) (l : positive) (call : Call) (σ : Store)
  : Store * M JsVal :=
  match σ !! l with
  | None => (σ, throw (TypeError (js "Cannot read properties of undefined")))
  | Some this =>
      match call with
      | Call_setCredentials userId password =>
          match setCredentials this userId password with
          | Throw e => (σ, throw e)
          | Return this' => (<[l := this']> σ, ret JUndefined)
          end
      | Call_assign_baseUrl value =>
          (<[l := {| baseUrl := value; credentials := credentials this |}]> σ,
           ret JUndefined)
      | _ => (σ, read_only_call fetch this call)
      end
  end.

(* ===================================================================== *)
(** ** The vocabulary of the specification *)
(* ===================================================================== *)

(** A decimal digit, and a full barcode: 8 to 13 of them and nothing else. *)
Definition decimal_digit (c : N) : Prop := (0x30 <= c <= 0x39)%N.

Definition full_barcode (s : jsstring) : Prop :=
  (8 <= length s <= 13)%nat /\ Forall decimal_digit s.

(** The double quote, kept out of string literals. *)
Definition quot : jsstring := [0x22%N].

Definition xss_input : jsstring :=
  js "<script>alert(" ++ quot ++ js "xss" ++ quot ++ js ")</script>Chocolate".

Definition xss_output : jsstring :=
  js "&#x3C;script&#x3E;alert(&#x22;xss&#x22;)&#x3C;/script&#x3E;Chocolate".

(** A product name with an ampersand, an apostrophe and double quotes. *)
Definition quoted_name_input : jsstring :=
  js "Ben & Jerry's " ++ quot ++ js "Chunky Monkey" ++ quot.

Definition quoted_name_output : jsstring :=
  js "Ben &#x26; Jerry&#x27;s &#x22;Chunky Monkey&#x22;".

(** White space, as [trim] strips it. *)
Definition white (c : N) : Prop := is_white_space c = true.

(** The symbols that open or close markup or an attribute value: the two
    quotes, the two angle brackets and the backtick.  The ampersand, which
    opens a character reference, is the sixth unsafe symbol. *)
Definition markup_symbol (c : N) : bool :=
  ((c =? 0x22) || (c =? 0x27) || (c =? 0x3C) || (c =? 0x3E) || (c =? 0x60))%N.

Definition markup_free (s : jsstring) : Prop :=
  Forall (fun c => markup_symbol c = false) s.

(** The declared content type and size, where the file has them, are among
    the allowed types and within the size limit. *)
Definition declared_metadata_ok (f : File.t) : Prop :=
  (File.type f = JUndefined \/ exists s, File.type f = JStr s /\ s ∈ allowedTypes)
  /\ (forall sz, File.size f = Some sz -> sz <= maxSize).

(** The bytes the validator gets to see: the blob of [slice(0, 16)] where
    the file can be sliced, the first 16 bytes of the whole content where
    it can only be read in full. *)
Inductive byte_read (f : File.t) : list Z -> Prop :=
| read_sliced slice full blob bytes :
    File.slice f = Some slice ->
    File.arrayBuffer f = Some full ->
    slice 0 16 = Return blob ->
    Blob.arrayBuffer blob = Return bytes ->
    byte_read f bytes
| read_in_full buffer :
    File.slice f = None ->
    File.arrayBuffer f = Some (Return buffer) ->
    byte_read f (take 16 buffer).

(** [bytes] holds [signature] from [offset] on. *)
Definition has_at (offset : nat) (signature bytes : list Z) : Prop :=
  take (length signature) (drop offset bytes) = signature.

Definition jpeg_magic : list Z := [0xFF; 0xD8; 0xFF].
Definition png_magic : list Z := [0x89; 0x50; 0x4E; 0x47].
Definition riff_magic : list Z := [0x52; 0x49; 0x46; 0x46].
Definition webp_magic : list Z := [0x57; 0x45; 0x42; 0x50].

(** Stand-ins for uploaded files, as the repository's tests build them: one
    that can only be read in full, one that can also be sliced. *)
Definition unsliceable_file (content : list Z) : File.t :=
  {| File.type := JStr (js "image/jpeg");
     File.size := Some (Z.of_nat (length content));
     File.slice := None;
     File.arrayBuffer := Some (Return content) |}.

Definition sliceable_file (content : list Z) : File.t :=
  {| File.type := JStr (js "image/webp");
     File.size := Some (Z.of_nat (length content));
     File.slice :=
       Some (fun start stop =>
               Return {| Blob.arrayBuffer :=
                           Return (take (Z.to_nat (stop - start))
                                     (drop (Z.to_nat start) content)) |});
     File.arrayBuffer := Some (Return content) |}.

Definition jpeg_16 : list Z :=
  [0xFF; 0xD8; 0xFF; 0xE0; 0x00; 0x10; 0x4A; 0x46;
   0x49; 0x46; 0x00; 0x01; 0x01; 0x00; 0x00; 0x01].
Definition png_16 : list Z :=
  [0x89; 0x50; 0x4E; 0x47; 0x0D; 0x0A; 0x1A; 0x0A;
   0x00; 0x00; 0x00; 0x0D; 0x49; 0x48; 0x44; 0x52].
Definition webp_16 : list Z :=
  [0x52; 0x49; 0x46; 0x46; 0x00; 0x00; 0x00; 0x00;
   0x57; 0x45; 0x42; 0x50; 0x56; 0x50; 0x38; 0x20].
Definition avi_16 : list Z :=
  [0x52; 0x49; 0x46; 0x46; 0x00; 0x00; 0x00; 0x00;
   0x41; 0x56; 0x49; 0x20; 0x4C; 0x49; 0x53; 0x54].
Definition zip_16 : list Z :=
  [0x50; 0x4B; 0x03; 0x04; 0x14; 0x00; 0x00; 0x00;
   0x08; 0x00; 0x00; 0x00; 0x00; 0x00; 0x00; 0x00].
Definition riff_8 : list Z :=
  [0x52; 0x49; 0x46; 0x46; 0x24; 0x00; 0x00; 0x00].

(** The values that string conversion accepts: every primitive, every
    object without a [toString] property of its own, and every array whose
    elements are such values. *)
Fixpoint convertible (v : JsVal) : bool :=
  match v with
  | JArr xs => forallb convertible xs
  | JObj props => negb (hides_toString props)
  | _ => true
  end.

(** The string a convertible value is converted to. *)
Definition text_of (v : JsVal) : jsstring :=
  match ToString v with
  | Return s => s
  | Throw _ => []
  end.

(** A parameter that is missing or falsy, and so left out, or that can be
    written into a query. *)
Definition writable (v : JsVal) : Prop :=
  truthy v = false \/ convertible v = true.

(** The [action] of a search is missing, falsy, or a value that can be
    written into the query. *)
Definition action_ok (params : SearchParams.t) : Prop :=
  writable (SearchParams.action params).

(** An allow-list of field names: an array of strings. *)
Definition field_names (keys : list jsstring) : JsVal := JArr (JStr <$> keys).

(** None of the names is one that every object inherits. *)
Definition own_names_only (keys : list jsstring) : Prop :=
  Forall (fun k => k ∉ object_prototype_names) keys.

(** A product cut down to the keys of an allow-list. *)
Definition projection (keys : list jsstring) (product : gmap jsstring JsVal)
  : gmap jsstring JsVal :=
  filter (fun entry => entry.1 ∈ keys) product.

(** A client as the constructor leaves it, with the default endpoint. *)
Definition default_client : OpenFoodFactsAPI :=
  {| baseUrl := js "https://world.openfoodfacts.org"; credentials := None |}.

(** Search parameters with only [search_terms] and [fields] given. *)
Definition search_for (search_terms fields : JsVal) : SearchParams.t :=
  {| SearchParams.action := JUndefined;
     SearchParams.search_terms := search_terms;
     SearchParams.code := JUndefined;
     SearchParams.code_type := JUndefined;
     SearchParams.tagType := JUndefined;
     SearchParams.tag := JUndefined;
     SearchParams.tagContains := JUndefined;
     SearchParams.additives := JUndefined;
     SearchParams.ingredientsFromPalmOil := JUndefined;
     SearchParams.page := JUndefined;
     SearchParams.pageSize := JUndefined;
     SearchParams.fields := fields |}.

(** Transports as the tests mock them: one that answers every request
    with status 200 and a given body, one that fails every request. *)
Definition respond_with (data : JsVal) : Transport :=
  fun _ => Return {| ok := true; status := 200; json := Return data |}.

Definition fail_with (m : jsstring) : Transport :=
  fun _ => Throw (Error m).

(** A transport whose every request is rejected with a given error. *)
Definition reject_with (e : Exn) : Transport :=
  fun _ => Throw e.

(** A failure of the client's own error class. *)
Definition service_failure : Exn :=
  OpenFoodFactsError (js "boom") (js "API request failed") 503.

(** A search whose [action] is an object that hides [toString], as a
    decoded payload can hold it. *)
Definition unprintable : JsVal := JObj {[ js "toString" := JNum 1 ]}.

Definition unprintable_action_search (search_terms : JsVal) : SearchParams.t :=
  {| SearchParams.action := unprintable;
     SearchParams.search_terms := search_terms;
     SearchParams.code := JUndefined;
     SearchParams.code_type := JUndefined;
     SearchParams.tagType := JUndefined;
     SearchParams.tag := JUndefined;
     SearchParams.tagContains := JUndefined;
     SearchParams.additives := JUndefined;
     SearchParams.ingredientsFromPalmOil := JUndefined;
     SearchParams.page := JUndefined;
     SearchParams.pageSize := JUndefined;
     SearchParams.fields := JUndefined |}.

Definition test_product : gmap jsstring JsVal :=
  list_to_map
    [ (js "code", JStr (js "123456789"));
      (js "product_name", JStr (js "Test Product"));
      (js "brands", JStr (js "Test Brand"));
      (js "extra_field", JStr (js "Should be filtered")) ].

Definition test_response : gmap jsstring JsVal :=
  list_to_map
    [ (js "count", JNum 1);
      (js "products", JArr [JObj test_product]) ].

Definition code_and_name : list jsstring :=
  [js "code"; js "product_name"].

Definition test_query : list (jsstring * jsstring) :=
  [ (js "json", js "true"); (js "action", js "process");
    (js "search_terms", js "test") ].

Definition insecure_url : jsstring := js "http://insecure.openfoodfacts.org".

Definition test_credentials : Credentials :=
  {| userId := js "user"; password := js "pass" |}.

(** A client that received credentials, alone in the store at address 1. *)
Definition authenticated_client : OpenFoodFactsAPI :=
  {| baseUrl := js "https://world.openfoodfacts.org";
     credentials := Some test_credentials |}.

Definition one_client_store : Store := {[ 1%positive := authenticated_client ]}.

Definition test_product_data : ProductData.t :=
  {| ProductData.code := JStr (js "123456789");
     ProductData.brands := JUndefined;
     ProductData.labels := JUndefined |}.

Definition front_en : PhotoType.t :=
  {| PhotoType.field := JStr (js "front");
     PhotoType.languageCode := JStr (js "en") |}.

(* ===================================================================== *)
(** ** Further vocabulary *)
(* ===================================================================== *)

(** A partial barcode, as a search accepts it: digits, at least one. *)
Definition partial_barcode (s : jsstring) : Prop :=
  s <> [] /\ Forall decimal_digit s.

(** The stores a program can build with [new] and the methods of the
    class, without assigning to a field from outside. *)
Inductive reachable : Store -> Prop :=
| reachable_empty : reachable ∅
| reachable_new σ arg : reachable σ -> reachable (new_OpenFoodFactsAPI arg σ).2
| reachable_invoke σ fetch l call :
    reachable σ ->
    (forall value, call <> Call_assign_baseUrl value) ->
    reachable (invoke fetch l call σ).1.

(** The declared content type is missing or one of the allowed ones. *)
Definition declared_type_ok (f : File.t) : Prop :=
  File.type f = JUndefined \/ exists s, File.type f = JStr s /\ s ∈ allowedTypes.

(** The read of the leading bytes fails with [e]: [slice] throws, the
    blob's [arrayBuffer()] rejects or, for a file without [slice], its own
    [arrayBuffer()] rejects. *)
Inductive read_fails (f : File.t) (e : Exn) : Prop :=
| slice_throws slice full :
    File.slice f = Some slice ->
    File.arrayBuffer f = Some full ->
    slice 0 16 = Throw e ->
    read_fails f e
| blob_read_rejects slice full blob :
    File.slice f = Some slice ->
    File.arrayBuffer f = Some full ->
    slice 0 16 = Return blob ->
    Blob.arrayBuffer blob = Throw e ->
    read_fails f e
| full_read_rejects :
    File.slice f = None ->
    File.arrayBuffer f = Some (Throw e) ->
    read_fails f e.

(** A file with declared type and size and a [slice], but no
    [arrayBuffer] of its own. *)
Definition slice_only_file (content : list Z) : File.t :=
  {| File.type := JStr (js "image/png");
     File.size := Some (Z.of_nat (length content));
     File.slice :=
       Some (fun start stop =>
               Return {| Blob.arrayBuffer :=
                           Return (take (Z.to_nat (stop - start))
                                     (drop (Z.to_nat start) content)) |});
     File.arrayBuffer := None |}.

(** A file whose content cannot be read: every read rejects with [e]. *)
Definition unreadable_file (e : Exn) : File.t :=
  {| File.type := JStr (js "image/jpeg");
     File.size := Some 1024;
     File.slice := None;
     File.arrayBuffer := Some (Throw e) |}.

(** A file with the given declared type and size and nothing to read. *)
Definition metadata_file (type : JsVal) (size : option Z) : File.t :=
  {| File.type := type; File.size := size;
     File.slice := None; File.arrayBuffer := None |}.

(** The requests of the [fetch] calls in an event log, in order. *)
Definition fetches (t : list Event) : list Request :=
  flat_map (fun ev => match ev with EvFetch req => [req] | _ => [] end) t.

(** An authenticated request: a POST of a form to a path under the
    client's endpoint, with the client's headers. *)
Definition write_request (this : OpenFoodFactsAPI) (path : jsstring)
    (formData : list (jsstring * FormValue)) : Request :=
  {| url := baseUrl this ++ path;
     query := None;
     method := Some (js "POST");
     headers := Some _createRequestHeaders;
     body := Some formData |}.

(** The three fields every authenticated form begins with. *)
Definition credential_fields (code : JsVal) (creds : Credentials)
  : list (jsstring * FormValue) :=
  [ (js "code", FormString (text_of code));
    (js "user_id", FormString (userId creds));
    (js "password", FormString (password creds)) ].

(** The request of [getProduct] for a barcode. *)
Definition product_request (this : OpenFoodFactsAPI) (barcode : jsstring) : Request :=
  {| url := baseUrl this ++ js "/api/v0/product/" ++ barcode;
     query := None; method := None; headers := None; body := None |}.

(** The request of [getTaxonomy] for a taxonomy name. *)
Definition taxonomy_request (this : OpenFoodFactsAPI) (name : jsstring) : Request :=
  {| url := baseUrl this ++ js "/data/taxonomies/" ++ name ++ js ".json";
     query := None; method := None; headers := None; body := None |}.

(** A transport that answers every request with a status and no usable
    body. *)
Definition status_response (code : Z) : Response :=
  {| ok := false; status := code;
     json := Throw (TypeError (js "body is not JSON")) |}.

Definition respond_status (code : Z) : Transport :=
  fun _ => Return (status_response code).

(** A product answer of the service, with a key the client does not keep
    and without most of those it asks for. *)
Definition product_answer : gmap jsstring JsVal :=
  list_to_map
    [ (js "status", JNum 1);
      (js "product",
       JObj (list_to_map
               [ (js "code", JStr (js "12345678"));
                 (js "brands", JStr (js "Test Brand"));
                 (js "nutriments", JObj ∅) ])) ].

(** The answer for a barcode the service does not know. *)
Definition not_found_answer : gmap jsstring JsVal :=
  list_to_map
    [ (js "status", JNum 0);
      (js "status_verbose", JStr (js "product not found")) ].

(** Search parameters with only [code] and [code_type] given. *)
Definition search_by_code (code code_type : JsVal) : SearchParams.t :=
  {| SearchParams.action := JUndefined;
     SearchParams.search_terms := JUndefined;
     SearchParams.code := code;
     SearchParams.code_type := code_type;
     SearchParams.tagType := JUndefined;
     SearchParams.tag := JUndefined;
     SearchParams.tagContains := JUndefined;
     SearchParams.additives := JUndefined;
     SearchParams.ingredientsFromPalmOil := JUndefined;
     SearchParams.page := JUndefined;
     SearchParams.pageSize := JUndefined;
     SearchParams.fields := JUndefined |}.

(** A search answer without a [products] entry. *)
Definition empty_answer : gmap jsstring JsVal :=
  list_to_map [ (js "count", JNum 0) ].


(** What [searchProducts] needs of its parameters to get as far as the
    transport: an action, filters and page parameters that are missing or
    can be written into the query, a search term that is falsy or a
    string, a code that is falsy or a partial barcode, and, when the three
    tag parameters are all there, a [tagType] that is an array, the values
    that are read for its elements being such as can be written. *)
Definition search_terms_ok (params : SearchParams.t) : Prop :=
  truthy (SearchParams.search_terms params) = false
  \/ typeof (SearchParams.search_terms params) = js "string".

Definition search_code_ok (params : SearchParams.t) : Prop :=
  truthy (SearchParams.code params) = false
  \/ exists s, SearchParams.code params = JStr s /\ partial_barcode s.

Definition search_tags_given (params : SearchParams.t) : bool :=
  truthy (SearchParams.tagType params) && truthy (SearchParams.tag params)
  && truthy (SearchParams.tagContains params).

(** The three values that are read for the tag type at an index can be
    written into the query. *)
Definition tag_values_convertible (params : SearchParams.t) (index : nat)
    (type : JsVal) : bool :=
  convertible type
  && convertible (Get (SearchParams.tagContains params)
                    (Number_toString (Z.of_nat index)))
  && convertible (Get (SearchParams.tag params)
                    (Number_toString (Z.of_nat index))).

Definition search_tags_ok (params : SearchParams.t) : Prop :=
  search_tags_given params = false
  \/ exists types,
       SearchParams.tagType params = JArr types
       /\ forall (i : nat) type,
           types !! i = Some type ->
           tag_values_convertible params i type = true.

Definition search_filters_ok (params : SearchParams.t) : Prop :=
  writable (SearchParams.additives params)
  /\ writable (SearchParams.ingredientsFromPalmOil params)
  /\ writable (SearchParams.page params)
  /\ writable (SearchParams.pageSize params).

(** The two parameters every search begins with. *)
Definition base_query (params : SearchParams.t) : list (jsstring * jsstring) :=
  [ (js "json", js "true");
    (js "action",
     if truthy (SearchParams.action params)
     then text_of (SearchParams.action params) else js "process") ].

(** No filter and no page among the parameters. *)
Definition no_filters (params : SearchParams.t) : Prop :=
  truthy (SearchParams.additives params) = false
  /\ truthy (SearchParams.ingredientsFromPalmOil params) = false
  /\ truthy (SearchParams.page params) = false
  /\ truthy (SearchParams.pageSize params) = false.

(** The three parameters the tag type at an index contributes, for
    values that can be written. *)
Definition tag_values (params : SearchParams.t) (index : nat) (type : JsVal)
  : list (jsstring * jsstring) :=
  [ (js "tagtype_" ++ Number_toString (Z.of_nat index), text_of type);
    (js "tag_contains_" ++ Number_toString (Z.of_nat index),
     text_of (Get (SearchParams.tagContains params)
                (Number_toString (Z.of_nat index))));
    (js "tag_" ++ Number_toString (Z.of_nat index),
     text_of (Get (SearchParams.tag params)
                (Number_toString (Z.of_nat index)))) ].

(** The three parameters a tag at one index contributes; an index past
    the end of an array reads [undefined]. *)
Definition tag_parameters (tags conts : list JsVal) (index : nat) (type : JsVal)
  : list (jsstring * jsstring) :=
  [ (js "tagtype_" ++ Number_toString (Z.of_nat index), text_of type);
    (js "tag_contains_" ++ Number_toString (Z.of_nat index),
     text_of (default JUndefined (conts !! index)));
    (js "tag_" ++ Number_toString (Z.of_nat index),
     text_of (default JUndefined (tags !! index))) ].

(** Search parameters with only the three tag parameters given. *)
Definition search_by_tags (tagType tag tagContains : JsVal) : SearchParams.t :=
  {| SearchParams.action := JUndefined;
     SearchParams.search_terms := JUndefined;
     SearchParams.code := JUndefined;
     SearchParams.code_type := JUndefined;
     SearchParams.tagType := tagType;
     SearchParams.tag := tag;
     SearchParams.tagContains := tagContains;
     SearchParams.additives := JUndefined;
     SearchParams.ingredientsFromPalmOil := JUndefined;
     SearchParams.page := JUndefined;
     SearchParams.pageSize := JUndefined;
     SearchParams.fields := JUndefined |}.

(** Search parameters in which everything that is given is falsy, but for
    a [code_type] and a lone [tagType]. *)
Definition falsy_params : SearchParams.t :=
  {| SearchParams.action := JStr [];
     SearchParams.search_terms := JStr [];
     SearchParams.code := JNum 0;
     SearchParams.code_type := JStr (js "contains");
     SearchParams.tagType := JArr [JStr (js "brands")];
     SearchParams.tag := JUndefined;
     SearchParams.tagContains := JNull;
     SearchParams.additives := JBool false;
     SearchParams.ingredientsFromPalmOil := JStr [];
     SearchParams.page := JNum 0;
     SearchParams.pageSize := JNull;
     SearchParams.fields := JUndefined |}.

(** A search by two tags, with a [tag] array that is too short and a
    [tagContains] array that is too long. *)
Definition two_tag_search : SearchParams.t :=
  search_by_tags (JArr [JStr (js "brands"); JStr (js "labels")])
    (JArr [JStr (js "nestle")])
    (JArr [JStr (js "contains"); JStr (js "does_not_contain"); JStr (js "extra")]).

(** The [lang] parameter of an insight request, when there is one. *)
Definition lang_parameter (lang : JsVal) : list (jsstring * jsstring) :=
  if truthy lang then [(js "lang", text_of lang)] else [].

(** The request of [getRandomInsight]: always to the Robotoff host. *)
Definition insight_request (queryParams : list (jsstring * jsstring)) : Request :=
  {| url := js "https://robotoff.openfoodfacts.org/api/v1/questions/random?";
     query := Some queryParams;
     method := None; headers := None; body := None |}.

(* ===================================================================== *)
(** * Properties *)
(* ===================================================================== *)

(** ** Regular expressions: the matcher and what it decides *)

Module RegexFacts.
Import Regex.

Lemma nullable_lang r : nullable r = true <-> lang r [].
Proof.
  split.
  - induction r; simpl; intros H; try discriminate.
    + constructor.
    + apply andb_prop in H as [H1 H2].
      change (@nil N) with (@nil N ++ []). constructor; auto.
    + apply orb_prop in H as [H|H]; [apply lang_alt_l | apply lang_alt_r]; auto.
    + constructor.
  - remember [] as s eqn:Es. intros H. induction H; simpl; subst; auto; try discriminate.
    + apply app_eq_nil in Es as [-> ->]. rewrite IHlang1, IHlang2; auto.
    + rewrite IHlang; auto.
    + rewrite IHlang; auto. apply orb_true_r.
Qed.

Lemma star_cons_inv r c s :
  lang (Star r) (c :: s) ->
  exists s1 s2, s = s1 ++ s2 /\ lang r (c :: s1) /\ lang (Star r) s2.
Proof.
  remember (Star r) as r' eqn:Er. remember (c :: s) as cs eqn:Ecs.
  intros H. revert s Ecs.
  induction H; intros s' Ecs; try discriminate.
  injection Er as ->.
  destruct s1 as [|c1 s1].
  - simpl in Ecs. apply IHlang2; auto.
  - simpl in Ecs. injection Ecs as -> <-. eauto.
Qed.

Lemma seq_inv r1 r2 s :
  lang (Seq r1 r2) s -> exists s1 s2, s = s1 ++ s2 /\ lang r1 s1 /\ lang r2 s2.
Proof. inversion 1; subst; eauto. Qed.

Lemma alt_inv r1 r2 s : lang (Alt r1 r2) s -> lang r1 s \/ lang r2 s.
Proof. inversion 1; subst; auto. Qed.

Lemma lang_seq_cons r1 r2 c s1 s2 :
  lang r1 (c :: s1) -> lang r2 s2 -> lang (Seq r1 r2) (c :: s1 ++ s2).
Proof. intros H1 H2. apply (lang_seq _ _ (c :: s1) s2); auto. Qed.

Lemma deriv_lang c r : forall s, lang (deriv c r) s <-> lang r (c :: s).
Proof.
  induction r; intros s; simpl.
  - split; inversion 1.
  - split; inversion 1.
  - destruct (p c) eqn:Hp; split; intros H; inversion H; subst.
    + constructor; auto.
    + constructor.
    + congruence.
  - destruct (nullable r1) eqn:Hn; split; intros H.
    + apply alt_inv in H as [H|H].
      * apply seq_inv in H as (s1 & s2 & -> & H1 & H2).
        apply lang_seq_cons; auto. apply IHr1; auto.
      * apply (lang_seq _ _ [] (c :: s)); [apply nullable_lang; auto | apply IHr2; auto].
    + apply seq_inv in H as (s1 & s2 & E & H1 & H2).
      destruct s1 as [|c1 s1]; simpl in E.
      * subst s2. apply lang_alt_r. apply IHr2; auto.
      * injection E as <- ->. apply lang_alt_l. constructor; auto.
        apply IHr1; auto.
    + apply seq_inv in H as (s1 & s2 & -> & H1 & H2).
      apply lang_seq_cons; auto. apply IHr1; auto.
    + apply seq_inv in H as (s1 & s2 & E & H1 & H2).
      destruct s1 as [|c1 s1]; simpl in E.
      * apply nullable_lang in H1. congruence.
      * injection E as <- ->. constructor; auto. apply IHr1; auto.
  - split; intros H; apply alt_inv in H as [H|H].
    + apply lang_alt_l, IHr1; auto.
    + apply lang_alt_r, IHr2; auto.
    + apply lang_alt_l, IHr1; auto.
    + apply lang_alt_r, IHr2; auto.
  - split; intros H.
    + apply seq_inv in H as (s1 & s2 & -> & H1 & H2).
      apply (lang_star_cons _ (c :: s1) s2); auto. apply IHr; auto.
    + apply star_cons_inv in H as (s1 & s2 & -> & H1 & H2).
      constructor; auto. apply IHr; auto.
Qed.

Lemma test_lang r s : test r s = true <-> lang r s.
Proof.
  revert r. induction s as [|c s IH]; intros r; simpl.
  - apply nullable_lang.
  - rewrite IH. apply deriv_lang.
Qed.


Lemma class_inv p s : lang (Class p) s -> exists c, s = [c] /\ p c = true.
Proof. inversion 1; subst; eauto. Qed.

Lemma lang_star_class p s : lang (Star (Class p)) s <-> forallb p s = true.
Proof.
  split.
  - remember (Star (Class p)) as r eqn:Er. intros H.
    induction H; try discriminate; auto.
    injection Er as ->. apply class_inv in H as (c & -> & Hc). simpl.
    rewrite IHlang2; auto. rewrite Hc. reflexivity.
  - induction s as [|c s IH]; simpl; intros H.
    + constructor.
    + apply andb_prop in H as [Hc Hs].
      apply (lang_star_cons _ [c] s); auto. constructor; auto.
Qed.

Lemma lang_power_class p n s :
  lang (power (Class p) n) s <-> length s = n /\ forallb p s = true.
Proof.
  revert s. induction n as [|n IH]; intros s; simpl.
  - split.
    + inversion 1; auto.
    + intros [Hl _]. destruct s; try discriminate. constructor.
  - split.
    + intros H. apply seq_inv in H as (s1 & s2 & -> & H1 & H2).
      apply class_inv in H1 as (c & -> & Hc). apply IH in H2 as [<- H2].
      simpl. rewrite Hc, H2. auto.
    + intros [Hl Hp]. destruct s as [|c s]; try discriminate.
      simpl in *. apply andb_prop in Hp as [Hc Hs].
      apply (lang_seq _ _ [c] s); [constructor; auto | apply IH; auto].
Qed.

Lemma lang_upto_class p n s :
  lang (upto (Class p) n) s <-> (length s <= n)%nat /\ forallb p s = true.
Proof.
  revert s. induction n as [|n IH]; intros s; simpl.
  - split.
    + inversion 1; auto.
    + intros [Hl _]. destruct s; simpl in *; try lia. constructor.
  - split.
    + intros H. apply alt_inv in H as [H|H].
      * inversion H; subst; simpl; split; auto; lia.
      * apply seq_inv in H as (s1 & s2 & -> & H1 & H2).
        apply class_inv in H1 as (c & -> & Hc). apply IH in H2 as [Hl H2].
        simpl. rewrite Hc, H2. split; auto; lia.
    + intros [Hl Hp]. destruct s as [|c s].
      * apply lang_alt_l. constructor.
      * simpl in *. apply andb_prop in Hp as [Hc Hs].
        apply lang_alt_r.
        apply (lang_seq _ _ [c] s); [constructor; auto | apply IH; split; auto; lia].
Qed.

Lemma test_between_class p lo hi s :
  (lo <= hi)%nat ->
  test (between (Class p) lo hi) s = true <->
  (lo <= length s <= hi)%nat /\ forallb p s = true.
Proof.
  intros Hle. rewrite test_lang. unfold between. split.
  - intros H. apply seq_inv in H as (s1 & s2 & -> & H1 & H2).
    apply lang_power_class in H1 as [Hl1 Hp1].
    apply lang_upto_class in H2 as [Hl2 Hp2].
    rewrite length_app, forallb_app, Hp1, Hp2. split; auto; lia.
  - intros [Hl Hp].
    rewrite <- (take_drop lo s) in Hp |- *.
    rewrite forallb_app in Hp. apply andb_prop in Hp as [Hp1 Hp2].
    constructor.
    + apply lang_power_class. split; auto. rewrite length_take. lia.
    + apply lang_upto_class. split; auto. rewrite length_drop. lia.
Qed.

Lemma test_plus_class p s :
  test (plus (Class p)) s = true <-> s <> [] /\ forallb p s = true.
Proof.
  rewrite test_lang. unfold plus. split.
  - intros H. apply seq_inv in H as (s1 & s2 & -> & H1 & H2).
    apply class_inv in H1 as (c & -> & Hc). apply lang_star_class in H2.
    simpl. rewrite Hc, H2. split; auto; discriminate.
  - intros [Hne Hp]. destruct s as [|c s]; [congruence|].
    simpl in Hp. apply andb_prop in Hp as [Hc Hs].
    apply (lang_seq _ _ [c] s); [constructor; auto | apply lang_star_class; auto].
Qed.
End RegexFacts.

(** ** Barcode validation *)

Lemma is_digit_decimal s :
  forallb Regex.is_digit s = true <-> Forall decimal_digit s.
Proof.
  induction s as [|c s IH]; simpl.
  - split; auto.
  - rewrite Forall_cons, andb_true_iff, IH.
    unfold Regex.is_digit, decimal_digit.
    rewrite andb_true_iff, !N.leb_le. reflexivity.
Qed.

Lemma test_re_barcode s : Regex.test re_barcode s = true <-> full_barcode s.
Proof.
  unfold re_barcode, Regex.digit, full_barcode.
  rewrite RegexFacts.test_between_class by lia.
  rewrite is_digit_decimal. reflexivity.
Qed.

Lemma typeof_string v : typeof v = js "string" <-> exists s, v = JStr s.
Proof.
  split.
  - destruct v; simpl; intros H; try discriminate; eauto.
  - intros [s ->]. reflexivity.
Qed.

(** C8. Full-barcode validation ([allowPartial] false) decides every input:
    a value that is not a string is refused with "Barcode must be a
    string"; a string of 8 to 13 decimal digits and nothing else is
    accepted; every other string is refused with "Invalid barcode format.
    Must be 8-13 digits.".  The validator is a function of its argument
    alone and has no effect. *)
Theorem validateBarcode_full_decides (barcode : JsVal) :
  (typeof barcode <> js "string" ->
   _validateBarcode barcode false = Throw (Error (js "Barcode must be a string")))
  /\ (forall s, barcode = JStr s -> full_barcode s ->
      _validateBarcode barcode false = Return tt)
  /\ (forall s, barcode = JStr s -> ~ full_barcode s ->
      _validateBarcode barcode false
      = Throw (Error (js "Invalid barcode format. Must be 8-13 digits."))).
Proof.
  split; [|split].
  - intros Hty. destruct barcode; try reflexivity.
    exfalso. apply Hty. reflexivity.
  - intros s -> Hs. simpl. apply test_re_barcode in Hs. rewrite Hs. reflexivity.
  - intros s -> Hs. simpl.
    destruct (Regex.test re_barcode s) eqn:Ht; [|reflexivity].
    apply test_re_barcode in Ht. contradiction.
Qed.

Lemma validateBarcode_full_decides_witness :
  _validateBarcode (JNum 123456789) false = Throw (Error (js "Barcode must be a string"))
  /\ _validateBarcode (JStr (js "12345678")) false = Return tt
  /\ _validateBarcode (JStr (js "abc123")) false
     = Throw (Error (js "Invalid barcode format. Must be 8-13 digits.")).
Proof.
  split; [|split].
  - apply (proj1 (validateBarcode_full_decides (JNum 123456789))).
    discriminate.
  - apply (proj1 (proj2 (validateBarcode_full_decides (JStr (js "12345678"))))
             (js "12345678") eq_refl).
    split; [vm_compute; lia|].
    apply is_digit_decimal. vm_compute. reflexivity.
  - apply (proj2 (proj2 (validateBarcode_full_decides (JStr (js "abc123"))))
             (js "abc123") eq_refl).
    intros [Hlen _]. vm_compute in Hlen. lia.
Defined.

(** ** Search-input sanitization *)

Lemma trimStart_split (s : jsstring) :
  exists before, s = before ++ trimStart s /\ Forall white before.
Proof.
  induction s as [| c s IH]; simpl.
  - exists []. split; [reflexivity | constructor].
  - destruct (is_white_space c) eqn:E.
    + destruct IH as (before & Hs & Hw).
      exists (c :: before). split; [simpl; congruence|].
      constructor; assumption.
    + exists []. split; [reflexivity | constructor].
Qed.

Lemma trimStart_head (s : jsstring) :
  match head (trimStart s) with
  | Some c => is_white_space c = false
  | None => True
  end.
Proof.
  induction s as [| c s IH]; simpl; [exact I|].
  destruct (is_white_space c) eqn:E; [exact IH | exact E].
Qed.

Lemma last_rev (l : jsstring) : last (rev l) = head l.
Proof.
  destruct l as [| c l]; [reflexivity|].
  simpl. apply last_snoc.
Qed.

Lemma trimEnd_split (s : jsstring) :
  exists after, s = trimEnd s ++ after /\ Forall white after.
Proof.
  unfold trimEnd. destruct (trimStart_split (rev s)) as (before & Hs & Hw).
  exists (rev before). split.
  - rewrite <- rev_app_distr, <- Hs, rev_involutive. reflexivity.
  - apply Forall_forall. intros c Hc.
    apply list_elem_of_In, in_rev, list_elem_of_In in Hc.
    apply (proj1 (Forall_forall _ _) Hw c Hc).
Qed.

Lemma trimEnd_last (s : jsstring) :
  match last (trimEnd s) with
  | Some c => is_white_space c = false
  | None => True
  end.
Proof. unfold trimEnd. rewrite last_rev. apply trimStart_head. Qed.

Lemma trim_split (s : jsstring) :
  exists before after,
    s = before ++ trim s ++ after /\ Forall white before /\ Forall white after.
Proof.
  unfold trim. destruct (trimStart_split s) as (before & Hs & Hb).
  destruct (trimEnd_split (trimStart s)) as (after & Ht & Ha).
  exists before, after. split; [|split; assumption].
  rewrite <- Ht. exact Hs.
Qed.

Lemma trim_head (s : jsstring) :
  match head (trim s) with
  | Some c => is_white_space c = false
  | None => True
  end.
Proof.
  unfold trim. destruct (trimEnd_split (trimStart s)) as (after & Ht & _).
  pose proof (trimStart_head s) as Hh. rewrite Ht in Hh.
  destruct (trimEnd (trimStart s)); [exact I | exact Hh].
Qed.

(** ** The encoding leaves no markup symbol *)

Lemma hex_upper_markup_free (u : Hexadecimal.uint) : markup_free (He.hex_upper u).
Proof. induction u; simpl; constructor; auto. Qed.

Lemma hexEscape_markup_free (codePoint : N) : markup_free (He.hexEscape codePoint).
Proof.
  unfold He.hexEscape, markup_free. rewrite !Forall_app.
  split; [|split].
  - repeat constructor.
  - apply hex_upper_markup_free.
  - repeat constructor.
Qed.

Lemma escape_class_markup_free (class : N -> bool) (s : jsstring) :
  Forall (fun c => class c = false -> markup_symbol c = false) s ->
  markup_free (He.escape_class class s).
Proof.
  unfold He.escape_class, markup_free.
  induction 1 as [| c s Hc _ IH]; simpl; [constructor|].
  apply Forall_app. split; [|exact IH].
  destruct (class c) eqn:E; [apply hexEscape_markup_free|].
  constructor; [auto | constructor].
Qed.

Lemma regexEscape_covers (c : N) :
  He.regexEscape c = false -> markup_symbol c = false.
Proof.
  unfold He.regexEscape, markup_symbol.
  destruct (c =? 0x22)%N, (c =? 0x26)%N, (c =? 0x27)%N, (c =? 0x3C)%N,
    (c =? 0x3E)%N, (c =? 0x60)%N; simpl; congruence.
Qed.

Lemma escape_astral_markup_free (s : jsstring) :
  markup_free s -> markup_free (He.escape_astral s).
Proof.
  unfold markup_free.
  assert (H : forall n (s : jsstring),
             (length s <= n)%nat ->
             Forall (fun c => markup_symbol c = false) s ->
             Forall (fun c => markup_symbol c = false) (He.escape_astral s)).
  { induction n as [| n IH]; intros s0 Hlen Hs.
    - destruct s0; [constructor | cbn [length] in Hlen; lia].
    - destruct s0 as [| high [| low rest]]; cbn [He.escape_astral].
      + constructor.
      + exact Hs.
      + inversion Hs as [| ? ? Hhigh Htl]; subst.
        cbn [length] in Hlen.
        destruct (He.is_high_surrogate high && He.is_low_surrogate low).
        * apply Forall_app. split; [apply hexEscape_markup_free|].
          inversion Htl; subst. apply IH; [lia | assumption].
        * constructor; [exact Hhigh|].
          apply (IH (low :: rest)); [cbn [length]; lia | exact Htl]. }
  apply (H (length s)). lia.
Qed.

Lemma encode_markup_free (s : jsstring) : markup_free (He.encode s).
Proof.
  unfold He.encode.
  apply escape_class_markup_free.
  eapply Forall_impl.
  - apply escape_astral_markup_free, escape_class_markup_free.
    apply Forall_forall. intros c _. apply regexEscape_covers.
  - intros c Hc _. exact Hc.
Qed.

Lemma markup_free_prefix (out s : jsstring) :
  out `prefix_of` s -> markup_free s -> markup_free out.
Proof.
  intros [rest ->] H. apply Forall_app in H. apply H.
Qed.

(** C9. On a string the sanitizer returns the first 100 code units of the
    entity-encoded input with its leading and trailing white space
    stripped, so no result is longer than 100.  Stripping removes white
    space at both ends and nothing else, and what is left neither begins
    nor ends with white space.  The encoding leaves no quote, angle
    bracket or backtick in its output: each of these, and the ampersand,
    is replaced by its hexadecimal character reference.  The script
    example of the specification comes out as listed, 150 letters a come
    out as 100 code units, and the padded and the quoted example of the
    repository's tests come out as the tests expect. *)
Theorem sanitizeSearchInput_encodes_trims_truncates :
  (forall s : jsstring,
      exists out,
        _sanitizeSearchInput (JStr s) = Return out
        /\ out `prefix_of` trim (He.encode s)
        /\ length out = Nat.min 100 (length (trim (He.encode s)))
        /\ (length out <= 100)%nat
        /\ markup_free out)
  /\ (forall s : jsstring,
        (exists before after,
            s = before ++ trim s ++ after
            /\ Forall white before /\ Forall white after)
        /\ match head (trim s) with
           | Some c => is_white_space c = false
           | None => True
           end
        /\ match last (trim s) with
           | Some c => is_white_space c = false
           | None => True
           end)
  /\ (forall s : jsstring, markup_free (He.encode s))
  /\ (He.encode (js "&") = js "&#x26;"
      /\ He.encode (js "<") = js "&#x3C;"
      /\ He.encode (js ">") = js "&#x3E;"
      /\ He.encode quot = js "&#x22;"
      /\ He.encode (js "'") = js "&#x27;"
      /\ He.encode (js "`") = js "&#x60;")
  /\ _sanitizeSearchInput (JStr xss_input) = Return xss_output
  /\ (exists out,
        _sanitizeSearchInput (JStr (str_repeat (js "a") 150)) = Return out
        /\ length out = 100%nat)
  /\ _sanitizeSearchInput (JStr (js "  chocolate  ")) = Return (js "chocolate")
  /\ _sanitizeSearchInput (JStr quoted_name_input) = Return quoted_name_output.
Proof.
  split; [|split; [|split; [|split; [|split; [|split; [|split]]]]]].
  - intros s. eexists. split; [reflexivity|].
    unfold substring0.
    split; [exists (drop 100 (trim (He.encode s))); symmetry; apply take_drop|].
    split; [apply length_take|].
    split; [rewrite length_take; lia|].
    apply (markup_free_prefix _ (trim (He.encode s))).
    + exists (drop 100 (trim (He.encode s))). symmetry. apply take_drop.
    + destruct (trim_split (He.encode s)) as (before & after & Hs & _).
      pose proof (encode_markup_free s) as Hfree.
      rewrite Hs in Hfree. unfold markup_free in Hfree.
      rewrite !Forall_app in Hfree. apply Hfree.
  - intros s. split; [apply trim_split|].
    split; [apply trim_head | apply trimEnd_last].
  - apply encode_markup_free.
  - repeat split; vm_compute; reflexivity.
  - vm_compute. reflexivity.
  - eexists. split; [reflexivity|]. vm_compute. reflexivity.
  - vm_compute. reflexivity.
  - vm_compute. reflexivity.
Qed.

(** ** Image validation *)

Lemma every_at_shift offset k signature bytes :
  forallb (fun '(index, byte) =>
             match bytes !! (offset + index)%nat with
             | Some b => b =? byte
             | None => false
             end)
          (imap (fun index byte => ((k + index)%nat, byte)) signature) = true
  <-> take (length signature) (drop (offset + k) bytes) = signature.
Proof.
  revert k. induction signature as [|byte signature IH]; intros k.
  - simpl. split; auto.
  - rewrite imap_cons. simpl forallb. rewrite andb_true_iff.
    rewrite (imap_ext _ (fun index b => ((S k + index)%nat, b))) by (intros i x _; simpl; f_equal; lia).
    rewrite IH. rewrite Nat.add_0_r.
    destruct (bytes !! (offset + k)%nat) as [b|] eqn:Hb.
    + rewrite (drop_S _ _ _ Hb). simpl.
      replace (offset + S k)%nat with (S (offset + k)) by lia. split.
      * intros [Hz Ht]. apply Z.eqb_eq in Hz. congruence.
      * intros H. injection H as -> Ht. rewrite Z.eqb_refl. auto.
    + split; [intros [? _]; discriminate|].
      apply lookup_ge_None in Hb. rewrite drop_ge by lia. simpl. discriminate.
Qed.

Lemma every_at_spec offset signature bytes :
  every_at offset signature bytes = true <-> has_at offset signature bytes.
Proof.
  unfold every_at, has_at.
  replace (drop offset bytes) with (drop (offset + 0) bytes)
    by (f_equal; lia).
  rewrite <- every_at_shift. reflexivity.
Qed.

Lemma validSignature_unfold bytes :
  validSignature bytes
  = every_at 0 jpeg_magic bytes || every_at 0 png_magic bytes
    || every_at 0 riff_magic bytes
       && (negb (12 <=? length bytes)%nat || every_at 8 webp_magic bytes).
Proof.
  unfold validSignature, signatures, scan_signatures.
  change (str_eqb (js "jpeg") (js "webp")) with false.
  change (str_eqb (js "png") (js "webp")) with false.
  change (str_eqb (js "webp") (js "webp")) with true.
  change webpIdentifier with webp_magic.
  change [0xFF; 0xD8; 0xFF] with jpeg_magic.
  change [0x89; 0x50; 0x4E; 0x47] with png_magic.
  change [0x52; 0x49; 0x46; 0x46] with riff_magic.
  generalize (12 <=? length bytes)%nat as long.
  generalize (every_at 8 webp_magic bytes) as webp.
  generalize (every_at 0 riff_magic bytes) as riff.
  generalize (every_at 0 png_magic bytes) as png.
  generalize (every_at 0 jpeg_magic bytes) as jpeg.
  intros [] [] [] [] []; reflexivity.
Qed.

Lemma includes_elem l s : s ∈ l -> includes l (JStr s) = true.
Proof.
  intros Hin. simpl. apply existsb_exists. exists s. split.
  - apply list_elem_of_In; auto.
  - unfold str_eqb. apply bool_decide_eq_true. reflexivity.
Qed.

Lemma metadata_checks_pass f :
  declared_metadata_ok f ->
  check_declared_type f = ret tt /\ check_declared_size f = ret tt.
Proof.
  intros [Hty Hsz]. split.
  - unfold check_declared_type.
    destruct Hty as [-> | (s & -> & Hin)]; [reflexivity|].
    rewrite (includes_elem _ _ Hin). reflexivity.
  - unfold check_declared_size.
    destruct (File.size f) as [sz |] eqn:E; [|reflexivity].
    specialize (Hsz sz eq_refl).
    destruct (sz >? maxSize) eqn:Hgt; [|reflexivity].
    apply Z.gtb_lt in Hgt. lia.
Qed.

(** With acceptable metadata, the validation is decided by the signature
    check on the bytes that were read. *)
Lemma validateImageFile_outcome f bytes :
  declared_metadata_ok f -> byte_read f bytes ->
  outcome (_validateImageFile (Some f))
  = if validSignature bytes then Return tt else Throw (Error content_mismatch).
Proof.
  intros Hmeta Hread. unfold _validateImageFile.
  destruct (metadata_checks_pass f Hmeta) as [-> ->].
  destruct Hread as [slice full blob bytes Hs Hf Hb Hr | buffer Hs Hf].
  - rewrite Hf. unfold read_leading_bytes. rewrite Hs.
    change BYTES_TO_READ with 16. rewrite Hb. simpl.
    rewrite Hr. simpl.
    destruct (validSignature bytes); reflexivity.
  - rewrite Hf. unfold read_leading_bytes. rewrite Hs. simpl.
    change (Z.to_nat BYTES_TO_READ) with 16%nat.
    destruct (validSignature (take 16 buffer)); reflexivity.
Qed.

Lemma unsliceable_file_ok content :
  (length content <= 16)%nat ->
  declared_metadata_ok (unsliceable_file content)
  /\ byte_read (unsliceable_file content) content.
Proof.
  intros Hlen. split.
  - split.
    + right. exists (js "image/jpeg"). split; [reflexivity|].
      unfold allowedTypes. set_solver.
    + simpl. intros sz [= <-]. unfold maxSize. lia.
  - rewrite <- (take_ge content 16) at 2 by lia.
    apply read_in_full; reflexivity.
Qed.

Lemma sliceable_file_ok content :
  (length content <= 16)%nat ->
  declared_metadata_ok (sliceable_file content)
  /\ byte_read (sliceable_file content) content.
Proof.
  intros Hlen. split.
  - split.
    + right. exists (js "image/webp"). split; [reflexivity|].
      unfold allowedTypes. set_solver.
    + simpl. intros sz [= <-]. unfold maxSize. lia.
  - eapply read_sliced; try reflexivity.
    simpl. f_equal. rewrite drop_0. apply take_ge. simpl. lia.
Qed.

Lemma riff_not_jpeg bytes : has_at 0 riff_magic bytes -> ~ has_at 0 jpeg_magic bytes.
Proof.
  unfold has_at, riff_magic, jpeg_magic, png_magic.
  destruct bytes as [|b bytes]; simpl; [discriminate|].
  intros [= -> _] [= ?].
Qed.

Lemma riff_not_png bytes : has_at 0 riff_magic bytes -> ~ has_at 0 png_magic bytes.
Proof.
  unfold has_at, riff_magic, jpeg_magic, png_magic.
  destruct bytes as [|b bytes]; simpl; [discriminate|].
  intros [= -> _] [= ?].
Qed.

Lemma every_at_false offset signature bytes :
  ~ has_at offset signature bytes -> every_at offset signature bytes = false.
Proof.
  intros H. destruct (every_at offset signature bytes) eqn:E; [|reflexivity].
  apply every_at_spec in E. contradiction.
Qed.

(** C3. On 16 bytes the signature check accepts a JPEG (FF D8 FF), a PNG
    (89 50 4E 47) and a WebP header (52 49 46 46 and, at offsets 8 to 11,
    57 45 42 50); it refuses a RIFF header whose offsets 8 to 11 are not
    WEBP, and any content that matches no signature.  For every file whose
    byte read yields these 16 bytes (the read takes place once the declared
    type and size were accepted) validation passes when the check accepts
    and fails with "File content does not match allowed image formats"
    when it refuses. *)
Theorem validateImageFile_signatures (bytes : list Z) :
  length bytes = 16%nat ->
  ((has_at 0 jpeg_magic bytes -> validSignature bytes = true)
   /\ (has_at 0 png_magic bytes -> validSignature bytes = true)
   /\ (has_at 0 riff_magic bytes -> has_at 8 webp_magic bytes ->
       validSignature bytes = true)
   /\ (has_at 0 riff_magic bytes -> ~ has_at 8 webp_magic bytes ->
       validSignature bytes = false)
   /\ (~ has_at 0 jpeg_magic bytes -> ~ has_at 0 png_magic bytes ->
       ~ (has_at 0 riff_magic bytes /\ has_at 8 webp_magic bytes) ->
       validSignature bytes = false))
  /\ (forall f : File.t,
        declared_metadata_ok f ->
        byte_read f bytes ->
        outcome (_validateImageFile (Some f))
        = if validSignature bytes then Return tt
          else Throw (Error (js "File content does not match allowed image formats"))).
Proof.
  intros Hlen. split.
  - rewrite validSignature_unfold, Hlen.
    change (12 <=? 16)%nat with true. simpl negb. simpl orb.
    split; [|split; [|split; [|split]]].
    + intros H. apply every_at_spec in H. rewrite H. reflexivity.
    + intros H. apply every_at_spec in H. rewrite H, orb_true_r. reflexivity.
    + intros H1 H2. apply every_at_spec in H1, H2.
      rewrite H1, H2, orb_true_r. reflexivity.
    + intros H1 H2.
      rewrite (every_at_false _ _ _ (riff_not_jpeg _ H1)).
      rewrite (every_at_false _ _ _ (riff_not_png _ H1)).
      rewrite (every_at_false _ _ _ H2), andb_false_r. reflexivity.
    + intros H1 H2 H3.
      rewrite (every_at_false _ _ _ H1), (every_at_false _ _ _ H2). simpl.
      destruct (every_at 0 riff_magic bytes) eqn:E1;
        destruct (every_at 8 webp_magic bytes) eqn:E2; try reflexivity.
      exfalso. apply H3. split; apply every_at_spec; assumption.
  - intros f Hmeta Hread. apply validateImageFile_outcome; assumption.
Qed.

Lemma validateImageFile_signatures_witness :
  outcome (_validateImageFile (Some (unsliceable_file jpeg_16))) = Return tt
  /\ outcome (_validateImageFile (Some (unsliceable_file png_16))) = Return tt
  /\ outcome (_validateImageFile (Some (sliceable_file webp_16))) = Return tt
  /\ outcome (_validateImageFile (Some (sliceable_file avi_16)))
     = Throw (Error (js "File content does not match allowed image formats"))
  /\ outcome (_validateImageFile (Some (unsliceable_file zip_16)))
     = Throw (Error (js "File content does not match allowed image formats")).
Proof.
  assert (H16 : (16 <= 16)%nat) by lia.
  split; [|split; [|split; [|split]]].
  - destruct (unsliceable_file_ok jpeg_16 H16) as [Hm Hr].
    destruct (validateImageFile_signatures jpeg_16 eq_refl) as ((H & _) & Hrun).
    rewrite (Hrun _ Hm Hr), H; reflexivity.
  - destruct (unsliceable_file_ok png_16 H16) as [Hm Hr].
    destruct (validateImageFile_signatures png_16 eq_refl) as ((_ & H & _) & Hrun).
    rewrite (Hrun _ Hm Hr), H; reflexivity.
  - destruct (sliceable_file_ok webp_16 H16) as [Hm Hr].
    destruct (validateImageFile_signatures webp_16 eq_refl)
      as ((_ & _ & H & _) & Hrun).
    rewrite (Hrun _ Hm Hr), H; reflexivity.
  - destruct (sliceable_file_ok avi_16 H16) as [Hm Hr].
    destruct (validateImageFile_signatures avi_16 eq_refl)
      as ((_ & _ & _ & H & _) & Hrun).
    rewrite (Hrun _ Hm Hr), H; [reflexivity | reflexivity | discriminate].
  - destruct (unsliceable_file_ok zip_16 H16) as [Hm Hr].
    destruct (validateImageFile_signatures zip_16 eq_refl)
      as ((_ & _ & _ & _ & H) & Hrun).
    rewrite (Hrun _ Hm Hr), H; [reflexivity | discriminate | discriminate |].
    intros [Hriff _]. discriminate.
Defined.

(** C10. Bytes that begin with the RIFF header 52 49 46 46 and are fewer
    than 12 pass the signature check: the test for WEBP at offsets 8 to 11
    is only made on 12 bytes or more.  So every readable file whose content
    is such a fragment passes validation (the read takes place once the
    declared type and size were accepted), although the content is no
    complete signature of an allowed format. *)
Theorem validateImageFile_short_riff_passes (bytes : list Z) :
  (length bytes < 12)%nat ->
  has_at 0 riff_magic bytes ->
  validSignature bytes = true
  /\ (forall f : File.t,
        declared_metadata_ok f ->
        byte_read f bytes ->
        outcome (_validateImageFile (Some f)) = Return tt).
Proof.
  intros Hlen Hriff.
  assert (Hv : validSignature bytes = true).
  { rewrite validSignature_unfold.
    apply every_at_spec in Hriff. rewrite Hriff.
    destruct (12 <=? length bytes)%nat eqn:E.
    - apply Nat.leb_le in E. lia.
    - simpl. apply orb_true_r. }
  split; [exact Hv|].
  intros f Hmeta Hread.
  rewrite (validateImageFile_outcome f bytes Hmeta Hread), Hv. reflexivity.
Qed.

Lemma validateImageFile_short_riff_passes_witness :
  validSignature riff_8 = true
  /\ outcome (_validateImageFile (Some (sliceable_file riff_8))) = Return tt
  /\ outcome (_validateImageFile (Some (unsliceable_file riff_8))) = Return tt.
Proof.
  assert (H8 : (length riff_8 <= 16)%nat) by (simpl; lia).
  assert (Hshort : (length riff_8 < 12)%nat) by (simpl; lia).
  destruct (validateImageFile_short_riff_passes riff_8 Hshort eq_refl)
    as [Hv Hrun].
  split; [exact Hv|]. split.
  - destruct (sliceable_file_ok riff_8 H8) as [Hm Hr]. apply (Hrun _ Hm Hr).
  - destruct (unsliceable_file_ok riff_8 H8) as [Hm Hr]. apply (Hrun _ Hm Hr).
Defined.

(** The events of a validation of a file that can be sliced. *)
Lemma sliceable_trace_cases (f : File.t) slice :
  File.slice f = Some slice ->
  trace (_validateImageFile (Some f)) = []
  \/ trace (_validateImageFile (Some f)) = [EvSlice 0 16]
  \/ trace (_validateImageFile (Some f)) = [EvSlice 0 16; EvSliceRead].
Proof.
  intros Hs. unfold _validateImageFile, read_leading_bytes. rewrite Hs.
  change BYTES_TO_READ with 16.
  destruct (check_declared_type f) as [t1 [[]|e1]] eqn:E1.
  2: { unfold check_declared_type in E1.
       destruct (File.type f); try destruct (negb _); try discriminate;
         injection E1 as <- <-; simpl; auto. }
  assert (t1 = []) as ->.
  { unfold check_declared_type in E1.
    destruct (File.type f); try destruct (negb _); try discriminate;
      injection E1; auto. }
  destruct (check_declared_size f) as [t2 [[]|e2]] eqn:E2.
  2: { unfold check_declared_size in E2.
       destruct (File.size f) as [sz |]; try destruct (sz >? maxSize);
         try discriminate; injection E2 as <- <-; simpl; auto. }
  assert (t2 = []) as ->.
  { unfold check_declared_size in E2.
    destruct (File.size f) as [sz |]; try destruct (sz >? maxSize);
      try discriminate; injection E2; auto. }
  destruct (File.arrayBuffer f) as [full |]; simpl; auto.
  destruct (slice 0 16) as [blob | e]; simpl.
  - destruct (Blob.arrayBuffer blob) as [bytes | e]; simpl.
    + destruct (validSignature bytes); simpl; auto.
    + destruct (str_eqb (message e) content_mismatch); simpl; auto.
  - destruct (str_eqb (message e) content_mismatch); simpl; auto.
Qed.

Lemma sliced_trace f slice full blob bytes :
  declared_metadata_ok f ->
  File.slice f = Some slice -> File.arrayBuffer f = Some full ->
  slice 0 16 = Return blob -> Blob.arrayBuffer blob = Return bytes ->
  trace (_validateImageFile (Some f)) = [EvSlice 0 16; EvSliceRead].
Proof.
  intros Hmeta Hs Hf Hb Hr. unfold _validateImageFile, read_leading_bytes.
  destruct (metadata_checks_pass f Hmeta) as [-> ->].
  rewrite Hf, Hs. change BYTES_TO_READ with 16. rewrite Hb. simpl.
  rewrite Hr. simpl.
  destruct (validSignature bytes); reflexivity.
Qed.

(** C2. A file that offers [slice] is never read in full by the
    validation: the only range it asks for is [0, 16), through [slice], and
    the only buffer it reads is that of the slice; when the declared type
    and size are accepted and the file is readable, that is exactly what
    it does, and the slice's bytes alone decide the result. *)
Theorem validateImageFile_reads_only_the_slice (f : File.t)
    (slice : Z -> Z -> Completion Blob.t) :
  File.slice f = Some slice ->
  (EvFullRead ∉ trace (_validateImageFile (Some f)))
  /\ (forall start stop,
        EvSlice start stop ∈ trace (_validateImageFile (Some f)) ->
        start = 0 /\ stop = 16)
  /\ (declared_metadata_ok f -> is_Some (File.arrayBuffer f) ->
      forall blob bytes,
        slice 0 16 = Return blob -> Blob.arrayBuffer blob = Return bytes ->
        trace (_validateImageFile (Some f)) = [EvSlice 0 16; EvSliceRead]
        /\ outcome (_validateImageFile (Some f))
           = if validSignature bytes then Return tt
             else Throw (Error (js "File content does not match allowed image formats"))).
Proof.
  intros Hs.
  pose proof (sliceable_trace_cases f slice Hs) as Ht.
  split; [|split].
  - intros Hin. destruct Ht as [Ht | [Ht | Ht]]; rewrite Ht in Hin.
    + inversion Hin.
    + apply list_elem_of_singleton in Hin. discriminate.
    + apply elem_of_cons in Hin as [Hin | Hin]; [discriminate|].
      apply list_elem_of_singleton in Hin. discriminate.
  - intros start stop Hin.
    destruct Ht as [Ht | [Ht | Ht]]; rewrite Ht in Hin.
    + inversion Hin.
    + apply list_elem_of_singleton in Hin. injection Hin as -> ->. auto.
    + apply elem_of_cons in Hin as [Hin | Hin].
      * injection Hin as -> ->. auto.
      * apply list_elem_of_singleton in Hin. discriminate.
  - intros Hmeta [full Hf] blob bytes Hb Hr. split.
    + eapply sliced_trace; eauto.
    + apply validateImageFile_outcome; auto.
      eapply read_sliced; eauto.
Qed.

Lemma validateImageFile_reads_only_the_slice_witness :
  trace (_validateImageFile (Some (sliceable_file jpeg_16)))
  = [EvSlice 0 16; EvSliceRead]
  /\ (EvFullRead ∉ trace (_validateImageFile (Some (sliceable_file jpeg_16)))).
Proof.
  assert (H16 : (length jpeg_16 <= 16)%nat) by (simpl; lia).
  destruct (sliceable_file_ok jpeg_16 H16) as [Hm _].
  destruct (validateImageFile_reads_only_the_slice
              (sliceable_file jpeg_16) _ eq_refl) as (Hfull & _ & Hrun).
  split; [|exact Hfull].
  apply (Hrun Hm (ex_intro _ _ eq_refl) _ _ eq_refl eq_refl).
Defined.

(** ** String conversion *)

Lemma ToString_cases :
  forall v : JsVal,
    if convertible v then exists s, ToString v = Return s
    else ToString v = Throw not_primitive.
Proof.
  fix IH 1. intros [ | | [|] | z | s | xs | props]; simpl; eauto.
  - assert (H : if forallb convertible xs
                then exists parts,
                    (fix elements (xs : list JsVal) : Completion (list jsstring) :=
                       match xs with
                       | [] => Return []
                       | x :: rest =>
                           match
                             match x with
                             | JUndefined | JNull => Return []
                             | _ => ToString x
                             end
                           with
                           | Throw e => Throw e
                           | Return part =>
                               match elements rest with
                               | Throw e => Throw e
                               | Return parts => Return (part :: parts)
                               end
                           end
                       end) xs = Return parts
                else
                    (fix elements (xs : list JsVal) : Completion (list jsstring) :=
                       match xs with
                       | [] => Return []
                       | x :: rest =>
                           match
                             match x with
                             | JUndefined | JNull => Return []
                             | _ => ToString x
                             end
                           with
                           | Throw e => Throw e
                           | Return part =>
                               match elements rest with
                               | Throw e => Throw e
                               | Return parts => Return (part :: parts)
                               end
                           end
                       end) xs = Throw not_primitive).
    { revert xs. fix IHxs 1. intros [| x rest]; [simpl; eauto|].
      specialize (IH x). specialize (IHxs rest).
      simpl forallb.
      destruct (convertible x) eqn:Ex; simpl andb.
      - destruct IH as [part Hpart].
        assert (Hx : match x with
                     | JUndefined | JNull => Return []
                     | _ => ToString x
                     end = Return (match x with
                                   | JUndefined | JNull => []
                                   | _ => part
                                   end)).
        { destruct x; try exact Hpart; reflexivity. }
        rewrite Hx.
        destruct (forallb convertible rest).
        + destruct IHxs as [parts ->]. eauto.
        + rewrite IHxs. reflexivity.
      - assert (Hx : match x with
                     | JUndefined | JNull => Return []
                     | _ => ToString x
                     end = Throw not_primitive).
        { destruct x; try exact IH; discriminate Ex. }
        rewrite Hx. reflexivity. }
    destruct (forallb convertible xs).
    + destruct H as [parts ->]. eauto.
    + rewrite H. reflexivity.
  - destruct (hides_toString props); simpl; eauto.
Qed.

Lemma ToString_convertible (v : JsVal) :
  convertible v = true -> ToString v = Return (text_of v).
Proof.
  intros H. pose proof (ToString_cases v) as Hc. rewrite H in Hc.
  destruct Hc as [s Hs]. unfold text_of. rewrite Hs. reflexivity.
Qed.

Lemma ToString_not_convertible (v : JsVal) :
  convertible v = false -> ToString v = Throw not_primitive.
Proof.
  intros H. pose proof (ToString_cases v) as Hc. rewrite H in Hc. exact Hc.
Qed.

(** ** Search: how a run of [searchProducts] unfolds *)

Lemma searchProducts_query_throws fetch this params e :
  search_query params = Throw e ->
  searchProducts fetch this params = search_catch e.
Proof.
  intros Hq. unfold searchProducts. rewrite Hq. simpl.
  destruct (search_catch e) as [t r] eqn:E.
  unfold search_catch in E.
  destruct (instanceof_OpenFoodFactsError e);
    [|destruct (str_eqb (message e) invalid_response)];
    injection E as <- <-; reflexivity.
Qed.

Lemma search_catch_trace e : trace (search_catch e) = [].
Proof.
  unfold search_catch.
  destruct (instanceof_OpenFoodFactsError e);
    [|destruct (str_eqb (message e) invalid_response)]; reflexivity.
Qed.

Lemma searchProducts_fetch_throws fetch this params q e :
  search_query params = Return q ->
  fetch (search_request this q) = Throw e ->
  outcome (searchProducts fetch this params) = outcome (search_catch e).
Proof.
  intros Hq Hf. unfold searchProducts, call_fetch. rewrite Hq. simpl.
  rewrite Hf. simpl.
  destruct (search_catch e) as [t r]. reflexivity.
Qed.

Lemma searchProducts_invalid_body fetch this params q response data :
  search_query params = Return q ->
  fetch (search_request this q) = Return response ->
  ok response = true ->
  json response = Return data ->
  truthy data = false \/ typeof data <> js "object" ->
  outcome (searchProducts fetch this params) = Throw (Error invalid_response).
Proof.
  intros Hq Hf Hok Hj Hbad. unfold searchProducts, call_fetch.
  rewrite Hq. simpl. rewrite Hf. simpl. rewrite Hok. simpl. rewrite Hj. simpl.
  assert (Hc : negb (truthy data) || negb (str_eqb (typeof data) (js "object")) = true).
  { destruct Hbad as [-> | Hty]; [reflexivity|].
    unfold str_eqb. rewrite bool_decide_eq_false_2 by exact Hty.
    apply orb_true_r. }
  rewrite Hc. reflexivity.
Qed.

Lemma searchProducts_valid_body fetch this params q response data :
  search_query params = Return q ->
  fetch (search_request this q) = Return response ->
  ok response = true ->
  json response = Return data ->
  truthy data = true -> typeof data = js "object" ->
  forall result,
    filter_fields (SearchParams.fields params) data = Return result ->
    outcome (searchProducts fetch this params) = Return result.
Proof.
  intros Hq Hf Hok Hj Ht Hty result Hres. unfold searchProducts, call_fetch.
  rewrite Hq. simpl. rewrite Hf. simpl. rewrite Hok. simpl. rewrite Hj. simpl.
  rewrite Ht, Hty. simpl. rewrite Hres. reflexivity.
Qed.

(** ** Search: a search term that is not a string *)

Lemma new_queryParams_ok params :
  action_ok params -> new_queryParams params = Return (base_query params).
Proof.
  intros Ha. unfold new_queryParams, base_query.
  destruct (truthy (SearchParams.action params)) eqn:Et; [|reflexivity].
  destruct Ha as [Ha | Ha]; [congruence|].
  rewrite (ToString_convertible _ Ha). reflexivity.
Qed.

Lemma new_queryParams_bad params :
  ~ action_ok params -> new_queryParams params = Throw not_primitive.
Proof.
  intros Ha. unfold new_queryParams.
  destruct (truthy (SearchParams.action params)) eqn:Et.
  - destruct (convertible (SearchParams.action params)) eqn:Ec.
    + exfalso. apply Ha. right. exact Ec.
    + rewrite (ToString_not_convertible _ Ec). reflexivity.
  - exfalso. apply Ha. left. exact Et.
Qed.

Lemma search_query_bad_action params :
  ~ action_ok params -> search_query params = Throw not_primitive.
Proof.
  intros Ha. unfold search_query. rewrite (new_queryParams_bad params Ha).
  reflexivity.
Qed.

Lemma search_query_nonstring_terms params :
  action_ok params ->
  truthy (SearchParams.search_terms params) = true ->
  typeof (SearchParams.search_terms params) <> js "string" ->
  search_query params = Throw (Error (js "Search input must be a string")).
Proof.
  intros Ha Ht Hty. unfold search_query.
  rewrite (new_queryParams_ok params Ha). cbn [and_then].
  unfold append_search_terms. rewrite Ht.
  destruct (SearchParams.search_terms params); try reflexivity.
  exfalso. apply Hty. reflexivity.
Qed.

(** C6, as the code has it. A search whose [search_terms] is truthy and not
    a string fails before any transport call.  The sanitizer's error is
    raised inside the [try] block, so the message that reaches the caller
    is "Failed to search products: Search input must be a string"; only
    when the [action] is an object that cannot be written into the query
    does the search fail earlier still, with "Failed to search products:
    Cannot convert object to primitive value". *)
Theorem searchProducts_nonstring_terms_wrapped
    (fetch : Transport) (this : OpenFoodFactsAPI) (params : SearchParams.t) :
  truthy (SearchParams.search_terms params) = true ->
  typeof (SearchParams.search_terms params) <> js "string" ->
  (action_ok params ->
   searchProducts fetch this params
   = ([], Throw (Error (js "Failed to search products: Search input must be a string"))))
  /\ (~ action_ok params ->
      searchProducts fetch this params
      = ([], Throw (Error (js "Failed to search products: Cannot convert object to primitive value")))).
Proof.
  intros Ht Hty. split.
  - intros Ha.
    rewrite (searchProducts_query_throws _ _ _ _
               (search_query_nonstring_terms params Ha Ht Hty)).
    reflexivity.
  - intros Ha.
    rewrite (searchProducts_query_throws _ _ _ _
               (search_query_bad_action params Ha)).
    reflexivity.
Qed.

Lemma searchProducts_nonstring_terms_wrapped_witness :
  searchProducts (respond_with (JObj test_response)) default_client
    (search_for (JNum 123) JUndefined)
  = ([], Throw (Error (js "Failed to search products: Search input must be a string")))
  /\ searchProducts (respond_with (JObj test_response)) default_client
       (unprintable_action_search (JNum 123))
     = ([], Throw (Error (js "Failed to search products: Cannot convert object to primitive value"))).
Proof.
  split.
  - destruct (searchProducts_nonstring_terms_wrapped
                (respond_with (JObj test_response)) default_client
                (search_for (JNum 123) JUndefined)) as (H & _).
    + reflexivity.
    + discriminate.
    + apply H. left. reflexivity.
  - destruct (searchProducts_nonstring_terms_wrapped
                (respond_with (JObj test_response)) default_client
                (unprintable_action_search (JNum 123))) as (_ & H).
    + reflexivity.
    + discriminate.
    + apply H. intros [Ha | Ha]; vm_compute in Ha; discriminate Ha.
Defined.

(** C6 as stated fails: for the search term 123 the error that reaches the
    caller does not carry the literal message "Search input must be a
    string". *)
Lemma searchProducts_number_term_message :
  truthy (JNum 123) = true
  /\ typeof (JNum 123) <> js "string"
  /\ trace (searchProducts (respond_with (JObj test_response)) default_client
              (search_for (JNum 123) JUndefined)) = []
  /\ (exists e,
        outcome (searchProducts (respond_with (JObj test_response)) default_client
                   (search_for (JNum 123) JUndefined)) = Throw e
        /\ message e = js "Failed to search products: Search input must be a string"
        /\ message e <> js "Search input must be a string").
Proof.
  split; [reflexivity|]. split; [discriminate|]. split; [reflexivity|].
  eexists. split; [reflexivity|]. split; [reflexivity|]. discriminate.
Qed.

(** ** Search: malformed bodies and transport failures *)

(** C7, as the code has it. After a successful transport call whose decoded
    body is falsy or not an object, the search fails with the bare message
    "Invalid response format".  A transport failure is wrapped as "Failed
    to search products: " followed by its message, unless it is an
    [OpenFoodFactsError] or its message is itself "Invalid response
    format": the [catch] clause lets these two through as they are,
    whatever raised them. *)
Theorem searchProducts_failure_classification
    (fetch : Transport) (this : OpenFoodFactsAPI) (params : SearchParams.t)
    (q : list (jsstring * jsstring)) :
  search_query params = Return q ->
  (forall response data,
      fetch (search_request this q) = Return response ->
      ok response = true ->
      json response = Return data ->
      truthy data = false \/ typeof data <> js "object" ->
      outcome (searchProducts fetch this params)
      = Throw (Error (js "Invalid response format")))
  /\ (forall e,
        fetch (search_request this q) = Throw e ->
        instanceof_OpenFoodFactsError e = false ->
        message e <> js "Invalid response format" ->
        outcome (searchProducts fetch this params)
        = Throw (Error (js "Failed to search products: " ++ message e)))
  /\ (forall e,
        fetch (search_request this q) = Throw e ->
        instanceof_OpenFoodFactsError e = true
        \/ message e = js "Invalid response format" ->
        outcome (searchProducts fetch this params) = Throw e).
Proof.
  intros Hq. split; [|split].
  - intros response data Hf Hok Hj Hbad.
    apply (searchProducts_invalid_body _ _ _ _ _ _ Hq Hf Hok Hj Hbad).
  - intros e Hf Hinst Hmsg.
    rewrite (searchProducts_fetch_throws _ _ _ _ _ Hq Hf).
    unfold search_catch. rewrite Hinst.
    unfold str_eqb, invalid_response.
    rewrite bool_decide_eq_false_2 by exact Hmsg. reflexivity.
  - intros e Hf Hpass.
    rewrite (searchProducts_fetch_throws _ _ _ _ _ Hq Hf).
    unfold search_catch.
    destruct (instanceof_OpenFoodFactsError e); [reflexivity|].
    destruct Hpass as [Hinst | Hmsg]; [discriminate|].
    unfold str_eqb, invalid_response.
    rewrite bool_decide_eq_true_2 by exact Hmsg. reflexivity.
Qed.

Lemma searchProducts_failure_classification_witness :
  outcome (searchProducts (respond_with JNull) default_client
             (search_for (JStr (js "test")) JUndefined))
  = Throw (Error (js "Invalid response format"))
  /\ outcome (searchProducts (fail_with (js "Network error")) default_client
                (search_for (JStr (js "test")) JUndefined))
     = Throw (Error (js "Failed to search products: Network error"))
  /\ outcome (searchProducts (fail_with (js "Invalid response format")) default_client
                (search_for (JStr (js "test")) JUndefined))
     = Throw (Error (js "Invalid response format"))
  /\ outcome (searchProducts (reject_with service_failure) default_client
                (search_for (JStr (js "test")) JUndefined))
     = Throw service_failure.
Proof.
  split; [|split; [|split]].
  - destruct (searchProducts_failure_classification
                (respond_with JNull) default_client
                (search_for (JStr (js "test")) JUndefined) _ eq_refl)
      as (H & _).
    apply (H _ JNull eq_refl eq_refl eq_refl). left. reflexivity.
  - destruct (searchProducts_failure_classification
                (fail_with (js "Network error")) default_client
                (search_for (JStr (js "test")) JUndefined) _ eq_refl)
      as (_ & H & _).
    apply (H (Error (js "Network error")) eq_refl eq_refl). discriminate.
  - destruct (searchProducts_failure_classification
                (fail_with (js "Invalid response format")) default_client
                (search_for (JStr (js "test")) JUndefined) _ eq_refl)
      as (_ & _ & H).
    apply (H (Error (js "Invalid response format")) eq_refl).
    right. reflexivity.
  - destruct (searchProducts_failure_classification
                (reject_with service_failure) default_client
                (search_for (JStr (js "test")) JUndefined) _ eq_refl)
      as (_ & _ & H).
    apply (H service_failure eq_refl). left. reflexivity.
Defined.

(** C7 as stated fails: a transport failure whose message is "Invalid
    response format" reaches the caller without the prefix. *)
Lemma searchProducts_transport_failure_unwrapped :
  fail_with (js "Invalid response format")
    (search_request default_client
       [(js "json", js "true"); (js "action", js "process");
        (js "search_terms", js "test")])
  = Throw (Error (js "Invalid response format"))
  /\ outcome (searchProducts (fail_with (js "Invalid response format"))
                default_client (search_for (JStr (js "test")) JUndefined))
     = Throw (Error (js "Invalid response format"))
  /\ outcome (searchProducts (fail_with (js "Invalid response format"))
                default_client (search_for (JStr (js "test")) JUndefined))
     <> Throw (Error (js "Failed to search products: " ++ js "Invalid response format")).
Proof.
  split; [reflexivity|]. split; [reflexivity|]. discriminate.
Qed.

(** ** Search: the field allow-list *)

Lemma projection_lookup (keys : list jsstring) (product : gmap jsstring JsVal)
    (k : jsstring) :
  projection keys product !! k = if decide (k ∈ keys) then product !! k else None.
Proof.
  unfold projection. destruct (decide (k ∈ keys)) as [Hin | Hout].
  - destruct (product !! k) as [v |] eqn:E.
    + apply map_lookup_filter_Some. auto.
    + apply map_lookup_filter_None. left. exact E.
  - apply map_lookup_filter_None. right. intros v _. exact Hout.
Qed.

Lemma copy_fields_lookup (keys : list jsstring) (product : gmap jsstring JsVal) :
  forall filtered,
  exists out,
    copy_fields (JStr <$> keys) (JObj product) filtered = Return out
    /\ forall k,
        out !! k
        = if decide (k ∈ keys)
          then match product !! k with
               | Some v => Some v
               | None => filtered !! k
               end
          else filtered !! k.
Proof.
  induction keys as [| key rest IH]; intros filtered.
  - exists filtered. split; [reflexivity|]. intros k.
    destruct (decide (k ∈ [])) as [Hin | _]; [|reflexivity].
    inversion Hin.
  - rewrite fmap_cons. simpl copy_fields.
    destruct (product !! key) as [v |] eqn:E.
    + rewrite bool_decide_eq_true_2 by eauto.
      destruct (IH (<[key := v]> filtered)) as (out & Hout & Hlook).
      exists out. split; [exact Hout|]. intros k. rewrite Hlook.
      destruct (decide (k = key)) as [-> | Hne].
      * rewrite E, lookup_insert_eq.
        rewrite (decide_True (P := key ∈ _ :: _)) by (left).
        destruct (decide (key ∈ rest)); reflexivity.
      * rewrite lookup_insert_ne by congruence.
        destruct (decide (k ∈ rest)) as [Hin | Hout'].
        -- rewrite decide_True by (right; exact Hin). reflexivity.
        -- rewrite decide_False; [reflexivity|].
           intros Hin. apply elem_of_cons in Hin as [? | ?]; contradiction.
    + rewrite bool_decide_eq_false_2 by (intros [? ?]; discriminate).
      destruct (IH filtered) as (out & Hout & Hlook).
      exists out. split; [exact Hout|]. intros k. rewrite Hlook.
      destruct (decide (k ∈ rest)) as [Hin | Hout'].
      * rewrite decide_True by (right; exact Hin). reflexivity.
      * destruct (decide (k = key)) as [-> | Hne].
        -- rewrite decide_True by (left). rewrite E. reflexivity.
        -- rewrite decide_False; [reflexivity|].
           intros Hin. apply elem_of_cons in Hin as [? | ?]; contradiction.
Qed.

Lemma copy_fields_projection (keys : list jsstring)
    (product : gmap jsstring JsVal) :
  copy_fields (JStr <$> keys) (JObj product) ∅
  = Return (projection keys product).
Proof.
  destruct (copy_fields_lookup keys product ∅) as (out & -> & Hlook).
  f_equal. apply map_eq. intros k.
  rewrite Hlook, projection_lookup, lookup_empty.
  destruct (decide (k ∈ keys)); [|reflexivity].
  destruct (product !! k); reflexivity.
Qed.

Lemma map_products_projection (keys : list jsstring)
    (objs : list (gmap jsstring JsVal)) :
  map_products (JStr <$> keys) (JObj <$> objs)
  = Return (JObj <$> (projection keys <$> objs)).
Proof.
  induction objs as [| product rest IH]; [reflexivity|].
  rewrite !fmap_cons. simpl map_products.
  rewrite copy_fields_projection, IH. reflexivity.
Qed.

(** C5, as the code has it. On a well-formed search response: with a
    non-empty allow-list of field names, none of them a name that every
    object inherits, every returned product holds exactly the requested
    keys that the source product has, with the source's values, and the
    rest of the response is kept; without an allow-list the response is
    returned as it is; and an empty allow-list is treated exactly like no
    allow-list, the response again coming back as it is. *)
Theorem searchProducts_field_projection
    (fetch : Transport) (this : OpenFoodFactsAPI) (params : SearchParams.t)
    (q : list (jsstring * jsstring)) (response : Response) (data : JsVal) :
  search_query params = Return q ->
  fetch (search_request this q) = Return response ->
  ok response = true ->
  json response = Return data ->
  truthy data = true ->
  typeof data = js "object" ->
  (forall key rest props objs,
      SearchParams.fields params = field_names (key :: rest) ->
      own_names_only (key :: rest) ->
      data = JObj props ->
      props !! js "products" = Some (JArr (JObj <$> objs)) ->
      outcome (searchProducts fetch this params)
      = Return (JObj (<[js "products" :=
                          JArr (JObj <$> (projection (key :: rest) <$> objs))]> props))
      /\ forall product k,
          projection (key :: rest) product !! k
          = if decide (k ∈ key :: rest) then product !! k else None)
  /\ (SearchParams.fields params = JUndefined ->
      outcome (searchProducts fetch this params) = Return data)
  /\ (SearchParams.fields params = JArr [] ->
      outcome (searchProducts fetch this params) = Return data).
Proof.
  intros Hq Hf Hok Hj Ht Hty. split; [|split].
  - intros key rest props objs Hfields _ -> Hproducts. split.
    + apply (searchProducts_valid_body _ _ _ _ _ _ Hq Hf Hok Hj Ht Hty).
      rewrite Hfields. unfold field_names. rewrite fmap_cons.
      unfold filter_fields.
      replace (Get (JObj props) (js "products")) with (JArr (JObj <$> objs))
        by (unfold Get; rewrite Hproducts; reflexivity).
      rewrite <- fmap_cons.
      rewrite map_products_projection. reflexivity.
    + intros product k. apply projection_lookup.
  - intros Hfields.
    apply (searchProducts_valid_body _ _ _ _ _ _ Hq Hf Hok Hj Ht Hty).
    rewrite Hfields. reflexivity.
  - intros Hfields.
    apply (searchProducts_valid_body _ _ _ _ _ _ Hq Hf Hok Hj Ht Hty).
    rewrite Hfields. reflexivity.
Qed.

Lemma searchProducts_field_projection_witness :
  outcome (searchProducts (respond_with (JObj test_response)) default_client
             (search_for (JStr (js "test")) (field_names code_and_name)))
  = Return (JObj (<[js "products" :=
                      JArr [JObj (projection code_and_name test_product)]]>
                    test_response))
  /\ projection code_and_name test_product
     = list_to_map [ (js "code", JStr (js "123456789"));
                     (js "product_name", JStr (js "Test Product")) ]
  /\ outcome (searchProducts (respond_with (JObj test_response)) default_client
                (search_for (JStr (js "test")) JUndefined))
     = Return (JObj test_response)
  /\ outcome (searchProducts (respond_with (JObj test_response)) default_client
                (search_for (JStr (js "test")) (JArr [])))
     = Return (JObj test_response).
Proof.
  split; [|split; [|split]].
  - destruct (searchProducts_field_projection
                (respond_with (JObj test_response)) default_client
                (search_for (JStr (js "test")) (field_names code_and_name))
                test_query _ (JObj test_response)
                eq_refl eq_refl eq_refl eq_refl eq_refl eq_refl) as (H & _).
    apply (H (js "code") [js "product_name"] test_response [test_product] eq_refl);
      [|reflexivity|reflexivity].
    unfold own_names_only. refine (bool_decide_unpack _ _). vm_compute. exact I.
  - vm_compute. reflexivity.
  - destruct (searchProducts_field_projection
                (respond_with (JObj test_response)) default_client
                (search_for (JStr (js "test")) JUndefined)
                test_query _ (JObj test_response)
                eq_refl eq_refl eq_refl eq_refl eq_refl eq_refl) as (_ & H & _).
    apply H. reflexivity.
  - destruct (searchProducts_field_projection
                (respond_with (JObj test_response)) default_client
                (search_for (JStr (js "test")) (JArr []))
                test_query _ (JObj test_response)
                eq_refl eq_refl eq_refl eq_refl eq_refl eq_refl) as (_ & _ & H).
    apply H. reflexivity.
Defined.

(** C5 as stated fails in its last part: with the empty allow-list the
    search does what it does with no allow-list at all, and the products
    come back with every key. *)
Lemma searchProducts_empty_fields_like_none :
  searchProducts (respond_with (JObj test_response)) default_client
    (search_for (JStr (js "test")) (JArr []))
  = searchProducts (respond_with (JObj test_response)) default_client
      (search_for (JStr (js "test")) JUndefined)
  /\ outcome (searchProducts (respond_with (JObj test_response)) default_client
                (search_for (JStr (js "test")) (JArr [])))
     = Return (JObj test_response)
  /\ test_response !! js "products" = Some (JArr [JObj test_product])
  /\ test_product !! js "brands" = Some (JStr (js "Test Brand")).
Proof.
  split; [reflexivity|]. split; [reflexivity|]. split; reflexivity.
Qed.

(** ** The transport guard *)

Lemma insecure_connection_refused this :
  startsWith (baseUrl this) (js "https://") = false ->
  _validateSecureConnection this
  = Throw (Error (js "Cannot send credentials over non-HTTPS connection. HTTPS is required for authenticated requests.")).
Proof. intros H. unfold _validateSecureConnection. rewrite H. reflexivity. Qed.

(** C4. Constructing a client with an endpoint that does not start with
    https:// throws "HTTPS is required for secure API access. Use https://
    URLs only."; and on an instance that holds credentials and whose
    endpoint was switched to such a value, [addProduct] and [uploadPhoto]
    check the endpoint as it is now and fail with "Cannot send credentials
    over non-HTTPS connection. HTTPS is required for authenticated
    requests." without a single call of the transport. *)
Theorem https_enforced_at_construction_and_use :
  (forall endpoint : jsstring,
      startsWith endpoint (js "https://") = false ->
      constructor (Some endpoint)
      = Throw (Error (js "HTTPS is required for secure API access. Use https:// URLs only.")))
  /\ (forall (fetch : Transport) (σ : Store) (l : positive)
             (this : OpenFoodFactsAPI) (creds : Credentials) (endpoint : jsstring),
        σ !! l = Some this ->
        credentials this = Some creds ->
        startsWith endpoint (js "https://") = false ->
        let σ' := (invoke fetch l (Call_assign_baseUrl endpoint) σ).1 in
        let refused : M JsVal :=
          ([], Throw (Error (js "Cannot send credentials over non-HTTPS connection. HTTPS is required for authenticated requests."))) in
        (forall data, (invoke fetch l (Call_addProduct data) σ').2 = refused)
        /\ (forall barcode image type,
              (invoke fetch l (Call_uploadPhoto barcode image type) σ').2 = refused)).
Proof.
  split.
  - intros endpoint H. unfold constructor. simpl default. rewrite H. reflexivity.
  - intros fetch σ l this creds endpoint Hl Hc Hs σ' refused.
    assert (Hl' : σ' !! l = Some {| baseUrl := endpoint; credentials := Some creds |}).
    { subst σ'. unfold invoke. rewrite Hl. simpl. rewrite lookup_insert_eq, Hc.
      reflexivity. }
    split.
    + intros data. unfold invoke. rewrite Hl'. simpl. unfold addProduct. simpl.
      rewrite insecure_connection_refused by exact Hs. reflexivity.
    + intros barcode image type. unfold invoke. rewrite Hl'. simpl.
      unfold uploadPhoto. simpl.
      rewrite insecure_connection_refused by exact Hs. reflexivity.
Qed.

Lemma https_enforced_at_construction_and_use_witness :
  constructor (Some insecure_url)
  = Throw (Error (js "HTTPS is required for secure API access. Use https:// URLs only."))
  /\ (invoke (respond_with (JObj test_response)) 1 (Call_addProduct test_product_data)
        (invoke (respond_with (JObj test_response)) 1
           (Call_assign_baseUrl insecure_url) one_client_store).1).2
     = ([], Throw (Error (js "Cannot send credentials over non-HTTPS connection. HTTPS is required for authenticated requests."))).
Proof.
  destruct https_enforced_at_construction_and_use as [Hnew Huse].
  split; [apply Hnew; reflexivity|].
  destruct (Huse (respond_with (JObj test_response)) one_client_store
              1%positive authenticated_client test_credentials insecure_url
              eq_refl eq_refl eq_refl) as [Hadd Hup].
  apply (Hadd test_product_data).
Defined.

(** ** Isolation of client instances *)

Lemma new_instance σ arg l σ' :
  new_OpenFoodFactsAPI arg σ = (Return l, σ') ->
  σ !! l = None
  /\ (exists this, σ' !! l = Some this /\ credentials this = None)
  /\ (forall l', l' ≠ l -> σ' !! l' = σ !! l').
Proof.
  unfold new_OpenFoodFactsAPI, constructor.
  destruct (negb _); [discriminate|].
  intros [= <- <-].
  assert (Hfresh : σ !! fresh (dom σ) = None).
  { apply not_elem_of_dom. apply is_fresh. }
  split; [exact Hfresh|]. split.
  - eexists. rewrite lookup_insert_eq. split; reflexivity.
  - intros l' Hne. rewrite lookup_insert_ne by congruence. reflexivity.
Qed.

Lemma invoke_frame fetch (σ : Store) a b call :
  a ≠ b -> (invoke fetch a call σ).1 !! b = σ !! b.
Proof.
  intros Hne. unfold invoke.
  destruct (σ !! a) as [this |]; [|reflexivity].
  destruct call; try reflexivity.
  - destruct (setCredentials this userId0 password0); [|reflexivity].
    simpl. rewrite lookup_insert_ne by exact Hne. reflexivity.
  - simpl. rewrite lookup_insert_ne by exact Hne. reflexivity.
Qed.

(** C1. Client instances are independent objects.  A new instance has no
    credentials, whatever the instances already in the store hold, and its
    construction leaves them as they are; no call on one instance, be it
    [setCredentials] or any other method or an assignment to [baseUrl],
    changes the [baseUrl] or the [credentials] of another; so an instance B
    constructed after A received credentials has [credentials] null, while
    A keeps its own. *)
Theorem client_instances_are_isolated :
  (forall (σ σ' : Store) arg l,
      new_OpenFoodFactsAPI arg σ = (Return l, σ') ->
      σ !! l = None
      /\ (exists this, σ' !! l = Some this /\ credentials this = None)
      /\ (forall l', l' ≠ l -> σ' !! l' = σ !! l'))
  /\ (forall (fetch : Transport) (σ : Store) (a b : positive) (call : Call),
        a ≠ b ->
        (invoke fetch a call σ).1 !! b = σ !! b)
  /\ (forall (fetch : Transport) (σ0 σ1 σ3 : Store) argA argB (a b : positive)
             (userId password : jsstring),
        new_OpenFoodFactsAPI argA σ0 = (Return a, σ1) ->
        truthy (JStr (trim userId)) = true ->
        truthy (JStr (trim password)) = true ->
        new_OpenFoodFactsAPI argB
          (invoke fetch a (Call_setCredentials (JStr userId) (JStr password)) σ1).1
        = (Return b, σ3) ->
        a ≠ b
        /\ (credentials <$> σ3 !! a)
           = Some (Some {| userId := userId; password := password |})
        /\ (credentials <$> σ3 !! b) = Some None).
Proof.
  split; [|split].
  - intros σ σ' arg l H. exact (new_instance σ arg l σ' H).
  - intros fetch σ a b call Hne. exact (invoke_frame fetch σ a b call Hne).
  - intros fetch σ0 σ1 σ3 argA argB a b userId password HA Hu Hp HB.
    destruct (new_instance _ _ _ _ HA) as (_ & (thisA & HlA & HcA) & _).
    set (σ2 := (invoke fetch a (Call_setCredentials (JStr userId) (JStr password)) σ1).1) in *.
    assert (H2 : σ2 !! a = Some {| baseUrl := baseUrl thisA;
                                   credentials := Some {| userId := userId;
                                                          password := password |} |}).
    { subst σ2. unfold invoke. rewrite HlA. unfold setCredentials.
      rewrite Hu, Hp. simpl. rewrite lookup_insert_eq. reflexivity. }
    destruct (new_instance _ _ _ _ HB) as (HbNone & (thisB & HlB & HcB) & Hother).
    assert (Hne : a ≠ b) by (intros ->; congruence).
    split; [exact Hne|]. split.
    + rewrite (Hother a Hne), H2. reflexivity.
    + rewrite HlB. simpl. rewrite HcB. reflexivity.
Qed.

Lemma client_instances_are_isolated_witness :
  (invoke (respond_with (JObj test_response)) 1
     (Call_setCredentials (JStr (js "user")) (JStr (js "pass")))
     (new_OpenFoodFactsAPI None ∅).2).1 !! 2%positive
  = (new_OpenFoodFactsAPI None ∅).2 !! 2%positive
  /\ (credentials <$>
        (new_OpenFoodFactsAPI None
           (invoke (respond_with (JObj test_response)) 1
              (Call_setCredentials (JStr (js "user")) (JStr (js "pass")))
              (new_OpenFoodFactsAPI None ∅).2).1).2 !! 2%positive)
     = Some None.
Proof.
  destruct client_instances_are_isolated as (_ & Hframe & Hscenario).
  split.
  - apply Hframe. discriminate.
  - assert (HA : new_OpenFoodFactsAPI None ∅
                 = (Return 1%positive, (new_OpenFoodFactsAPI None ∅).2))
      by (vm_compute; reflexivity).
    assert (HB : new_OpenFoodFactsAPI None
                   (invoke (respond_with (JObj test_response)) 1
                      (Call_setCredentials (JStr (js "user")) (JStr (js "pass")))
                      (new_OpenFoodFactsAPI None ∅).2).1
                 = (Return 2%positive,
                    (new_OpenFoodFactsAPI None
                       (invoke (respond_with (JObj test_response)) 1
                          (Call_setCredentials (JStr (js "user")) (JStr (js "pass")))
                          (new_OpenFoodFactsAPI None ∅).2).1).2))
      by (vm_compute; reflexivity).
    assert (Hu : truthy (JStr (trim (js "user"))) = true) by reflexivity.
    assert (Hp : truthy (JStr (trim (js "pass"))) = true) by reflexivity.
    destruct (Hscenario _ _ _ _ _ _ _ _ _ _ HA Hu Hp HB) as (_ & _ & H).
    exact H.
Defined.

(* ===================================================================== *)
(** * Further properties of the client *)
(* ===================================================================== *)

(** ** Partial barcodes *)

Lemma test_re_digits s : Regex.test re_digits s = true <-> partial_barcode s.
Proof.
  unfold re_digits, Regex.digit, partial_barcode.
  rewrite RegexFacts.test_plus_class, is_digit_decimal. reflexivity.
Qed.

Lemma validateBarcode_not_string barcode allowPartial :
  typeof barcode <> js "string" ->
  _validateBarcode barcode allowPartial = Throw (Error (js "Barcode must be a string")).
Proof.
  intros Hty. destruct barcode; try reflexivity.
  exfalso. apply Hty. reflexivity.
Qed.

Lemma validated_barcode_converts barcode allowPartial u :
  _validateBarcode barcode allowPartial = Return u ->
  ToString barcode = Return (text_of barcode).
Proof. destruct barcode; try discriminate; reflexivity. Qed.

Lemma validateBarcode_partial_bad s :
  ~ partial_barcode s ->
  _validateBarcode (JStr s) true
  = Throw (Error (js "Invalid barcode format. Must contain only digits.")).
Proof.
  intros Hs. simpl.
  destruct (Regex.test re_digits s) eqn:Ht; [|reflexivity].
  apply test_re_digits in Ht. contradiction.
Qed.

(** X1. Partial-barcode validation ([allowPartial] true) refuses every
    value that is not a string with "Barcode must be a string", accepts
    every non-empty string of decimal digits whatever its length, and
    refuses every other string, the empty one included, with "Invalid
    barcode format. Must contain only digits.".  Whatever passes the full
    validation passes the partial one. *)
Theorem validateBarcode_partial_decides (barcode : JsVal) :
  (typeof barcode <> js "string" ->
   _validateBarcode barcode true = Throw (Error (js "Barcode must be a string")))
  /\ (forall s, barcode = JStr s -> partial_barcode s ->
      _validateBarcode barcode true = Return tt)
  /\ (forall s, barcode = JStr s -> ~ partial_barcode s ->
      _validateBarcode barcode true
      = Throw (Error (js "Invalid barcode format. Must contain only digits.")))
  /\ (_validateBarcode barcode false = Return tt ->
      _validateBarcode barcode true = Return tt).
Proof.
  split; [|split; [|split]].
  - apply validateBarcode_not_string.
  - intros s -> Hs. simpl. destruct Hs as [Hne Hd].
    assert (Ht : Regex.test re_digits s = true) by (apply test_re_digits; split; auto).
    rewrite Ht. destruct s; [congruence | reflexivity].
  - intros s -> Hs. apply validateBarcode_partial_bad. exact Hs.
  - destruct barcode; simpl; try discriminate.
    destruct (Regex.test re_barcode s) eqn:Hfull; [|discriminate].
    intros _. apply test_re_barcode in Hfull as [Hlen Hd].
    assert (Ht : Regex.test re_digits s = true).
    { apply test_re_digits. split; [|exact Hd].
      intros ->. simpl in Hlen. lia. }
    rewrite Ht. destruct s; [simpl in Hlen; lia | reflexivity].
Qed.

Lemma validateBarcode_partial_decides_witness :
  _validateBarcode (JNum 123) true = Throw (Error (js "Barcode must be a string"))
  /\ _validateBarcode (JStr (js "123")) true = Return tt
  /\ _validateBarcode (JStr []) true
     = Throw (Error (js "Invalid barcode format. Must contain only digits."))
  /\ _validateBarcode (JStr (js "12345678")) true = Return tt.
Proof.
  split; [|split; [|split]].
  - apply (proj1 (validateBarcode_partial_decides (JNum 123))). discriminate.
  - apply (proj1 (proj2 (validateBarcode_partial_decides (JStr (js "123"))))
             (js "123") eq_refl).
    split; [discriminate|]. apply is_digit_decimal. vm_compute. reflexivity.
  - apply (proj1 (proj2 (proj2 (validateBarcode_partial_decides (JStr []))))
             [] eq_refl).
    intros [Hne _]. congruence.
  - apply (proj2 (proj2 (proj2 (validateBarcode_partial_decides
                                  (JStr (js "12345678")))))).
    reflexivity.
Defined.

(** ** Credentials *)

(** X2. [setCredentials] on an instance: arguments that are not both
    strings are refused with "User ID and password must be strings";
    strings of which one is empty or white space only are refused with
    "User ID and password cannot be empty"; a refused call leaves the store
    as it was.  An accepted call stores the two strings exactly as given
    (they are trimmed for the test only), replaces whatever credentials
    were there, and keeps the endpoint. *)
Theorem setCredentials_behaviour
    (fetch : Transport) (σ : Store) (l : positive) (this : OpenFoodFactsAPI)
    (u p : JsVal) :
  σ !! l = Some this ->
  (typeof u <> js "string" \/ typeof p <> js "string" ->
   invoke fetch l (Call_setCredentials u p) σ
   = (σ, ([], Throw (Error (js "User ID and password must be strings")))))
  /\ (forall us ps, u = JStr us -> p = JStr ps ->
      trim us = [] \/ trim ps = [] ->
      invoke fetch l (Call_setCredentials u p) σ
      = (σ, ([], Throw (Error (js "User ID and password cannot be empty")))))
  /\ (forall us ps, u = JStr us -> p = JStr ps ->
      trim us <> [] -> trim ps <> [] ->
      invoke fetch l (Call_setCredentials u p) σ
      = (<[l := {| baseUrl := baseUrl this;
                   credentials := Some {| userId := us; password := ps |} |}]> σ,
         ([], Return JUndefined))).
Proof.
  intros Hl. unfold invoke. rewrite Hl. split; [|split].
  - intros [Hu | Hp].
    + destruct u; try reflexivity. exfalso. apply Hu. reflexivity.
    + destruct u; try reflexivity.
      destruct p; try reflexivity. exfalso. apply Hp. reflexivity.
  - intros us ps -> -> Hempty. unfold setCredentials, truthy, str_eqb.
    destruct Hempty as [-> | ->].
    + rewrite bool_decide_eq_true_2 by reflexivity. reflexivity.
    + rewrite (bool_decide_eq_true_2 (@nil N = [])) by reflexivity.
      rewrite orb_true_r. reflexivity.
  - intros us ps -> -> Hu Hp. unfold setCredentials, truthy, str_eqb.
    rewrite !bool_decide_eq_false_2 by assumption. reflexivity.
Qed.

Lemma setCredentials_behaviour_witness :
  invoke (respond_with JNull) 1 (Call_setCredentials (JNum 123) (JStr (js "pass")))
    one_client_store
  = (one_client_store, ([], Throw (Error (js "User ID and password must be strings"))))
  /\ invoke (respond_with JNull) 1
       (Call_setCredentials (JStr (js "   ")) (JStr (js "pass"))) one_client_store
     = (one_client_store, ([], Throw (Error (js "User ID and password cannot be empty"))))
  /\ invoke (respond_with JNull) 1
       (Call_setCredentials (JStr (js " bob ")) (JStr (js "secret"))) one_client_store
     = (<[1%positive := {| baseUrl := baseUrl authenticated_client;
                           credentials := Some {| userId := js " bob ";
                                                  password := js "secret" |} |}]>
          one_client_store,
        ([], Return JUndefined)).
Proof.
  split; [|split].
  - apply (proj1 (setCredentials_behaviour (respond_with JNull) one_client_store 1
                    authenticated_client (JNum 123) (JStr (js "pass")) eq_refl)).
    left. discriminate.
  - apply (proj1 (proj2 (setCredentials_behaviour (respond_with JNull)
                           one_client_store 1 authenticated_client
                           (JStr (js "   ")) (JStr (js "pass")) eq_refl))
             (js "   ") (js "pass") eq_refl eq_refl).
    left. reflexivity.
  - apply (proj2 (proj2 (setCredentials_behaviour (respond_with JNull)
                           one_client_store 1 authenticated_client
                           (JStr (js " bob ")) (JStr (js "secret")) eq_refl))
             (js " bob ") (js "secret") eq_refl eq_refl); discriminate.
Defined.

(** ** The endpoint of a client that only its methods touched *)


Lemma constructor_https arg this :
  constructor arg = Return this ->
  startsWith (baseUrl this) (js "https://") = true /\ credentials this = None.
Proof.
  unfold constructor.
  destruct (startsWith (default (js "https://world.openfoodfacts.org") arg) (js "https://")) eqn:E;
    simpl; [|discriminate].
  intros [= <-]. simpl. split; [exact E | reflexivity].
Qed.

Lemma setCredentials_keeps_baseUrl this u p this' :
  setCredentials this u p = Return this' -> baseUrl this' = baseUrl this.
Proof.
  unfold setCredentials. destruct u; try discriminate.
  destruct p; try discriminate.
  destruct (negb _ || negb _); [discriminate|].
  intros [= <-]. reflexivity.
Qed.

(** X3. In every store built with [new] and method calls alone, each
    instance has an endpoint that starts with https://: the constructor
    establishes it and no method assigns to [baseUrl].  On such an instance
    the guard before an authenticated request never fires. *)
Theorem reachable_clients_are_https (σ : Store) :
  reachable σ ->
  forall l this,
    σ !! l = Some this ->
    startsWith (baseUrl this) (js "https://") = true
    /\ _validateSecureConnection this = Return tt.
Proof.
  intros Hreach.
  enough (Hinv : forall l this, σ !! l = Some this ->
                   startsWith (baseUrl this) (js "https://") = true).
  { intros l this Hl. pose proof (Hinv l this Hl) as Hs. split; [exact Hs|].
    unfold _validateSecureConnection. rewrite Hs. reflexivity. }
  induction Hreach as [| σ arg Hreach IH | σ fetch a call Hreach IH Hcall];
    intros l this Hl.
  - rewrite lookup_empty in Hl. discriminate.
  - unfold new_OpenFoodFactsAPI in Hl.
    destruct (constructor arg) as [new |e] eqn:Hc; simpl in Hl.
    + destruct (decide (l = fresh (dom σ))) as [-> | Hne].
      * rewrite lookup_insert_eq in Hl. injection Hl as <-.
        apply (constructor_https _ _ Hc).
      * rewrite lookup_insert_ne in Hl by congruence. apply (IH _ _ Hl).
    + apply (IH _ _ Hl).
  - unfold invoke in Hl.
    destruct (σ !! a) as [that |] eqn:Ha; [|apply (IH _ _ Hl)].
    destruct call; simpl in Hl; try (apply (IH _ _ Hl)).
    + destruct (setCredentials that userId0 password0) as [that' |e] eqn:Hset;
        simpl in Hl; [|apply (IH _ _ Hl)].
      destruct (decide (l = a)) as [-> | Hne].
      * rewrite lookup_insert_eq in Hl. injection Hl as <-.
        rewrite (setCredentials_keeps_baseUrl _ _ _ _ Hset). apply (IH _ _ Ha).
      * rewrite lookup_insert_ne in Hl by congruence. apply (IH _ _ Hl).
    + exfalso. apply (Hcall value). reflexivity.
Qed.

Lemma reachable_clients_are_https_witness :
  _validateSecureConnection authenticated_client = Return tt.
Proof.
  assert (Hreach : reachable
            (invoke (respond_with JNull) 1
               (Call_setCredentials (JStr (js "user")) (JStr (js "pass")))
               (new_OpenFoodFactsAPI None ∅).2).1).
  { apply reachable_invoke; [|discriminate].
    apply reachable_new. apply reachable_empty. }
  apply (reachable_clients_are_https _ Hreach 1%positive authenticated_client).
  vm_compute. reflexivity.
Defined.

(** ** Events and completions of composed computations *)

Lemma trace_bind {A B} (m : M A) (k : A -> M B) :
  trace (bind m k)
  = trace m ++ match outcome m with
               | Return a => trace (k a)
               | Throw _ => []
               end.
Proof.
  destruct m as [t [a | e]]; simpl.
  - destruct (k a); reflexivity.
  - rewrite app_nil_r. reflexivity.
Qed.

Lemma outcome_bind {A B} (m : M A) (k : A -> M B) :
  outcome (bind m k)
  = match outcome m with
    | Return a => outcome (k a)
    | Throw e => Throw e
    end.
Proof.
  destruct m as [t [a | e]]; simpl; [destruct (k a)|]; reflexivity.
Qed.

Lemma trace_try_catch {A} (m : M A) (h : Exn -> M A) :
  trace (try_catch m h)
  = trace m ++ match outcome m with
               | Return _ => []
               | Throw e => trace (h e)
               end.
Proof.
  destruct m as [t [a | e]]; simpl.
  - rewrite app_nil_r. reflexivity.
  - destruct (h e); reflexivity.
Qed.

Lemma outcome_try_catch {A} (m : M A) (h : Exn -> M A) :
  outcome (try_catch m h)
  = match outcome m with
    | Return a => Return a
    | Throw e => outcome (h e)
    end.
Proof.
  destruct m as [t [a | e]]; simpl; [|destruct (h e)]; reflexivity.
Qed.

Lemma bind_lift_return {A B} (a : A) (k : A -> M B) :
  bind (lift (Return a)) k = k a.
Proof. unfold lift, bind. destruct (k a). reflexivity. Qed.

Lemma bind_ret {A B} (a : A) (k : A -> M B) : bind (ret a) k = k a.
Proof. apply bind_lift_return. Qed.

Lemma bind_lift_throw {A B} (e : Exn) (k : A -> M B) :
  bind (lift (Throw e)) k = throw e.
Proof. reflexivity. Qed.

Lemma run_eq {A} (m : M A) t r : trace m = t -> outcome m = r -> m = (t, r).
Proof. destruct m. simpl. intros -> ->. reflexivity. Qed.

(** ** Image validation: metadata, unreadable files, full reads *)

Lemma includes_spec l v :
  includes l v = true <-> exists s, v = JStr s /\ s ∈ l.
Proof.
  split.
  - destruct v; simpl; try discriminate.
    intros H. apply existsb_exists in H as (x & Hin & Heq).
    unfold str_eqb in Heq. apply bool_decide_eq_true in Heq. subst x.
    exists s. split; [reflexivity|]. apply list_elem_of_In. exact Hin.
  - intros (s & -> & Hin). apply includes_elem. exact Hin.
Qed.

Lemma check_declared_type_ok f :
  declared_type_ok f -> check_declared_type f = ret tt.
Proof.
  unfold check_declared_type. intros [-> | (s & -> & Hin)]; [reflexivity|].
  rewrite (includes_elem _ _ Hin). reflexivity.
Qed.

Lemma check_declared_type_bad f :
  ~ declared_type_ok f ->
  check_declared_type f
  = throw (Error (js "Invalid file type. Only JPEG, PNG, and WebP images are allowed.")).
Proof.
  intros Hbad. unfold check_declared_type.
  destruct (includes allowedTypes (File.type f)) eqn:E.
  - exfalso. apply Hbad. right. apply includes_spec. exact E.
  - destruct (File.type f) eqn:Ety.
    + exfalso. apply Hbad. left. exact Ety.
    + reflexivity.
    + reflexivity.
    + reflexivity.
    + rewrite E. reflexivity.
    + reflexivity.
    + reflexivity.
Qed.

(** X4. What image validation refuses without reading a byte: a missing
    file ("Image file is required"); a declared type that is not one of
    image/jpeg, image/jpg, image/png, image/webp ("Invalid file type. Only
    JPEG, PNG, and WebP images are allowed."), which is tested first; and,
    the type being acceptable, a declared size above 10 * 1024 * 1024
    ("File size too large. Maximum size is 10MB."). *)
Theorem validateImageFile_refuses_before_reading :
  _validateImageFile None = ([], Throw (Error (js "Image file is required")))
  /\ (forall f : File.t,
        ~ declared_type_ok f ->
        _validateImageFile (Some f)
        = ([], Throw (Error (js "Invalid file type. Only JPEG, PNG, and WebP images are allowed."))))
  /\ (forall (f : File.t) (sz : Z),
        declared_type_ok f ->
        File.size f = Some sz ->
        sz > 10 * 1024 * 1024 ->
        _validateImageFile (Some f)
        = ([], Throw (Error (js "File size too large. Maximum size is 10MB.")))).
Proof.
  split; [reflexivity|]. split.
  - intros f Hbad. unfold _validateImageFile.
    rewrite (check_declared_type_bad f Hbad). reflexivity.
  - intros f sz Hty Hsz Hgt. unfold _validateImageFile.
    rewrite (check_declared_type_ok f Hty). unfold check_declared_size.
    rewrite Hsz.
    assert (Hb : (sz >? maxSize) = true) by (apply Z.gtb_lt; unfold maxSize; lia).
    rewrite Hb. reflexivity.
Qed.

Lemma validateImageFile_refuses_before_reading_witness :
  _validateImageFile (Some (metadata_file (JStr (js "text/plain")) (Some (11 * 1024 * 1024))))
  = ([], Throw (Error (js "Invalid file type. Only JPEG, PNG, and WebP images are allowed.")))
  /\ _validateImageFile (Some (metadata_file (JStr (js "image/jpeg")) (Some (10 * 1024 * 1024 + 1))))
     = ([], Throw (Error (js "File size too large. Maximum size is 10MB."))).
Proof.
  destruct validateImageFile_refuses_before_reading as (_ & Htype & Hsize).
  split.
  - apply Htype. intros [H | (s & H & Hin)]; [discriminate|].
    injection H as <-. vm_compute in Hin.
    repeat (apply elem_of_cons in Hin as [Hin | Hin]; [discriminate|]).
    inversion Hin.
  - apply (Hsize _ (10 * 1024 * 1024 + 1)); [|reflexivity|lia].
    right. exists (js "image/jpeg"). split; [reflexivity|].
    unfold allowedTypes. set_solver.
Defined.

(** X5. A file without an [arrayBuffer] method of its own is accepted on
    its declared type and size alone: nothing is read and no signature is
    checked, even when the file has a [slice] method. *)
Theorem validateImageFile_without_arrayBuffer (f : File.t) :
  declared_metadata_ok f ->
  File.arrayBuffer f = None ->
  _validateImageFile (Some f) = ([], Return tt).
Proof.
  intros Hmeta Hnone. unfold _validateImageFile.
  destruct (metadata_checks_pass f Hmeta) as [-> ->].
  rewrite Hnone. reflexivity.
Qed.

Lemma validateImageFile_without_arrayBuffer_witness :
  _validateImageFile (Some (slice_only_file zip_16)) = ([], Return tt).
Proof.
  apply validateImageFile_without_arrayBuffer; [|reflexivity].
  split.
  - right. exists (js "image/png"). split; [reflexivity|].
    unfold allowedTypes. set_solver.
  - simpl. intros sz [= <-]. unfold maxSize. lia.
Defined.

(** X6. When the read of the leading bytes fails, the failure is swallowed
    and the file is accepted, unless the error's message happens to be
    "File content does not match allowed image formats", in which case
    that very error is thrown on. *)
Theorem validateImageFile_read_failure (f : File.t) (e : Exn) :
  declared_metadata_ok f ->
  read_fails f e ->
  (message e <> js "File content does not match allowed image formats" ->
   outcome (_validateImageFile (Some f)) = Return tt)
  /\ (message e = js "File content does not match allowed image formats" ->
      outcome (_validateImageFile (Some f)) = Throw e).
Proof.
  intros Hmeta Hfail.
  assert (Hrun : outcome (_validateImageFile (Some f))
                 = if str_eqb (message e) content_mismatch then Throw e else Return tt).
  { unfold _validateImageFile, read_leading_bytes.
    destruct (metadata_checks_pass f Hmeta) as [-> ->].
    change BYTES_TO_READ with 16.
    destruct Hfail as [slice full Hs Hf Hthrow | slice full blob Hs Hf Hb Hr | Hs Hf];
      rewrite Hf, Hs; simpl.
    - rewrite Hthrow. simpl.
      destruct (str_eqb (message e) content_mismatch); reflexivity.
    - rewrite Hb. simpl. rewrite Hr. simpl.
      destruct (str_eqb (message e) content_mismatch); reflexivity.
    - destruct (str_eqb (message e) content_mismatch); reflexivity. }
  rewrite Hrun. unfold str_eqb, content_mismatch. split; intros Hm.
  - rewrite bool_decide_eq_false_2 by exact Hm. reflexivity.
  - rewrite bool_decide_eq_true_2 by exact Hm. reflexivity.
Qed.

Lemma validateImageFile_read_failure_witness :
  outcome (_validateImageFile (Some (unreadable_file (TypeError (js "read failed")))))
  = Return tt
  /\ outcome (_validateImageFile
                (Some (unreadable_file
                         (TypeError (js "File content does not match allowed image formats")))))
     = Throw (TypeError (js "File content does not match allowed image formats")).
Proof.
  assert (Hmeta : forall e, declared_metadata_ok (unreadable_file e)).
  { intros e. split.
    - right. exists (js "image/jpeg"). split; [reflexivity|].
      unfold allowedTypes. set_solver.
    - simpl. intros sz [= <-]. unfold maxSize. lia. }
  assert (Hfail : forall e, read_fails (unreadable_file e) e).
  { intros e. apply full_read_rejects; reflexivity. }
  split.
  - apply (proj1 (validateImageFile_read_failure _ _ (Hmeta _) (Hfail _))).
    discriminate.
  - apply (proj2 (validateImageFile_read_failure _ _ (Hmeta _) (Hfail _))).
    reflexivity.
Defined.

(** X7. A file without [slice] is read in full, once, and only the first 16
    bytes of what was read take part in the signature check: two such
    files whose contents agree on their first 16 bytes are judged
    alike. *)
Theorem validateImageFile_full_read (f : File.t) (buffer : list Z) :
  declared_metadata_ok f ->
  File.slice f = None ->
  File.arrayBuffer f = Some (Return buffer) ->
  _validateImageFile (Some f)
  = ([EvFullRead],
     if validSignature (take 16 buffer) then Return tt
     else Throw (Error (js "File content does not match allowed image formats")))
  /\ (forall (f' : File.t) (buffer' : list Z),
        declared_metadata_ok f' ->
        File.slice f' = None ->
        File.arrayBuffer f' = Some (Return buffer') ->
        take 16 buffer' = take 16 buffer ->
        _validateImageFile (Some f') = _validateImageFile (Some f)).
Proof.
  assert (Hrun : forall g b,
             declared_metadata_ok g -> File.slice g = None ->
             File.arrayBuffer g = Some (Return b) ->
             _validateImageFile (Some g)
             = ([EvFullRead],
                if validSignature (take 16 b) then Return tt
                else Throw (Error content_mismatch))).
  { intros g b Hmeta Hs Hf. unfold _validateImageFile, read_leading_bytes.
    destruct (metadata_checks_pass g Hmeta) as [-> ->].
    rewrite Hf, Hs. simpl. change (Z.to_nat BYTES_TO_READ) with 16%nat.
    destruct (validSignature (take 16 b)); reflexivity. }
  intros Hmeta Hs Hf. split.
  - apply (Hrun f buffer Hmeta Hs Hf).
  - intros f' buffer' Hmeta' Hs' Hf' Heq.
    rewrite (Hrun f buffer Hmeta Hs Hf), (Hrun f' buffer' Hmeta' Hs' Hf'), Heq.
    reflexivity.
Qed.

Lemma validateImageFile_full_read_witness :
  _validateImageFile (Some (unsliceable_file (jpeg_16 ++ zip_16)))
  = ([EvFullRead], Return tt)
  /\ _validateImageFile (Some (unsliceable_file (jpeg_16 ++ avi_16)))
     = _validateImageFile (Some (unsliceable_file (jpeg_16 ++ zip_16))).
Proof.
  assert (Hmeta : forall content, (length content <= 32)%nat ->
                    declared_metadata_ok (unsliceable_file content)).
  { intros content Hlen. split.
    - right. exists (js "image/jpeg"). split; [reflexivity|].
      unfold allowedTypes. set_solver.
    - simpl. intros sz [= <-]. unfold maxSize. lia. }
  assert (H32 : forall tl, length tl = 16%nat -> (length (jpeg_16 ++ tl) <= 32)%nat).
  { intros tl Htl. rewrite length_app, Htl. simpl. lia. }
  destruct (validateImageFile_full_read (unsliceable_file (jpeg_16 ++ zip_16))
              (jpeg_16 ++ zip_16) (Hmeta _ (H32 zip_16 eq_refl)) eq_refl eq_refl)
    as [Hrun Hsame].
  split.
  - exact Hrun.
  - apply (Hsame (unsliceable_file (jpeg_16 ++ avi_16)) (jpeg_16 ++ avi_16)
             (Hmeta _ (H32 avi_16 eq_refl)) eq_refl eq_refl).
    reflexivity.
Defined.

Lemma has_at_length offset signature bytes :
  has_at offset signature bytes -> (length signature <= length bytes)%nat.
Proof.
  unfold has_at. intros H.
  assert (Hl : length (take (length signature) (drop offset bytes))
               = length signature) by (rewrite H; reflexivity).
  rewrite length_take, length_drop in Hl. lia.
Qed.

(** X8. The signature check, for content of any length: it accepts exactly
    the bytes that begin with FF D8 FF, or with 89 50 4E 47, or with 52 49
    46 46 and are either fewer than 12 or carry 57 45 42 50 at offsets 8 to
    11.  In particular content of fewer than three bytes, the empty
    content included, is refused. *)
Theorem validSignature_characterised (bytes : list Z) :
  (validSignature bytes = true
   <-> has_at 0 jpeg_magic bytes
       \/ has_at 0 png_magic bytes
       \/ (has_at 0 riff_magic bytes
           /\ ((length bytes < 12)%nat \/ has_at 8 webp_magic bytes)))
  /\ ((length bytes < 3)%nat -> validSignature bytes = false).
Proof.
  assert (Hiff : validSignature bytes = true
                 <-> has_at 0 jpeg_magic bytes
                     \/ has_at 0 png_magic bytes
                     \/ (has_at 0 riff_magic bytes
                         /\ ((length bytes < 12)%nat \/ has_at 8 webp_magic bytes))).
  { rewrite validSignature_unfold.
    rewrite !orb_true_iff, andb_true_iff, orb_true_iff, negb_true_iff.
    rewrite !every_at_spec, Nat.leb_gt. tauto. }
  split; [exact Hiff|].
  intros Hshort. destruct (validSignature bytes) eqn:E; [|reflexivity].
  destruct (proj1 Hiff eq_refl) as [H | [H | [H _]]];
    apply has_at_length in H; simpl in H; lia.
Qed.

Lemma validSignature_characterised_witness :
  validSignature [0xFF; 0xD8] = false.
Proof.
  apply (proj2 (validSignature_characterised [0xFF; 0xD8])). simpl. lia.
Defined.

(** ** The operations: what reaches the transport *)

Lemma validateImageFile_no_fetch (image : option File.t) :
  fetches (trace (_validateImageFile image)) = [].
Proof.
  destruct image as [f |]; [|reflexivity].
  unfold _validateImageFile, read_leading_bytes.
  rewrite !trace_bind.
  assert (Ht : trace (check_declared_type f) = []).
  { unfold check_declared_type.
    destruct (File.type f); try destruct (negb _); reflexivity. }
  assert (Hz : trace (check_declared_size f) = []).
  { unfold check_declared_size.
    destruct (File.size f) as [sz |]; try destruct (sz >? maxSize); reflexivity. }
  rewrite Ht, Hz. simpl.
  destruct (outcome (check_declared_type f)); [|reflexivity].
  destruct (outcome (check_declared_size f)); [|reflexivity].
  destruct (File.arrayBuffer f) as [full |]; [|reflexivity].
  destruct (File.slice f) as [slice |]; simpl.
  - destruct (slice 0 BYTES_TO_READ) as [blob | e]; simpl.
    + destruct (Blob.arrayBuffer blob) as [bytes | e]; simpl.
      * destruct (validSignature bytes); reflexivity.
      * destruct (str_eqb (message e) content_mismatch); reflexivity.
    + destruct (str_eqb (message e) content_mismatch); reflexivity.
  - destruct full as [buffer | e]; simpl.
    + destruct (validSignature _); reflexivity.
    + destruct (str_eqb (message e) content_mismatch); reflexivity.
Qed.

Lemma fetches_app t1 t2 : fetches (t1 ++ t2) = fetches t1 ++ fetches t2.
Proof. unfold fetches. apply flat_map_app. Qed.

(** A transport call followed by steps that cause no event, inside a
    [try] whose [catch] clause causes none either. *)
Lemma guarded_fetch {A} fetch req (k : Response -> M A) (h : Exn -> M A) :
  (forall response, trace (k response) = []) ->
  (forall e, trace (h e) = []) ->
  trace (try_catch (bind (call_fetch fetch req) k) h) = [EvFetch req].
Proof.
  intros Hk Hh. rewrite trace_try_catch, trace_bind.
  change (trace (call_fetch fetch req)) with [EvFetch req].
  change (outcome (call_fetch fetch req)) with (fetch req).
  rewrite outcome_bind.
  change (outcome (call_fetch fetch req)) with (fetch req).
  destruct (fetch req) as [response | e]; simpl.
  - rewrite Hk. destruct (outcome (k response)); [reflexivity|].
    rewrite Hh. reflexivity.
  - rewrite Hh. reflexivity.
Qed.

Lemma decode_trace (response : Response) (wrap : Response -> Exn) :
  trace (if negb (ok response) then throw (wrap response)
         else lift (json response) : M JsVal) = [].
Proof. destruct (negb (ok response)); reflexivity. Qed.

Lemma getTaxonomy_trace fetch this type :
  trace (getTaxonomy fetch this type)
  = match ToString type with
    | Return name => [EvFetch (taxonomy_request this name)]
    | Throw _ => []
    end.
Proof.
  unfold getTaxonomy. destruct (ToString type) as [name | e]; [|reflexivity].
  rewrite bind_lift_return.
  apply guarded_fetch; [|reflexivity].
  intros response. destruct (negb (ok response)); reflexivity.
Qed.

Lemma getProduct_trace fetch this barcode :
  trace (getProduct fetch this barcode)
  = match _validateBarcode barcode false with
    | Return _ => [EvFetch (product_request this (text_of barcode))]
    | Throw _ => []
    end.
Proof.
  unfold getProduct. rewrite trace_bind. simpl trace at 1. simpl outcome.
  destruct (_validateBarcode barcode false) eqn:Hb; [|reflexivity].
  rewrite (validated_barcode_converts _ _ _ Hb), bind_lift_return.
  simpl app. apply guarded_fetch; [|reflexivity].
  intros response. destruct (negb (ok response)); [reflexivity|].
  unfold lift, bind.
  destruct (json response) as [decoded |]; [|reflexivity].
  destruct (destructure decoded (js "product") (js "(intermediate value)"))
    as [product |]; [|reflexivity].
  destruct product; reflexivity.
Qed.

Lemma searchProducts_trace fetch this params :
  trace (searchProducts fetch this params)
  = match search_query params with
    | Return q => [EvFetch (search_request this q)]
    | Throw _ => []
    end.
Proof.
  destruct (search_query params) as [q | e] eqn:Hq.
  - unfold searchProducts. rewrite Hq.
    rewrite bind_lift_return.
    apply guarded_fetch; [|apply search_catch_trace].
    intros response. destruct (negb (ok response)); [reflexivity|].
    unfold lift, bind.
    destruct (json response) as [data |]; [|reflexivity].
    destruct (negb (truthy data) || negb (str_eqb (typeof data) (js "object")));
      [reflexivity|].
    destruct (filter_fields (SearchParams.fields params) data); reflexivity.
  - rewrite (searchProducts_query_throws _ _ _ _ Hq). apply search_catch_trace.
Qed.

Lemma secure_connection_cases this :
  (startsWith (baseUrl this) (js "https://") = true
   /\ _validateSecureConnection this = Return tt)
  \/ (startsWith (baseUrl this) (js "https://") = false
      /\ exists e, _validateSecureConnection this = Throw e).
Proof.
  unfold _validateSecureConnection.
  destruct (startsWith (baseUrl this) (js "https://")); simpl; eauto.
Qed.

Lemma append_sanitized_extends name v formData formData' :
  append_sanitized name v formData = Return formData' ->
  formData `prefix_of` formData'.
Proof.
  unfold append_sanitized. destruct (truthy v).
  - destruct (_sanitizeSearchInput v); [|discriminate].
    intros [= <-]. apply prefix_app_r. reflexivity.
  - intros [= <-]. reflexivity.
Qed.

(** What [addProduct] sends, if it sends anything. *)
Lemma addProduct_trace fetch this data :
  trace (addProduct fetch this data) = []
  \/ exists creds formData,
       credentials this = Some creds
       /\ startsWith (baseUrl this) (js "https://") = true
       /\ _validateBarcode (ProductData.code data) false = Return tt
       /\ credential_fields (ProductData.code data) creds `prefix_of` formData
       /\ trace (addProduct fetch this data)
          = [EvFetch (write_request this (js "/cgi/product_jqm2.pl") formData)].
Proof.
  unfold addProduct.
  destruct (credentials this) as [creds |] eqn:Hc; [|left; reflexivity].
  destruct (secure_connection_cases this) as [[Hs Hv] | [Hs [e Hv]]];
    rewrite Hv; [|left; reflexivity].
  rewrite bind_lift_return.
  destruct (_validateBarcode (ProductData.code data) false) as [[] | e] eqn:Hb;
    [|left; reflexivity].
  rewrite bind_lift_return.
  rewrite (validated_barcode_converts _ _ _ Hb), bind_lift_return.
  destruct (append_sanitized (js "brands") (ProductData.brands data)
              (credential_fields (ProductData.code data) creds))
    as [form1 | e] eqn:H1.
  2: { left. unfold credential_fields in H1. rewrite H1. reflexivity. }
  destruct (append_sanitized (js "labels") (ProductData.labels data) form1)
    as [form2 | e] eqn:H2.
  2: { left. unfold credential_fields in H1. rewrite H1.
       rewrite bind_lift_return, H2. reflexivity. }
  right. exists creds, form2. split; [reflexivity|]. split; [exact Hs|].
  split; [reflexivity|]. split.
  { etransitivity; [apply (append_sanitized_extends _ _ _ _ H1)|].
    apply (append_sanitized_extends _ _ _ _ H2). }
  unfold credential_fields in H1. rewrite H1, bind_lift_return, H2.
  rewrite bind_lift_return.
  apply guarded_fetch; [|reflexivity].
  intros response. destruct (negb (ok response)); reflexivity.
Qed.

(** What [uploadPhoto] sends, if it sends anything. *)
Lemma uploadPhoto_fetches fetch this barcode image type :
  fetches (trace (uploadPhoto fetch this barcode image type)) = []
  \/ exists creds file ty,
       credentials this = Some creds
       /\ startsWith (baseUrl this) (js "https://") = true
       /\ _validateBarcode barcode false = Return tt
       /\ image = Some file /\ type = Some ty
       /\ includes allowedFields (PhotoType.field ty) = true
       /\ fetches (trace (uploadPhoto fetch this barcode image type))
          = [write_request this (js "/cgi/product_image_upload.pl")
               (credential_fields barcode creds
                ++ [ (js "imagefield",
                      FormString (text_of (PhotoType.field ty) ++ js "_"
                                  ++ text_of (PhotoType.languageCode ty)));
                     (js "imgupload_" ++ text_of (PhotoType.field ty) ++ js "_"
                      ++ text_of (PhotoType.languageCode ty),
                      FormFile file) ])].
Proof.
  unfold uploadPhoto.
  destruct (credentials this) as [creds |] eqn:Hc; [|left; reflexivity].
  destruct (secure_connection_cases this) as [[Hs Hv] | [Hs [e Hv]]];
    rewrite Hv; [|left; reflexivity].
  rewrite bind_lift_return.
  destruct (_validateBarcode barcode false) as [[] | e] eqn:Hb;
    [|left; reflexivity].
  rewrite bind_lift_return, trace_bind, fetches_app, validateImageFile_no_fetch.
  rewrite app_nil_l.
  destruct (outcome (_validateImageFile image)); [|left; reflexivity].
  destruct type as [ty |]; [|left; destruct image; reflexivity].
  destruct image as [file |]; [|left; reflexivity].
  destruct (negb (truthy (PhotoType.field ty))
            || negb (truthy (PhotoType.languageCode ty))); [left; reflexivity|].
  destruct (includes allowedFields (PhotoType.field ty)) eqn:Hinc;
    [|left; reflexivity].
  cbv beta iota delta [negb].
  rewrite (validated_barcode_converts _ _ _ Hb), bind_lift_return.
  destruct (convertible (PhotoType.field ty)) eqn:Hcf.
  2: { left. rewrite (ToString_not_convertible _ Hcf). reflexivity. }
  rewrite (ToString_convertible _ Hcf), bind_lift_return.
  destruct (convertible (PhotoType.languageCode ty)) eqn:Hcl.
  2: { left. rewrite (ToString_not_convertible _ Hcl). reflexivity. }
  rewrite (ToString_convertible _ Hcl), bind_lift_return.
  right. exists creds, file, ty. repeat (split; [reflexivity || assumption|]).
  cbv zeta.
  match goal with
  | |- fetches (trace (try_catch (bind (call_fetch _ ?req) ?k) ?h)) = _ =>
      rewrite (guarded_fetch fetch req k h)
  end.
  - reflexivity.
  - intros response. destruct (ok response); reflexivity.
  - reflexivity.
Qed.

Lemma getRandomInsight_trace fetch this count lang :
  trace (getRandomInsight fetch this count lang) = []
  \/ exists q,
       trace (getRandomInsight fetch this count lang)
       = [EvFetch {| url := js "https://robotoff.openfoodfacts.org/api/v1/questions/random?";
                     query := Some q;
                     method := None; headers := None; body := None |}].
Proof.
  unfold getRandomInsight.
  destruct (toString_method (js "count")
              match count with JUndefined => JNum 1 | _ => count end)
    as [text | e]; [|left; reflexivity].
  rewrite bind_lift_return.
  destruct (append_if_truthy (js "lang") lang [(js "count", text)])
    as [q | e]; [|left; reflexivity].
  rewrite bind_lift_return.
  right. eexists.
  apply guarded_fetch; [|reflexivity].
  intros response. destruct (negb (ok response)); reflexivity.
Qed.

(** X9. Without credentials on the instance, [addProduct] and
    [uploadPhoto] fail at once with "Credentials required for adding
    products" and "Credentials required for uploading photos": whatever
    the arguments and the endpoint, nothing is validated, no file is read
    and the transport is not called. *)
Theorem write_operations_need_credentials
    (fetch : Transport) (this : OpenFoodFactsAPI) :
  credentials this = None ->
  (forall data,
      addProduct fetch this data
      = ([], Throw (Error (js "Credentials required for adding products"))))
  /\ (forall barcode image type,
        uploadPhoto fetch this barcode image type
        = ([], Throw (Error (js "Credentials required for uploading photos")))).
Proof.
  intros Hc. split.
  - intros data. unfold addProduct. rewrite Hc. reflexivity.
  - intros barcode image type. unfold uploadPhoto. rewrite Hc. reflexivity.
Qed.

Lemma write_operations_need_credentials_witness :
  addProduct (respond_with JNull) default_client test_product_data
  = ([], Throw (Error (js "Credentials required for adding products")))
  /\ uploadPhoto (respond_with JNull) default_client (JStr (js "not a barcode"))
       None None
     = ([], Throw (Error (js "Credentials required for uploading photos"))).
Proof.
  destruct (write_operations_need_credentials (respond_with JNull) default_client
              eq_refl) as [Hadd Hup].
  split; [apply Hadd | apply Hup].
Defined.

(** X10. [uploadPhoto] looks at its [type] argument only after the image
    was validated: on an instance with credentials and an https endpoint,
    with a valid barcode and an image that passes validation, a missing
    [type], or one whose [field] or [languageCode] is missing or falsy,
    fails with "Type with field and languageCode is required", and a
    [field] that is not front, ingredients or nutrition fails with
    "Invalid field type. Must be front, ingredients, or nutrition.".  In
    both cases the events are those of the image validation alone: the
    file may have been read, the transport was not called. *)
Theorem uploadPhoto_type_checks
    (fetch : Transport) (this : OpenFoodFactsAPI) (creds : Credentials)
    (barcode : JsVal) (image : option File.t) :
  credentials this = Some creds ->
  startsWith (baseUrl this) (js "https://") = true ->
  _validateBarcode barcode false = Return tt ->
  outcome (_validateImageFile image) = Return tt ->
  (forall type,
      type = None
      \/ (exists ty, type = Some ty
                     /\ (truthy (PhotoType.field ty) = false
                         \/ truthy (PhotoType.languageCode ty) = false)) ->
      uploadPhoto fetch this barcode image type
      = (trace (_validateImageFile image),
         Throw (Error (js "Type with field and languageCode is required"))))
  /\ (forall ty,
        truthy (PhotoType.field ty) = true ->
        truthy (PhotoType.languageCode ty) = true ->
        ~ (exists s, PhotoType.field ty = JStr s /\ s ∈ allowedFields) ->
        uploadPhoto fetch this barcode image (Some ty)
        = (trace (_validateImageFile image),
           Throw (Error (js "Invalid field type. Must be front, ingredients, or nutrition.")))).
Proof.
  intros Hc Hs Hb Hv.
  assert (Hsec : _validateSecureConnection this = Return tt).
  { unfold _validateSecureConnection. rewrite Hs. reflexivity. }
  assert (Himg : exists file, image = Some file).
  { destruct image as [file |]; [eauto | discriminate]. }
  destruct Himg as [file ->].
  assert (Hrun : forall (k : M JsVal) r,
             trace k = [] -> outcome k = r ->
             bind (_validateImageFile (Some file)) (fun _ => k)
             = (trace (_validateImageFile (Some file)), r)).
  { intros k r Hk Hr. apply run_eq.
    - rewrite trace_bind, Hv, Hk, app_nil_r. reflexivity.
    - rewrite outcome_bind, Hv. exact Hr. }
  split.
  - intros type Htype. unfold uploadPhoto.
    rewrite Hc, Hsec, bind_lift_return, Hb, bind_lift_return.
    apply Hrun.
    + destruct Htype as [-> | (ty & -> & [Hf | Hl])]; [reflexivity | |].
      * rewrite Hf. reflexivity.
      * rewrite Hl, orb_true_r. reflexivity.
    + destruct Htype as [-> | (ty & -> & [Hf | Hl])]; [reflexivity | |].
      * rewrite Hf. reflexivity.
      * rewrite Hl, orb_true_r. reflexivity.
  - intros ty Hf Hl Hbad. unfold uploadPhoto.
    rewrite Hc, Hsec, bind_lift_return, Hb, bind_lift_return.
    assert (Hinc : includes allowedFields (PhotoType.field ty) = false).
    { destruct (includes allowedFields (PhotoType.field ty)) eqn:E; [|reflexivity].
      exfalso. apply Hbad. apply includes_spec. exact E. }
    apply Hrun; rewrite Hf, Hl, Hinc; reflexivity.
Qed.

Lemma uploadPhoto_type_checks_witness :
  uploadPhoto (respond_with JNull) authenticated_client (JStr (js "123456789"))
    (Some (sliceable_file jpeg_16)) None
  = ([EvSlice 0 16; EvSliceRead],
     Throw (Error (js "Type with field and languageCode is required")))
  /\ uploadPhoto (respond_with JNull) authenticated_client (JStr (js "123456789"))
       (Some (sliceable_file jpeg_16))
       (Some {| PhotoType.field := JStr (js "back");
                PhotoType.languageCode := JStr (js "en") |})
     = ([EvSlice 0 16; EvSliceRead],
        Throw (Error (js "Invalid field type. Must be front, ingredients, or nutrition."))).
Proof.
  destruct (uploadPhoto_type_checks (respond_with JNull) authenticated_client
              test_credentials (JStr (js "123456789"))
              (Some (sliceable_file jpeg_16))
              eq_refl eq_refl eq_refl eq_refl) as [Hmissing Hfield].
  split.
  - apply (Hmissing None). left. reflexivity.
  - apply Hfield; [reflexivity | reflexivity |].
    intros (s & [= <-] & Hin). vm_compute in Hin.
    repeat (apply elem_of_cons in Hin as [Hin | Hin]; [discriminate|]).
    inversion Hin.
Defined.



Lemma read_only_call_fetches_once
    (fetch : Transport) (this : OpenFoodFactsAPI) (call : Call) :
  (length (fetches (trace (read_only_call fetch this call))) <= 1)%nat.
Proof.
  destruct call; simpl read_only_call.
  - simpl. lia.
  - simpl. lia.
  - unfold unit_result. destruct (_validateBarcode barcode allowPartial); simpl; lia.
  - unfold unit_result. rewrite trace_bind, fetches_app, validateImageFile_no_fetch.
    destruct (outcome (_validateImageFile file)); simpl; lia.
  - destruct (_sanitizeSearchInput input); simpl; lia.
  - simpl. lia.
  - unfold unit_result. destruct (_validateSecureConnection this); simpl; lia.
  - rewrite getProduct_trace. destruct (_validateBarcode barcode false); simpl; lia.
  - rewrite searchProducts_trace. destruct (search_query params); simpl; lia.
  - destruct (addProduct_trace fetch this data) as [-> | (? & ? & _ & _ & _ & _ & ->)];
      simpl; lia.
  - destruct (uploadPhoto_fetches fetch this barcode image type)
      as [-> | (? & ? & ? & _ & _ & _ & _ & _ & _ & ->)]; simpl; lia.
  - rewrite getTaxonomy_trace. destruct (ToString type); simpl; lia.
  - unfold getAdditives. rewrite getTaxonomy_trace. simpl. lia.
  - unfold getAllergens. rewrite getTaxonomy_trace. simpl. lia.
  - unfold getBrands. rewrite getTaxonomy_trace. simpl. lia.
  - destruct (getRandomInsight_trace fetch this count lang) as [-> | [q ->]];
      simpl; lia.
Qed.

(** X12. No call on a client, whatever the method and the arguments, calls
    the transport more than once: a failed request is reported, never
    repeated. *)
Theorem every_call_fetches_at_most_once
    (fetch : Transport) (σ : Store) (l : positive) (call : Call) :
  (length (fetches (trace (invoke fetch l call σ).2)) <= 1)%nat.
Proof.
  unfold invoke. destruct (σ !! l) as [this |]; [|simpl; lia].
  pose proof (read_only_call_fetches_once fetch this call) as Hro.
  destruct call; try exact Hro.
  destruct (setCredentials this userId0 password0); simpl; lia.
Qed.

(** X13. A barcode that the full validation refuses stops [getProduct],
    [addProduct] and [uploadPhoto] before anything else happens: the
    validator's own error reaches the caller, without an operation prefix,
    no file is read and the transport is not called. *)
Theorem barcode_errors_reach_the_caller
    (fetch : Transport) (this : OpenFoodFactsAPI) (barcode : JsVal) (e : Exn) :
  _validateBarcode barcode false = Throw e ->
  getProduct fetch this barcode = ([], Throw e)
  /\ (forall creds,
        credentials this = Some creds ->
        startsWith (baseUrl this) (js "https://") = true ->
        (forall brands labels,
            addProduct fetch this
              {| ProductData.code := barcode;
                 ProductData.brands := brands;
                 ProductData.labels := labels |}
            = ([], Throw e))
        /\ (forall image type,
              uploadPhoto fetch this barcode image type = ([], Throw e))).
Proof.
  intros Hb. split.
  - unfold getProduct. rewrite Hb. reflexivity.
  - intros creds Hc Hs.
    assert (Hsec : _validateSecureConnection this = Return tt).
    { unfold _validateSecureConnection. rewrite Hs. reflexivity. }
    split.
    + intros brands labels. unfold addProduct. simpl ProductData.code.
      rewrite Hc, Hsec, bind_lift_return, Hb. reflexivity.
    + intros image type. unfold uploadPhoto.
      rewrite Hc, Hsec, bind_lift_return, Hb. reflexivity.
Qed.

Lemma barcode_errors_reach_the_caller_witness :
  getProduct (respond_with JNull) default_client (JStr (js "abc123"))
  = ([], Throw (Error (js "Invalid barcode format. Must be 8-13 digits.")))
  /\ uploadPhoto (respond_with JNull) authenticated_client (JNum 123456789)
       (Some (sliceable_file jpeg_16)) (Some front_en)
     = ([], Throw (Error (js "Barcode must be a string"))).
Proof.
  split.
  - apply (proj1 (barcode_errors_reach_the_caller (respond_with JNull)
                    default_client (JStr (js "abc123")) _ eq_refl)).
  - destruct (barcode_errors_reach_the_caller (respond_with JNull)
                authenticated_client (JNum 123456789) _ eq_refl) as [_ H].
    destruct (H test_credentials eq_refl eq_refl) as [_ Hup].
    apply Hup.
Defined.

Lemma lookup_fixed_fields (f : jsstring -> JsVal) (keys : list jsstring)
    (k : jsstring) :
  (list_to_map (map (fun key => (key, f key)) keys) : gmap jsstring JsVal) !! k
  = if decide (k ∈ keys) then Some (f k) else None.
Proof.
  induction keys as [| key keys IH]; simpl.
  - rewrite lookup_empty. destruct (decide (k ∈ [])) as [Hin |]; [inversion Hin | reflexivity].
  - destruct (decide (k = key)) as [-> | Hne].
    + rewrite lookup_insert_eq. rewrite decide_True by (left). reflexivity.
    + rewrite lookup_insert_ne by congruence. rewrite IH.
      destruct (decide (k ∈ keys)) as [Hin | Hout].
      * rewrite decide_True by (right; exact Hin). reflexivity.
      * rewrite decide_False; [reflexivity|].
        intros Hin. apply elem_of_cons in Hin as [? | ?]; contradiction.
Qed.

(** X14. [getProduct] on a well-formed answer returns an object with
    exactly the twelve fixed keys, each with the value the product has
    under it, or [undefined] when the product lacks it; every other key of
    the product is dropped.  When the decoded answer has no [product]
    entry, as for a barcode the service does not know, the call fails with
    a message that begins "Failed to fetch product: ". *)
Theorem getProduct_returns_fixed_fields
    (fetch : Transport) (this : OpenFoodFactsAPI) (s : jsstring)
    (response : Response) (decoded : gmap jsstring JsVal) :
  full_barcode s ->
  fetch (product_request this s) = Return response ->
  ok response = true ->
  json response = Return (JObj decoded) ->
  (forall product : gmap jsstring JsVal,
      decoded !! js "product" = Some (JObj product) ->
      exists result : gmap jsstring JsVal,
        getProduct fetch this (JStr s)
        = ([EvFetch (product_request this s)], Return (JObj result))
        /\ forall k,
            result !! k
            = if decide (k ∈ product_fields)
              then Some (default JUndefined (product !! k))
              else None)
  /\ (decoded !! js "product" = None ->
      exists m,
        getProduct fetch this (JStr s)
        = ([EvFetch (product_request this s)],
           Throw (Error (js "Failed to fetch product: " ++ m)))).
Proof.
  intros Hs Hf Hok Hj.
  assert (Hb : _validateBarcode (JStr s) false = Return tt).
  { simpl. apply test_re_barcode in Hs. rewrite Hs. reflexivity. }
  split.
  - intros product Hp.
    exists (list_to_map (map (fun k => (k, Get (JObj product) k)) product_fields)).
    split.
    + unfold getProduct. rewrite Hb, bind_lift_return.
      change (ToString (JStr s)) with (@Return jsstring s).
      rewrite bind_lift_return. unfold call_fetch.
      fold (product_request this s).
      simpl. rewrite Hf. simpl. rewrite Hok. simpl. rewrite Hj. simpl.
      rewrite Hp. reflexivity.
    + intros k. apply (lookup_fixed_fields (Get (JObj product))).
  - intros Hp. eexists.
    unfold getProduct. rewrite Hb, bind_lift_return.
    change (ToString (JStr s)) with (@Return jsstring s).
    rewrite bind_lift_return. unfold call_fetch.
    fold (product_request this s).
    simpl. rewrite Hf. simpl. rewrite Hok. simpl. rewrite Hj. simpl.
    rewrite Hp. reflexivity.
Qed.

Lemma getProduct_returns_fixed_fields_witness :
  (exists result : gmap jsstring JsVal,
      outcome (getProduct (respond_with (JObj product_answer)) default_client
                 (JStr (js "12345678")))
      = Return (JObj result)
      /\ result !! js "brands" = Some (JStr (js "Test Brand"))
      /\ result !! js "quantity" = Some JUndefined
      /\ result !! js "nutriments" = None)
  /\ (exists m,
        outcome (getProduct (respond_with (JObj not_found_answer)) default_client
                   (JStr (js "12345678")))
        = Throw (Error (js "Failed to fetch product: " ++ m))).
Proof.
  assert (Hfull : full_barcode (js "12345678")).
  { split; [vm_compute; lia|]. apply is_digit_decimal. vm_compute. reflexivity. }
  split.
  - destruct (getProduct_returns_fixed_fields
                (respond_with (JObj product_answer)) default_client
                (js "12345678") _ product_answer Hfull eq_refl eq_refl eq_refl)
      as [Hshape _].
    destruct (Hshape _ eq_refl) as (result & Hrun & Hlook).
    exists result. split; [rewrite Hrun; reflexivity|].
    rewrite !Hlook. split; [|split]; vm_compute; reflexivity.
  - destruct (getProduct_returns_fixed_fields
                (respond_with (JObj not_found_answer)) default_client
                (js "12345678") _ not_found_answer Hfull eq_refl eq_refl eq_refl)
      as [_ Hmissing].
    destruct (Hmissing eq_refl) as (m & Hrun).
    exists m. rewrite Hrun. reflexivity.
Defined.

(** X15. A response whose status is not a success: [searchProducts] throws
    an [OpenFoodFactsError] with the message "HTTP error! status: " and the
    status, the detail "API request failed" and the status itself, and
    throws it as it is; [getTaxonomy], for a type that converts to a name,
    and [getProduct] throw a plain error whose message puts their own
    prefix before the same text.  The body of such a response is not
    decoded. *)
Theorem http_errors_are_classified
    (fetch : Transport) (this : OpenFoodFactsAPI) (response : Response) :
  ok response = false ->
  (forall params q,
      search_query params = Return q ->
      fetch (search_request this q) = Return response ->
      searchProducts fetch this params
      = ([EvFetch (search_request this q)],
         Throw (OpenFoodFactsError
                  (js "HTTP error! status: " ++ Number_toString (status response))
                  (js "API request failed") (status response))))
  /\ (forall type name,
        ToString type = Return name ->
        fetch (taxonomy_request this name) = Return response ->
        getTaxonomy fetch this type
        = ([EvFetch (taxonomy_request this name)],
           Throw (Error (js "Failed to fetch taxonomy: HTTP error! status: "
                         ++ Number_toString (status response)))))
  /\ (forall s,
        full_barcode s ->
        fetch (product_request this s) = Return response ->
        getProduct fetch this (JStr s)
        = ([EvFetch (product_request this s)],
           Throw (Error (js "Failed to fetch product: HTTP error! status: "
                         ++ Number_toString (status response))))).
Proof.
  intros Hok. split; [|split].
  - intros params q Hq Hf. unfold searchProducts, call_fetch.
    rewrite Hq, bind_lift_return. simpl. rewrite Hf. simpl. rewrite Hok.
    reflexivity.
  - intros type name Hname Hf. unfold getTaxonomy.
    rewrite Hname, bind_lift_return. unfold call_fetch.
    fold (taxonomy_request this name). simpl. rewrite Hf. simpl. rewrite Hok.
    reflexivity.
  - intros s Hs Hf.
    assert (Hb : _validateBarcode (JStr s) false = Return tt).
    { simpl. apply test_re_barcode in Hs. rewrite Hs. reflexivity. }
    unfold getProduct. rewrite Hb, bind_lift_return.
    change (ToString (JStr s)) with (@Return jsstring s).
    rewrite bind_lift_return. unfold call_fetch.
    fold (product_request this s).
    simpl. rewrite Hf. simpl. rewrite Hok. reflexivity.
Qed.

Lemma http_errors_are_classified_witness :
  searchProducts (respond_status 500) default_client
    (search_for (JStr (js "test")) JUndefined)
  = ([EvFetch (search_request default_client test_query)],
     Throw (OpenFoodFactsError (js "HTTP error! status: 500")
              (js "API request failed") 500))
  /\ outcome (getTaxonomy (respond_status 404) default_client (JStr (js "additives")))
     = Throw (Error (js "Failed to fetch taxonomy: HTTP error! status: 404")).
Proof.
  split.
  - apply (proj1 (http_errors_are_classified (respond_status 500) default_client
                    (status_response 500) eq_refl)
             (search_for (JStr (js "test")) JUndefined) test_query
             eq_refl eq_refl).
  - rewrite (proj1 (proj2 (http_errors_are_classified (respond_status 404)
                             default_client (status_response 404) eq_refl))
               (JStr (js "additives")) (js "additives") eq_refl eq_refl).
    reflexivity.
Defined.

(** X16. In a search whose [action] is missing or can be written into the
    query, and whose search term is missing or a string, a truthy [code]
    that the partial validation refuses makes [searchProducts] fail before
    the transport is called, and the validator's message arrives behind
    the prefix "Failed to search products: ". *)
Theorem searchProducts_invalid_code_wrapped
    (fetch : Transport) (this : OpenFoodFactsAPI) (params : SearchParams.t) :
  action_ok params ->
  truthy (SearchParams.search_terms params) = false
  \/ typeof (SearchParams.search_terms params) = js "string" ->
  truthy (SearchParams.code params) = true ->
  (typeof (SearchParams.code params) <> js "string" ->
   searchProducts fetch this params
   = ([], Throw (Error (js "Failed to search products: Barcode must be a string"))))
  /\ (forall s,
        SearchParams.code params = JStr s ->
        ~ partial_barcode s ->
        searchProducts fetch this params
        = ([], Throw (Error (js "Failed to search products: Invalid barcode format. Must contain only digits.")))).
Proof.
  intros Ha Hterms Hcode.
  assert (Hq : forall e,
             _validateBarcode (SearchParams.code params) true = Throw e ->
             search_query params = Throw e).
  { intros e Hv. unfold search_query.
    rewrite (new_queryParams_ok params Ha). cbn [and_then].
    unfold append_search_terms, append_code. rewrite Hcode, Hv.
    destruct Hterms as [-> | Hty]; [reflexivity|].
    apply typeof_string in Hty as [s ->].
    destruct (truthy (JStr s)); reflexivity. }
  split.
  - intros Hty.
    rewrite (searchProducts_query_throws _ _ _ _
               (Hq _ (validateBarcode_not_string _ true Hty))).
    reflexivity.
  - intros s Hs Hbad.
    assert (Hv : _validateBarcode (SearchParams.code params) true
                 = Throw (Error (js "Invalid barcode format. Must contain only digits."))).
    { rewrite Hs. apply validateBarcode_partial_bad. exact Hbad. }
    rewrite (searchProducts_query_throws _ _ _ _ (Hq _ Hv)).
    reflexivity.
Qed.

Lemma searchProducts_invalid_code_wrapped_witness :
  searchProducts (respond_with JNull) default_client
    (search_by_code (JStr (js "12ab")) JUndefined)
  = ([], Throw (Error (js "Failed to search products: Invalid barcode format. Must contain only digits.")))
  /\ searchProducts (respond_with JNull) default_client
       (search_by_code (JNum 1234) JUndefined)
     = ([], Throw (Error (js "Failed to search products: Barcode must be a string"))).
Proof.
  split.
  - apply (proj2 (searchProducts_invalid_code_wrapped (respond_with JNull)
                    default_client (search_by_code (JStr (js "12ab")) JUndefined)
                    (or_introl eq_refl) (or_introl eq_refl) eq_refl)
             (js "12ab") eq_refl).
    intros [_ Hd]. apply is_digit_decimal in Hd. vm_compute in Hd. discriminate.
  - apply (proj1 (searchProducts_invalid_code_wrapped (respond_with JNull)
                    default_client (search_by_code (JNum 1234) JUndefined)
                    (or_introl eq_refl) (or_introl eq_refl) eq_refl)).
    discriminate.
Defined.

(** X17. [getTaxonomy] checks neither the name nor the answer.  For a
    type that converts to a name it makes exactly one request, for that
    name: whatever a successful response decodes to is returned as it is,
    [null] included, while a failure of the transport or of the decoding
    comes back as "Failed to fetch taxonomy: " followed by its message.
    For a type that does not convert, an object that hides [toString],
    no request is made and the call fails with "Failed to fetch taxonomy:
    Cannot convert object to primitive value". *)
Theorem getTaxonomy_outcomes
    (fetch : Transport) (this : OpenFoodFactsAPI) (type : JsVal) :
  (forall name,
      ToString type = Return name ->
      trace (getTaxonomy fetch this type) = [EvFetch (taxonomy_request this name)]
      /\ (forall response data,
            fetch (taxonomy_request this name) = Return response ->
            ok response = true ->
            json response = Return data ->
            outcome (getTaxonomy fetch this type) = Return data)
      /\ (forall response e,
            fetch (taxonomy_request this name) = Return response ->
            ok response = true ->
            json response = Throw e ->
            outcome (getTaxonomy fetch this type)
            = Throw (Error (js "Failed to fetch taxonomy: " ++ message e)))
      /\ (forall e,
            fetch (taxonomy_request this name) = Throw e ->
            outcome (getTaxonomy fetch this type)
            = Throw (Error (js "Failed to fetch taxonomy: " ++ message e))))
  /\ (convertible type = false ->
      getTaxonomy fetch this type
      = ([], Throw (Error (js "Failed to fetch taxonomy: Cannot convert object to primitive value")))).
Proof.
  split.
  - intros name Hname.
    split; [rewrite getTaxonomy_trace, Hname; reflexivity|].
    unfold getTaxonomy. rewrite Hname, bind_lift_return.
    unfold call_fetch. fold (taxonomy_request this name).
    split; [|split].
    + intros response data Hf Hok Hj. simpl. rewrite Hf. simpl.
      rewrite Hok. simpl. rewrite Hj. reflexivity.
    + intros response e Hf Hok Hj. simpl. rewrite Hf. simpl.
      rewrite Hok. simpl. rewrite Hj. reflexivity.
    + intros e Hf. simpl. rewrite Hf. reflexivity.
  - intros Hc. unfold getTaxonomy.
    rewrite (ToString_not_convertible _ Hc). reflexivity.
Qed.

Lemma getTaxonomy_outcomes_witness :
  outcome (getTaxonomy (respond_with JNull) default_client (JStr (js "additives")))
  = Return JNull
  /\ outcome (getAdditives (fail_with (js "Network error")) default_client)
     = Throw (Error (js "Failed to fetch taxonomy: Network error"))
  /\ getTaxonomy (respond_with JNull) default_client unprintable
     = ([], Throw (Error (js "Failed to fetch taxonomy: Cannot convert object to primitive value"))).
Proof.
  split; [|split].
  - destruct (getTaxonomy_outcomes (respond_with JNull) default_client
                (JStr (js "additives"))) as (H & _).
    destruct (H (js "additives") eq_refl) as (_ & Hdata & _).
    apply (Hdata _ JNull eq_refl eq_refl eq_refl).
  - destruct (getTaxonomy_outcomes (fail_with (js "Network error")) default_client
                (JStr (js "additives"))) as (H & _).
    destruct (H (js "additives") eq_refl) as (_ & _ & _ & Hfail).
    apply (Hfail (Error (js "Network error")) eq_refl).
  - destruct (getTaxonomy_outcomes (respond_with JNull) default_client
                unprintable) as (_ & H).
    apply H. reflexivity.
Defined.



(** X19. With a non-empty field list, [searchProducts] needs a [products]
    array in the answer: when the decoded object has no [products] entry
    the call fails with a message that begins "Failed to search products:
    ", although the same answer is returned as it is when no field list is
    given. *)
Theorem searchProducts_fields_need_products
    (fetch : Transport) (this : OpenFoodFactsAPI) (params : SearchParams.t)
    (q : list (jsstring * jsstring)) (response : Response)
    (props : gmap jsstring JsVal) :
  search_query params = Return q ->
  fetch (search_request this q) = Return response ->
  ok response = true ->
  json response = Return (JObj props) ->
  props !! js "products" = None ->
  (forall field rest,
      SearchParams.fields params = JArr (field :: rest) ->
      exists m,
        outcome (searchProducts fetch this params)
        = Throw (Error (js "Failed to search products: " ++ m)))
  /\ (SearchParams.fields params = JUndefined ->
      outcome (searchProducts fetch this params) = Return (JObj props)).
Proof.
  intros Hq Hf Hok Hj Hp. split.
  - intros field rest Hfields. eexists.
    unfold searchProducts, call_fetch. rewrite Hq, bind_lift_return.
    simpl. rewrite Hf. simpl. rewrite Hok. simpl. rewrite Hj. simpl.
    rewrite Hfields. unfold filter_fields, Get. rewrite Hp. reflexivity.
  - intros Hfields.
    apply (searchProducts_valid_body _ _ _ _ _ _ Hq Hf Hok Hj eq_refl eq_refl).
    rewrite Hfields. reflexivity.
Qed.

Lemma searchProducts_fields_need_products_witness :
  (exists m,
      outcome (searchProducts (respond_with (JObj empty_answer)) default_client
                 (search_for (JStr (js "test")) (field_names code_and_name)))
      = Throw (Error (js "Failed to search products: " ++ m)))
  /\ outcome (searchProducts (respond_with (JObj empty_answer)) default_client
                (search_for (JStr (js "test")) JUndefined))
     = Return (JObj empty_answer).
Proof.
  split.
  - destruct (searchProducts_fields_need_products
                (respond_with (JObj empty_answer)) default_client
                (search_for (JStr (js "test")) (field_names code_and_name))
                test_query _ empty_answer eq_refl eq_refl eq_refl eq_refl eq_refl)
      as [H _].
    apply (H _ _ eq_refl).
  - destruct (searchProducts_fields_need_products
                (respond_with (JObj empty_answer)) default_client
                (search_for (JStr (js "test")) JUndefined)
                test_query _ empty_answer eq_refl eq_refl eq_refl eq_refl eq_refl)
      as [_ H].
    apply H. reflexivity.
Defined.

(** ** The query of a search *)

Lemma sanitize_returns_iff v :
  (exists s, _sanitizeSearchInput v = Return s) <-> typeof v = js "string".
Proof.
  split.
  - intros [s H]. destruct v; try discriminate. reflexivity.
  - intros H. apply typeof_string in H as [s ->]. eexists. reflexivity.
Qed.

Lemma validateBarcode_partial_returns_iff v :
  _validateBarcode v true = Return tt <-> exists s, v = JStr s /\ partial_barcode s.
Proof.
  split.
  - destruct v; simpl; try discriminate.
    destruct (Regex.test re_digits s) eqn:Ht; simpl; [|discriminate].
    intros _. exists s. split; [reflexivity|]. apply test_re_digits. exact Ht.
  - intros (s & -> & Hs). simpl. destruct Hs as [Hne Hd].
    assert (Ht : Regex.test re_digits s = true) by (apply test_re_digits; split; auto).
    rewrite Ht. destruct s; [congruence | reflexivity].
Qed.

Lemma and_then_returns {A B : Type} (c : Completion A) (k : A -> Completion B)
    (b : B) :
  and_then c k = Return b -> exists a, c = Return a /\ k a = Return b.
Proof. destruct c; simpl; [eauto | discriminate]. Qed.

Lemma toString_method_truthy (what : jsstring) (v : JsVal) :
  truthy v = true ->
  toString_method what v
  = if convertible v then Return (text_of v)
    else Throw (match v with
                | JObj _ => TypeError (what ++ js ".toString is not a function")
                | _ => not_primitive
                end).
Proof.
  intros Ht.
  destruct (convertible v) eqn:Hc.
  - destruct v as [ | | b | z | s | xs | props];
      try discriminate Ht; try apply (ToString_convertible _ Hc).
    simpl in Hc. unfold toString_method, text_of. simpl.
    destruct (hides_toString props); [discriminate|reflexivity].
  - destruct v as [ | | b | z | s | xs | props]; try discriminate Hc.
    + apply (ToString_not_convertible _ Hc).
    + simpl in Hc. unfold toString_method.
      destruct (hides_toString props); [reflexivity|discriminate].
Qed.

Lemma append_if_truthy_writable name v q :
  writable v ->
  append_if_truthy name v q
  = Return (if truthy v then q ++ [(name, text_of v)] else q).
Proof.
  intros Hw. unfold append_if_truthy.
  destruct (truthy v) eqn:Ht; [|reflexivity].
  destruct Hw as [Hw | Hw]; [congruence|].
  rewrite (ToString_convertible _ Hw). reflexivity.
Qed.

Lemma append_if_truthy_returns name v q :
  (exists q', append_if_truthy name v q = Return q') <-> writable v.
Proof.
  split.
  - intros [q' H]. unfold append_if_truthy in H.
    destruct (truthy v) eqn:Ht; [|left; exact Ht].
    destruct (convertible v) eqn:Hc; [right; exact Hc|].
    rewrite (ToString_not_convertible _ Hc) in H. discriminate.
  - intros Hw. rewrite (append_if_truthy_writable _ _ _ Hw). eauto.
Qed.

Lemma append_toString_writable name what v q :
  writable v ->
  append_toString name what v q
  = Return (if truthy v then q ++ [(name, text_of v)] else q).
Proof.
  intros Hw. unfold append_toString.
  destruct (truthy v) eqn:Ht; [|reflexivity].
  destruct Hw as [Hw | Hw]; [congruence|].
  rewrite (toString_method_truthy _ _ Ht), Hw. reflexivity.
Qed.

Lemma append_toString_returns name what v q :
  (exists q', append_toString name what v q = Return q') <-> writable v.
Proof.
  split.
  - intros [q' H]. unfold append_toString in H.
    destruct (truthy v) eqn:Ht; [|left; exact Ht].
    destruct (convertible v) eqn:Hc; [right; exact Hc|].
    rewrite (toString_method_truthy _ _ Ht), Hc in H. discriminate.
  - intros Hw. rewrite (append_toString_writable _ _ _ _ Hw). eauto.
Qed.

Lemma new_queryParams_returns params :
  (exists q, new_queryParams params = Return q) <-> action_ok params.
Proof.
  split.
  - intros [q H]. unfold new_queryParams in H.
    destruct (truthy (SearchParams.action params)) eqn:Ht; [|left; exact Ht].
    destruct (convertible (SearchParams.action params)) eqn:Hc; [right; exact Hc|].
    rewrite (ToString_not_convertible _ Hc) in H. discriminate.
  - intros Ha. rewrite (new_queryParams_ok _ Ha). eauto.
Qed.

Lemma append_search_terms_returns params q :
  (exists q', append_search_terms params q = Return q') <-> search_terms_ok params.
Proof.
  unfold append_search_terms, search_terms_ok.
  destruct (truthy (SearchParams.search_terms params)) eqn:Ht.
  - rewrite <- sanitize_returns_iff.
    destruct (_sanitizeSearchInput (SearchParams.search_terms params)); simpl.
    + split; eauto.
    + split; [intros [? H]; discriminate|].
      intros [H | [? H]]; discriminate.
  - split; eauto.
Qed.

Lemma append_code_returns params q :
  (exists q', append_code params q = Return q') <-> search_code_ok params.
Proof.
  unfold append_code, search_code_ok.
  destruct (truthy (SearchParams.code params)) eqn:Hc.
  - rewrite <- validateBarcode_partial_returns_iff.
    destruct (_validateBarcode (SearchParams.code params) true) as [[] | e] eqn:Hv;
      simpl.
    + rewrite (validated_barcode_converts _ _ _ Hv). simpl. split; eauto.
    + split; [intros [? H]; discriminate|].
      intros [H | H]; discriminate.
  - split; eauto.
Qed.

Lemma tag_triple_cases params index type :
  tag_triple params index type
  = if tag_values_convertible params index type
    then Return (tag_values params index type)
    else Throw not_primitive.
Proof.
  unfold tag_triple, tag_values_convertible, tag_values.
  destruct (convertible type) eqn:H1;
    [rewrite (ToString_convertible _ H1)
    |rewrite (ToString_not_convertible _ H1); reflexivity].
  cbn [and_then andb].
  destruct (convertible (Get (SearchParams.tagContains params) _)) eqn:H2;
    [rewrite (ToString_convertible _ H2)
    |rewrite (ToString_not_convertible _ H2); reflexivity].
  cbn [and_then andb].
  destruct (convertible (Get (SearchParams.tag params) _)) eqn:H3;
    [rewrite (ToString_convertible _ H3)
    |rewrite (ToString_not_convertible _ H3)]; reflexivity.
Qed.

Lemma forEach_tagType_returns params types :
  forall index,
    (forall (i : nat) type,
        types !! i = Some type ->
        tag_values_convertible params (index + i) type = true) ->
    forEach_tagType params index types
    = Return (concat (imap (fun i type => tag_values params (index + i) type) types)).
Proof.
  induction types as [| type rest IH]; intros index Hall; [reflexivity|].
  simpl forEach_tagType. rewrite tag_triple_cases.
  pose proof (Hall 0%nat type eq_refl) as H0.
  rewrite Nat.add_0_r in H0. rewrite H0. cbn [and_then].
  rewrite (IH (S index)).
  - cbn [and_then]. rewrite imap_cons. cbn [concat]. cbv beta.
    rewrite Nat.add_0_r.
    apply (f_equal Return). apply (f_equal (app _)). apply (f_equal (@concat _)).
    apply imap_ext. intros i x _. unfold compose.
    replace (index + S i)%nat with (S index + i)%nat by lia. reflexivity.
  - intros i x Hx. replace (S index + i)%nat with (index + S i)%nat by lia.
    apply (Hall (S i)). exact Hx.
Qed.

Lemma forEach_tagType_throws params types :
  forall index (i : nat) type,
    types !! i = Some type ->
    tag_values_convertible params (index + i) type = false ->
    forEach_tagType params index types = Throw not_primitive.
Proof.
  induction types as [| x rest IH]; intros index i type Hi Hbad; [discriminate|].
  simpl forEach_tagType. rewrite tag_triple_cases.
  destruct (tag_values_convertible params index x) eqn:Hx; [|reflexivity].
  cbn [and_then].
  destruct i as [| i].
  - injection Hi as ->. rewrite Nat.add_0_r in Hbad. congruence.
  - rewrite (IH (S index) i type Hi); [reflexivity|].
    replace (S index + i)%nat with (index + S i)%nat by lia. exact Hbad.
Qed.

Lemma append_tags_returns params q :
  (exists q', append_tags params q = Return q') <-> search_tags_ok params.
Proof.
  unfold append_tags, search_tags_ok, search_tags_given.
  destruct (truthy (SearchParams.tagType params) && truthy (SearchParams.tag params)
            && truthy (SearchParams.tagContains params)).
  2: { split; eauto. }
  destruct (SearchParams.tagType params) as [ | | | | | types | ];
    try (split; [intros [? H]; discriminate
                | intros [H | (? & H & _)]; discriminate]).
  split.
  - intros [q' H]. right. exists types. split; [reflexivity|].
    intros i type Hi.
    destruct (tag_values_convertible params i type) eqn:Hc; [reflexivity|].
    rewrite (forEach_tagType_throws params types 0 i type Hi Hc) in H.
    discriminate.
  - intros [H | (types' & [= <-] & Hall)]; [discriminate|].
    rewrite (forEach_tagType_returns params types 0 Hall). simpl. eauto.
Qed.

Lemma search_query_returns_iff params :
  (exists q, search_query params = Return q)
  <-> action_ok params /\ search_terms_ok params /\ search_code_ok params
      /\ search_tags_ok params /\ search_filters_ok params.
Proof.
  unfold search_filters_ok. split.
  - intros [q H]. unfold search_query in H.
    apply and_then_returns in H as (q0 & H0 & H).
    apply and_then_returns in H as (q1 & H1 & H).
    apply and_then_returns in H as (q2 & H2 & H).
    apply and_then_returns in H as (q3 & H3 & H).
    apply and_then_returns in H as (q4 & H4 & H).
    apply and_then_returns in H as (q5 & H5 & H).
    apply and_then_returns in H as (q6 & H6 & H).
    split; [apply new_queryParams_returns; eauto|].
    split; [apply (append_search_terms_returns params q0); eauto|].
    split; [apply (append_code_returns params q1); eauto|].
    split; [apply (append_tags_returns params q2); eauto|].
    split; [eapply append_if_truthy_returns; eexists; exact H4|].
    split; [eapply append_if_truthy_returns; eexists; exact H5|].
    split; [eapply append_toString_returns; eexists; exact H6|].
    eapply append_toString_returns; eexists; exact H.
  - intros (Ha & Ht & Hc & Hg & Hf1 & Hf2 & Hf3 & Hf4). unfold search_query.
    rewrite (new_queryParams_ok _ Ha). cbn [and_then].
    destruct (proj2 (append_search_terms_returns params (base_query params)) Ht)
      as [q1 ->]. cbn [and_then].
    destruct (proj2 (append_code_returns params q1) Hc) as [q2 ->]. cbn [and_then].
    destruct (proj2 (append_tags_returns params q2) Hg) as [q3 ->]. cbn [and_then].
    rewrite (append_if_truthy_writable _ _ _ Hf1). cbn [and_then].
    rewrite (append_if_truthy_writable _ _ _ Hf2). cbn [and_then].
    rewrite (append_toString_writable _ _ _ _ Hf3). cbn [and_then].
    rewrite (append_toString_writable _ _ _ _ Hf4). eauto.
Qed.

(** X20. [searchProducts] calls the transport exactly when its parameters
    are acceptable: the action, the two filters and the two page
    parameters are each missing, falsy or a value that can be written
    into the query, the search term is falsy or a string, the code is
    falsy or a string of digits, and the tag parameters, when all three
    are given, have an array as [tagType] and values that can be written
    at each of its indices.  Then it makes one request; otherwise it makes
    none. *)
Theorem searchProducts_reaches_transport_iff
    (fetch : Transport) (this : OpenFoodFactsAPI) (params : SearchParams.t) :
  ((exists q, trace (searchProducts fetch this params)
              = [EvFetch (search_request this q)])
   <-> action_ok params /\ search_terms_ok params /\ search_code_ok params
       /\ search_tags_ok params /\ search_filters_ok params)
  /\ (trace (searchProducts fetch this params) = []
      <-> ~ (action_ok params /\ search_terms_ok params /\ search_code_ok params
             /\ search_tags_ok params /\ search_filters_ok params)).
Proof.
  rewrite searchProducts_trace, <- search_query_returns_iff.
  destruct (search_query params) as [q | e]; split; split.
  - eauto.
  - eauto.
  - discriminate.
  - intros H. exfalso. apply H. eauto.
  - intros [q H]. discriminate.
  - intros [q H]. discriminate.
  - intros _ [q H]. discriminate.
  - reflexivity.
Qed.

Lemma searchProducts_reaches_transport_iff_witness :
  trace (searchProducts (respond_with JNull) default_client
           (search_by_tags (JStr (js "brands")) (JStr (js "nestle"))
              (JStr (js "contains")))) = []
  /\ trace (searchProducts (respond_with JNull) default_client
              (unprintable_action_search JUndefined)) = [].
Proof.
  split.
  - apply (proj2 (searchProducts_reaches_transport_iff (respond_with JNull)
                    default_client _)).
    intros (_ & _ & _ & [Hgiven | (types & Harr & _)] & _); discriminate.
  - apply (proj2 (searchProducts_reaches_transport_iff (respond_with JNull)
                    default_client _)).
    intros ([Ha | Ha] & _); vm_compute in Ha; discriminate Ha.
Defined.

(** ** Decimal index keys *)

Lemma js_inj (a b : string) : js a = js b -> a = b.
Proof.
  unfold js. intros H.
  rewrite <- (string_of_list_ascii_of_string a), <- (string_of_list_ascii_of_string b).
  f_equal.
  generalize dependent (list_ascii_of_string b).
  induction (list_ascii_of_string a) as [| x xs IH]; intros [| y ys] H;
    try discriminate; [reflexivity|].
  simpl in H. injection H as Hxy Hrest.
  f_equal; [|apply IH; exact Hrest].
  rewrite <- (ascii_N_embedding x), <- (ascii_N_embedding y), Hxy. reflexivity.
Qed.

Lemma to_int_normal (z : Z) : Z.to_int z <> Decimal.Pos Decimal.Nil
                              /\ Z.to_int z <> Decimal.Neg Decimal.Nil.
Proof.
  assert (Hn : Z.to_int z = Decimal.norm (Z.to_int z)).
  { rewrite <- DecimalZ.to_of, DecimalZ.of_to. reflexivity. }
  split; intros H; rewrite H in Hn; simpl in Hn; discriminate.
Qed.

Lemma decimal_parse (z : Z) (s : string) :
  decimal z = js s ->
  DecimalString.NilZero.int_of_string s = Some (Z.to_int z).
Proof.
  unfold decimal. intros H. apply js_inj in H. subst s.
  destruct (to_int_normal z) as [Hp Hn].
  apply DecimalString.NilZero.isi; assumption.
Qed.

Lemma decimal_inj (a b : Z) : decimal a = decimal b -> a = b.
Proof.
  intros H. unfold decimal at 2 in H.
  apply decimal_parse in H.
  destruct (to_int_normal b) as [Hp Hn].
  rewrite (DecimalString.NilZero.isi _ Hp Hn) in H. injection H as H.
  rewrite <- (DecimalZ.of_to a), <- (DecimalZ.of_to b), H. reflexivity.
Qed.

Lemma decimal_not_length (z : Z) : decimal z <> js "length".
Proof.
  intros H. apply decimal_parse in H. vm_compute in H. discriminate.
Qed.

(** Up to [2 ^ 53] a number prints as its decimal numeral. *)
Lemma Number_toString_safe (z : Z) :
  Z.abs z <= 2 ^ 53 -> Number_toString z = decimal z.
Proof.
  intros H. unfold Number_toString.
  destruct (Z.abs z <=? 2 ^ 53) eqn:E; [reflexivity|].
  apply Z.leb_gt in E. lia.
Qed.

(** The decimal spelling of an index is the key of exactly that element. *)
Lemma index_of_key_decimal (i n : nat) :
  Z.of_nat i <= 2 ^ 53 ->
  index_of_key (Number_toString (Z.of_nat i)) n
  = if decide (i < n)%nat then Some i else None.
Proof.
  intros Hsafe. unfold index_of_key.
  assert (Hgen : forall start,
             (start <= i)%nat ->
             find (fun j => str_eqb (Number_toString (Z.of_nat j))
                              (Number_toString (Z.of_nat i)))
               (seq start n)
             = if decide (i < start + n)%nat then Some i else None).
  { induction n as [| n IH]; intros start Hle; simpl.
    - rewrite decide_False by lia. reflexivity.
    - unfold str_eqb at 1.
      destruct (decide (start = i)) as [-> | Hne].
      + rewrite bool_decide_eq_true_2 by reflexivity.
        rewrite decide_True by lia. reflexivity.
      + rewrite bool_decide_eq_false_2.
        * rewrite IH by lia.
          destruct (decide (i < S start + n)%nat);
            [rewrite decide_True by lia | rewrite decide_False by lia];
            reflexivity.
        * intros H. rewrite !Number_toString_safe in H by lia.
          apply decimal_inj in H. lia. }
  apply (Hgen 0%nat). lia.
Qed.

Lemma Get_array_index (xs : list JsVal) (i : nat) :
  Z.of_nat i <= 2 ^ 53 ->
  Get (JArr xs) (Number_toString (Z.of_nat i)) = default JUndefined (xs !! i).
Proof.
  intros Hsafe. unfold Get, str_eqb.
  rewrite bool_decide_eq_false_2
    by (rewrite Number_toString_safe by lia; apply decimal_not_length).
  rewrite index_of_key_decimal by exact Hsafe.
  destruct (decide (i < length xs)%nat) as [Hlt | Hge]; [reflexivity|].
  rewrite lookup_ge_None_2 by lia. reflexivity.
Qed.

(** ** The query of a search, parameter by parameter *)

Lemma search_query_stages params q1 q2 q3 :
  action_ok params ->
  append_search_terms params (base_query params) = Return q1 ->
  append_code params q1 = Return q2 ->
  append_tags params q2 = Return q3 ->
  no_filters params ->
  search_query params = Return q3.
Proof.
  intros Ha H1 H2 H3 (Hf1 & Hf2 & Hf3 & Hf4). unfold search_query.
  rewrite (new_queryParams_ok _ Ha). cbn [and_then].
  rewrite H1. cbn [and_then]. rewrite H2. cbn [and_then].
  rewrite H3. cbn [and_then].
  unfold append_if_truthy, append_toString. rewrite Hf1, Hf2, Hf3, Hf4.
  reflexivity.
Qed.

Lemma append_search_terms_falsy params q :
  truthy (SearchParams.search_terms params) = false ->
  append_search_terms params q = Return q.
Proof. intros H. unfold append_search_terms. rewrite H. reflexivity. Qed.

Lemma append_code_falsy params q :
  truthy (SearchParams.code params) = false ->
  append_code params q = Return q.
Proof. intros H. unfold append_code. rewrite H. reflexivity. Qed.

Lemma append_tags_not_given params q :
  search_tags_given params = false ->
  append_tags params q = Return q.
Proof.
  unfold search_tags_given, append_tags. intros H. rewrite H. reflexivity.
Qed.

(** X21. Parameters that are falsy are left out of the query, not sent
    empty: when the search term, the code, the two filters and the two
    page parameters are all missing or falsy (0 and the empty string
    included) and the three tag parameters are not all given, the query
    holds json=true and the action, "process" unless a truthy one was
    given that can be written into the query, and nothing else, whatever
    [code_type] and the tag parameters that are there may be. *)
Theorem search_query_leaves_out_falsy (params : SearchParams.t) :
  truthy (SearchParams.search_terms params) = false ->
  truthy (SearchParams.code params) = false ->
  search_tags_given params = false ->
  no_filters params ->
  (action_ok params -> search_query params = Return (base_query params))
  /\ (truthy (SearchParams.action params) = false ->
      search_query params
      = Return [(js "json", js "true"); (js "action", js "process")]).
Proof.
  intros Ht Hc Hg Hf.
  assert (Hq : action_ok params -> search_query params = Return (base_query params)).
  { intros Ha.
    apply (search_query_stages params _ _ _ Ha
             (append_search_terms_falsy params _ Ht)
             (append_code_falsy params _ Hc)
             (append_tags_not_given params _ Hg) Hf). }
  split; [exact Hq|].
  intros Ha. rewrite Hq by (left; exact Ha).
  unfold base_query. rewrite Ha. reflexivity.
Qed.

Lemma search_query_leaves_out_falsy_witness :
  search_query falsy_params
  = Return [(js "json", js "true"); (js "action", js "process")].
Proof.
  apply (proj2 (search_query_leaves_out_falsy falsy_params
                  eq_refl eq_refl eq_refl
                  (conj eq_refl (conj eq_refl (conj eq_refl eq_refl))))).
  reflexivity.
Defined.

(** X22. A search by code: for an action that is missing or can be
    written into the query and a code that is a non-empty string of
    digits, and nothing else asked for, the query is json, action, the
    code and, if [code_type] is truthy, a code_type parameter.  Its value
    is contains, starts or ends when [code_type] is exactly that string,
    and exact for every other truthy value. *)
Theorem search_query_code (params : SearchParams.t) (s : jsstring) :
  action_ok params ->
  truthy (SearchParams.search_terms params) = false ->
  SearchParams.code params = JStr s ->
  partial_barcode s ->
  search_tags_given params = false ->
  no_filters params ->
  search_query params
  = Return (base_query params
            ++ (js "code", s)
               :: (if truthy (SearchParams.code_type params)
                   then [(js "code_type", code_type_value (SearchParams.code_type params))]
                   else []))
  /\ (forall mode,
        mode ∈ [js "contains"; js "starts"; js "ends"] ->
        SearchParams.code_type params = JStr mode ->
        code_type_value (SearchParams.code_type params) = mode)
  /\ ((forall mode,
          mode ∈ [js "contains"; js "starts"; js "ends"] ->
          SearchParams.code_type params <> JStr mode) ->
      code_type_value (SearchParams.code_type params) = js "exact").
Proof.
  intros Ha Ht Hc Hs Hg Hf. split; [|split].
  - assert (Htruthy : truthy (SearchParams.code params) = true).
    { rewrite Hc. simpl. unfold str_eqb.
      rewrite bool_decide_eq_false_2 by apply Hs. reflexivity. }
    assert (Hv : _validateBarcode (SearchParams.code params) true = Return tt).
    { apply validateBarcode_partial_returns_iff. eauto. }
    eapply search_query_stages;
      [exact Ha | apply append_search_terms_falsy; exact Ht | | | exact Hf].
    + unfold append_code. rewrite Htruthy, Hv. cbn [and_then].
      rewrite Hc. cbn [ToString and_then]. reflexivity.
    + rewrite append_tags_not_given by exact Hg.
      destruct (truthy (SearchParams.code_type params)).
      * rewrite <- app_assoc. reflexivity.
      * reflexivity.
  - intros mode Hin ->.
    repeat (apply elem_of_cons in Hin as [-> | Hin]; [reflexivity|]).
    inversion Hin.
  - intros Hother. unfold code_type_value.
    destruct (SearchParams.code_type params) as [| | | | m | |] eqn:E; try reflexivity.
    unfold str_eqb.
    destruct (decide (m = js "contains")) as [-> | H1].
    { exfalso. apply (Hother (js "contains")); [set_solver | reflexivity]. }
    rewrite (bool_decide_eq_false_2 _ H1).
    destruct (decide (m = js "starts")) as [-> | H2].
    { exfalso. apply (Hother (js "starts")); [set_solver | reflexivity]. }
    rewrite (bool_decide_eq_false_2 _ H2).
    destruct (decide (m = js "ends")) as [-> | H3].
    { exfalso. apply (Hother (js "ends")); [set_solver | reflexivity]. }
    rewrite (bool_decide_eq_false_2 _ H3). reflexivity.
Qed.

Lemma search_query_code_witness :
  search_query (search_by_code (JStr (js "3017")) (JStr (js "begins")))
  = Return [ (js "json", js "true"); (js "action", js "process");
             (js "code", js "3017"); (js "code_type", js "exact") ].
Proof.
  assert (Hp : partial_barcode (js "3017")).
  { split; [discriminate|]. apply is_digit_decimal. vm_compute. reflexivity. }
  destruct (search_query_code (search_by_code (JStr (js "3017")) (JStr (js "begins")))
              (js "3017") (or_introl eq_refl) eq_refl eq_refl Hp eq_refl
              (conj eq_refl (conj eq_refl (conj eq_refl eq_refl))))
    as (Hq & _ & Hexact).
  rewrite Hq. simpl truthy. cbv iota. rewrite Hexact; [reflexivity|].
  intros mode Hin. simpl.
  repeat (apply elem_of_cons in Hin as [-> | Hin]; [discriminate|]).
  inversion Hin.
Defined.

Lemma convertible_default (xs : list JsVal) (i : nat) :
  Forall (fun v => convertible v = true) xs ->
  convertible (default JUndefined (xs !! i)) = true.
Proof.
  intros Hall. destruct (xs !! i) as [v |] eqn:E; [|reflexivity].
  apply (proj1 (Forall_lookup _ xs) Hall i v E).
Qed.

(** X23. A search by tags: when [tagType], [tag] and [tagContains] are
    arrays of values that can be written into a query (strings, say),
    [tagType] being no longer than an array can be, every element of
    [tagType] contributes, in order, the three parameters tagtype_i,
    tag_contains_i and tag_i with its own index i; the values are taken at
    the same index of the other two arrays, and an array that is too short
    yields the text "undefined" there, while what the other two arrays
    hold beyond the length of [tagType] is not sent. *)
Theorem search_query_tags (params : SearchParams.t) (types tags conts : list JsVal) :
  action_ok params ->
  truthy (SearchParams.search_terms params) = false ->
  truthy (SearchParams.code params) = false ->
  SearchParams.tagType params = JArr types ->
  SearchParams.tag params = JArr tags ->
  SearchParams.tagContains params = JArr conts ->
  Z.of_nat (length types) < 2 ^ 32 ->
  Forall (fun v => convertible v = true) types ->
  Forall (fun v => convertible v = true) tags ->
  Forall (fun v => convertible v = true) conts ->
  no_filters params ->
  search_query params
  = Return (base_query params ++ concat (imap (tag_parameters tags conts) types)).
Proof.
  intros Ha Ht Hc Htype Htag Hcont Hlen Hct Hcg Hcc Hf.
  assert (Hget : forall (i : nat) type,
             types !! i = Some type ->
             Get (SearchParams.tagContains params) (Number_toString (Z.of_nat i))
             = default JUndefined (conts !! i)
             /\ Get (SearchParams.tag params) (Number_toString (Z.of_nat i))
                = default JUndefined (tags !! i)).
  { intros i type Hi. apply lookup_lt_Some in Hi.
    rewrite Htag, Hcont, !Get_array_index by lia. auto. }
  eapply search_query_stages;
    [exact Ha | apply append_search_terms_falsy; exact Ht
    | apply append_code_falsy; exact Hc | | exact Hf].
  unfold append_tags. rewrite Htype, Htag, Hcont. simpl truthy.
  cbv beta iota delta [andb].
  rewrite (forEach_tagType_returns params types 0).
  - cbn [and_then]. apply (f_equal Return). apply (f_equal (app _)).
    apply (f_equal (@concat _)). apply imap_ext. intros i type Hi.
    unfold tag_values, tag_parameters. simpl Nat.add.
    destruct (Hget i type Hi) as [-> ->]. reflexivity.
  - intros i type Hi. simpl Nat.add. unfold tag_values_convertible.
    destruct (Hget i type Hi) as [-> ->].
    rewrite (proj1 (Forall_lookup _ types) Hct i type Hi).
    rewrite !convertible_default by assumption. reflexivity.
Qed.

Lemma search_query_tags_witness :
  search_query two_tag_search
  = Return [ (js "json", js "true"); (js "action", js "process");
             (js "tagtype_0", js "brands"); (js "tag_contains_0", js "contains");
             (js "tag_0", js "nestle");
             (js "tagtype_1", js "labels");
             (js "tag_contains_1", js "does_not_contain");
             (js "tag_1", js "undefined") ].
Proof.
  rewrite (search_query_tags two_tag_search
             [JStr (js "brands"); JStr (js "labels")]
             [JStr (js "nestle")]
             [JStr (js "contains"); JStr (js "does_not_contain"); JStr (js "extra")]
             (or_introl eq_refl) eq_refl eq_refl eq_refl eq_refl eq_refl).
  - vm_compute. reflexivity.
  - vm_compute. reflexivity.
  - repeat constructor.
  - repeat constructor.
  - repeat constructor.
  - repeat split; reflexivity.
Defined.

(** ** Random insights *)

(** X24. [getRandomInsight] asks the Robotoff host, whatever the endpoint
    of the client is.  A missing [count] is sent as 1; any other value
    whose [toString()] gives a string, 0 included, is sent as that string;
    [lang] is sent when it is truthy.  A [count] on which [toString]
    cannot be called, such as [null], fails without a request, with
    "Failed to fetch random insight: " before the engine's message. *)
Theorem getRandomInsight_request
    (fetch : Transport) (this : OpenFoodFactsAPI) (count lang : JsVal) :
  (writable lang ->
   (count = JUndefined ->
    trace (getRandomInsight fetch this count lang)
    = [EvFetch (insight_request ((js "count", js "1") :: lang_parameter lang))])
   /\ (forall text,
         count <> JUndefined ->
         toString_method (js "count") count = Return text ->
         trace (getRandomInsight fetch this count lang)
         = [EvFetch (insight_request ((js "count", text) :: lang_parameter lang))]))
  /\ (forall e,
        count <> JUndefined ->
        toString_method (js "count") count = Throw e ->
        getRandomInsight fetch this count lang
        = ([], Throw (Error (js "Failed to fetch random insight: " ++ message e))))
  /\ (forall z, toString_method (js "count") (JNum z) = Return (Number_toString z))
  /\ (forall s, toString_method (js "count") (JStr s) = Return s).
Proof.
  assert (Hrun : forall c text,
             writable lang ->
             toString_method (js "count") c = Return text ->
             trace (try_catch
                      (bind (lift (toString_method (js "count") c))
                         (fun text =>
                            bind (lift (append_if_truthy (js "lang") lang
                                          [(js "count", text)]))
                              (fun queryParams =>
                                 bind (call_fetch fetch
                                         {| url := js "https://robotoff.openfoodfacts.org/api/v1/questions/random?";
                                            query := Some queryParams;
                                            method := None; headers := None;
                                            body := None |})
                                   (fun response =>
                                      if negb (ok response)
                                      then throw (Error (http_error response))
                                      else lift (json response)))))
                      (fun error => throw (Error (js "Failed to fetch random insight: "
                                                 ++ message error))))
             = [EvFetch (insight_request ((js "count", text) :: lang_parameter lang))]).
  { intros c text Hw Hc. rewrite Hc, bind_lift_return.
    rewrite (append_if_truthy_writable _ _ _ Hw), bind_lift_return.
    replace (if truthy lang
             then [(js "count", text)] ++ [(js "lang", text_of lang)]
             else [(js "count", text)])
      with ((js "count", text) :: lang_parameter lang)
      by (unfold lang_parameter; destruct (truthy lang); reflexivity).
    apply guarded_fetch; [|reflexivity].
    intros response. destruct (negb (ok response)); reflexivity. }
  split; [|split; [|split]].
  - intros Hw. split.
    + intros ->. apply (Hrun (JNum 1) _ Hw). reflexivity.
    + intros text Hu Hc. unfold getRandomInsight.
      replace (match count with JUndefined => JNum 1 | _ => count end) with count
        by (destruct count; congruence).
      cbv zeta. apply (Hrun count text Hw Hc).
  - intros e Hu Hc. unfold getRandomInsight.
    replace (match count with JUndefined => JNum 1 | _ => count end) with count
      by (destruct count; congruence).
    cbv zeta. rewrite Hc. reflexivity.
  - reflexivity.
  - reflexivity.
Qed.

Lemma getRandomInsight_request_witness :
  trace (getRandomInsight (respond_with JNull) authenticated_client
           JUndefined (JStr (js "fr")))
  = [EvFetch (insight_request [(js "count", js "1"); (js "lang", js "fr")])]
  /\ trace (getRandomInsight (respond_with JNull) authenticated_client
              (JNum 0) JUndefined)
     = [EvFetch (insight_request [(js "count", js "0")])]
  /\ trace (getRandomInsight (respond_with JNull) authenticated_client
              (JNum (10 ^ 21)) JUndefined)
     = [EvFetch (insight_request [(js "count", js "1e+21")])]
  /\ getRandomInsight (respond_with JNull) authenticated_client unprintable JUndefined
     = ([], Throw (Error (js "Failed to fetch random insight: count.toString is not a function"))).
Proof.
  split; [|split; [|split]].
  - destruct (getRandomInsight_request (respond_with JNull)
                authenticated_client JUndefined (JStr (js "fr"))) as (H & _).
    apply (proj1 (H (or_intror eq_refl))). reflexivity.
  - destruct (getRandomInsight_request (respond_with JNull)
                authenticated_client (JNum 0) JUndefined) as (H & _).
    apply (proj2 (H (or_introl eq_refl)) (js "0")); [discriminate|reflexivity].
  - destruct (getRandomInsight_request (respond_with JNull)
                authenticated_client (JNum (10 ^ 21)) JUndefined) as (H & _).
    apply (proj2 (H (or_introl eq_refl)) (js "1e+21")); [discriminate|].
    vm_compute. reflexivity.
  - destruct (getRandomInsight_request (respond_with JNull)
                authenticated_client unprintable JUndefined) as (_ & H & _).
    apply (H (TypeError (js "count.toString is not a function")));
      [discriminate|reflexivity].
Defined.

(** ** From [setCredentials] to the request *)

(** X25. The credentials an instance sends are the ones it was last given:
    after an accepted [setCredentials] on a client with an https endpoint,
    [addProduct] for a valid barcode, with no brands and no labels, posts
    exactly the barcode, the user id and the password, the two strings as
    they were passed, untrimmed. *)
Theorem credentials_set_are_credentials_sent
    (fetch : Transport) (σ : Store) (l : positive) (this : OpenFoodFactsAPI)
    (us ps : jsstring) (data : ProductData.t) :
  σ !! l = Some this ->
  startsWith (baseUrl this) (js "https://") = true ->
  trim us <> [] -> trim ps <> [] ->
  _validateBarcode (ProductData.code data) false = Return tt ->
  truthy (ProductData.brands data) = false ->
  truthy (ProductData.labels data) = false ->
  trace (invoke fetch l (Call_addProduct data)
           (invoke fetch l (Call_setCredentials (JStr us) (JStr ps)) σ).1).2
  = [EvFetch (write_request this (js "/cgi/product_jqm2.pl")
                [ (js "code", FormString (text_of (ProductData.code data)));
                  (js "user_id", FormString us);
                  (js "password", FormString ps) ])].
Proof.
  intros Hl Hs Hu Hp Hb Hbr Hla.
  assert (Hset : setCredentials this (JStr us) (JStr ps)
                 = Return {| baseUrl := baseUrl this;
                             credentials := Some {| userId := us; password := ps |} |}).
  { unfold setCredentials, truthy, str_eqb.
    rewrite !bool_decide_eq_false_2 by assumption. reflexivity. }
  unfold invoke at 2. rewrite Hl, Hset. simpl fst.
  unfold invoke. rewrite lookup_insert_eq. simpl snd. simpl read_only_call.
  unfold addProduct. simpl credentials.
  unfold _validateSecureConnection. simpl baseUrl. rewrite Hs. simpl negb.
  cbv iota. rewrite bind_lift_return, Hb, bind_lift_return.
  rewrite (validated_barcode_converts _ _ _ Hb), bind_lift_return.
  unfold append_sanitized at 1. rewrite Hbr, bind_lift_return.
  unfold append_sanitized. rewrite Hla, bind_lift_return.
  apply guarded_fetch; [|reflexivity].
  intros response. destruct (negb (ok response)); reflexivity.
Qed.

Lemma credentials_set_are_credentials_sent_witness :
  trace (invoke (respond_with JNull) 1 (Call_addProduct test_product_data)
           (invoke (respond_with JNull) 1
              (Call_setCredentials (JStr (js " bob ")) (JStr (js "secret")))
              one_client_store).1).2
  = [EvFetch (write_request authenticated_client (js "/cgi/product_jqm2.pl")
                [ (js "code", FormString (js "123456789"));
                  (js "user_id", FormString (js " bob "));
                  (js "password", FormString (js "secret")) ])].
Proof.
  apply (credentials_set_are_credentials_sent (respond_with JNull)
           one_client_store 1 authenticated_client (js " bob ") (js "secret")
           test_product_data eq_refl eq_refl); try discriminate; reflexivity.
Defined.
